(** * Tiendita: the inventory-consistent transaction engine of [backend/main.py]

    A shallow embedding of the FastAPI/SQLAlchemy backend: the five tables,
    the session (identity map plus uncommitted changes) that every endpoint
    receives from [get_db], and the endpoint functions, up to the value
    they return or the exception they raise.

    Conventions of the embedding:
    - Python [int] is [Z]; Python [float] is the binary64 [float] of the
      kernel, so sums and products round exactly as in the interpreter;
    - an integer that comes from a request reaches SQLite as a bound
      parameter, and the driver raises [OverflowError] for one outside
      signed 64 bits: the key of a query ([enlazar]), [LIMIT] and
      [OFFSET], and, at the flush of [commit], the quantities of the rows
      the session has added or changed ([enteros_por_escribir]);
    - a [Float] column is read back as SQLite keeps it: [-0.0] as [0.0]
      ([REAL]) and a NaN as [NULL], which Python reads as [None].  The
      column keeps the type [float], and a NaN in a column is that [NULL]
      ([es_None]): arithmetic on it raises [TypeError], and a pydantic
      model refuses it for a [float] field ([ValidationError]);
    - keys are given by the store, one more than the largest in the table
      ([siguiente_id]), as SQLite gives them while keys below [2^63 - 1]
      are left;
    - [func.now()] is a parameter [ahora] of the endpoints that insert a
      timestamped row;
    - an endpoint is a computation over a [Session]; [Depends_get_db] runs
      it on a fresh session and closes the session afterwards, whatever
      the outcome, as the generator [get_db] does. *)

From Stdlib Require Import ZArith List String Bool Lia Floats DecimalString.
Import ListNotations.
Open Scope Z_scope.

(** Decimal prices such as [0.1] are read as the nearest double, as the
    interpreter reads them. *)
Set Warnings "-inexact-float".

(** ** Exceptions and results *)

Inductive Excepcion : Type :=
| HTTPException (status_code : Z) (detail : string)
| IntegrityError
| OverflowError
| AttributeError
| TypeError
| ValidationError.

Inductive Resultado (A : Type) : Type :=
| Retorna (a : A)
| Lanza (e : Excepcion).
Arguments Retorna {A} a.
Arguments Lanza {A} e.

(** The status the HTTP layer answers with: an [HTTPException] carries its
    own, any other exception that escapes the endpoint is a 500. *)
Definition estado_http {A} (r : Resultado A) : Z :=
  match r with
  | Retorna _ => 200
  | Lanza (HTTPException c _) => c
  | Lanza _ => 500
  end.

(** ** Numbers *)

(** [str(n)] inside an f-string. *)
Definition str (n : Z) : string := NilZero.string_of_int (Z.to_int n).

(** [float(n)] with round-to-nearest-even, as [PyLong_AsDouble] computes
    it when the result is finite. *)
Definition Z2float (n : Z) : float :=
  SF2Prim (binary_normalize prec emax n 0 false).

(** The integers whose conversion does not overflow: everything strictly
    below the midpoint between the largest double and [2^1024]. *)
Definition cabe_en_float (n : Z) : bool :=
  Z.abs n <? 2 ^ 1024 - 2 ^ 970.

(** The integers the SQLite driver binds: signed 64 bits. *)
Definition en_int64 (n : Z) : bool :=
  (- 2 ^ 63 <=? n) && (n <? 2 ^ 63).

(** A value read from a [Float] column is [None]: the column holds
    [NULL], which is what SQLite keeps of a NaN. *)
Definition es_None (x : float) : bool := PrimFloat.is_nan x.

(** A float of a request as it is read back from a [Float] column:
    SQLite keeps [-0.0] as [0.0]; a NaN stays, as the [NULL] it is kept
    as; every other value is kept as it is. *)
Definition REAL (x : float) : float :=
  if (x =? 0)%float then 0%float else x.

(** [x * n] for the value [x] of a [Float] column and an int [n]:
    [None * n] raises [TypeError]; otherwise the int is converted first,
    and the conversion raises [OverflowError] when it does not fit. *)
Definition float_por_int (x : float) (n : Z) : Resultado float :=
  if es_None x then Lanza TypeError
  else if cabe_en_float n then Retorna (x * Z2float n)%float
  else Lanza OverflowError.

(** [columna += x] on the value of a [Float] column: [None + x] raises
    [TypeError]. *)
Definition mas_igual (columna x : float) : Resultado float :=
  if es_None columna then Lanza TypeError else Retorna (columna + x)%float.

(** ** ORM classes (the tables)

    In the [Float] columns ([precio], [total], [precio_unitario]) a NaN
    is the [NULL] of the column. *)

Module ProductoDB.
Record t : Type := mk {
  id : Z;
  nombre : string;
  codigo_barras : string;
  precio : float;
  cantidad : Z
}.
Definition con_cantidad (p : t) (c : Z) : t :=
  mk (id p) (nombre p) (codigo_barras p) (precio p) c.
End ProductoDB.

Module VentaDB.
Record t : Type := mk {
  id : Z;
  fecha : Z;
  total : float
}.
End VentaDB.

Module DetalleVentaDB.
Record t : Type := mk {
  id : Z;
  venta_id : Z;
  producto_id : Z;
  cantidad : Z;
  precio_unitario : float
}.
End DetalleVentaDB.

Module CuentaPendienteDB.
Record t : Type := mk {
  id : Z;
  nombre_cliente : string;
  fecha_creacion : Z;
  estado : string;
  total : float
}.
Definition con_estado (c : t) (e : string) : t :=
  mk (id c) (nombre_cliente c) (fecha_creacion c) e (total c).
Definition con_total (c : t) (x : float) : t :=
  mk (id c) (nombre_cliente c) (fecha_creacion c) (estado c) x.
End CuentaPendienteDB.

Module DetalleCuentaPendienteDB.
Record t : Type := mk {
  id : Z;
  cuenta_id : Z;
  producto_id : Z;
  cantidad : Z;
  precio_unitario : float
}.
End DetalleCuentaPendienteDB.

(** A detail object between its construction and the flush that gives it
    a primary key and a parent: only the three keyword arguments of the
    constructor call are set. *)
Record DetalleNuevo : Type := mkDetalleNuevo {
  dn_producto_id : Z;
  dn_cantidad : Z;
  dn_precio_unitario : float
}.

(** ** Pydantic schemas *)

Record ProductoCreate : Type := mkProductoCreate {
  pc_nombre : string;
  pc_codigo_barras : string;
  pc_precio : float;
  pc_cantidad : Z
}.

(** Request line: [DetalleVentaCreate] and [DetalleCuentaPendienteCreate]
    have the same two fields. *)
Record DetalleCreate : Type := mkDetalleCreate {
  dc_producto_id : Z;
  dc_cantidad : Z
}.

Record VentaCreate : Type := mkVentaCreate {
  vc_detalles : list DetalleCreate
}.

Record CuentaPendienteCreate : Type := mkCuentaPendienteCreate {
  cc_nombre_cliente : string;
  cc_detalles : list DetalleCreate
}.

Record AgregarProductosCuentaRequest : Type := mkAgregarProductosCuentaRequest {
  ar_detalles : list DetalleCreate
}.

(** Response line: [DetalleVenta] and [DetalleCuentaPendiente]. *)
Record Detalle : Type := mkDetalle {
  d_producto_id : Z;
  d_cantidad : Z;
  d_precio_unitario : float;
  d_nombre_producto : option string
}.

Record Venta : Type := mkVenta {
  v_id : Z;
  v_fecha : Z;
  v_total : float;
  v_detalles : list Detalle
}.

Record CuentaPendiente : Type := mkCuentaPendiente {
  c_id : Z;
  c_nombre_cliente : string;
  c_fecha_creacion : Z;
  c_estado : string;
  c_total : float;
  c_detalles : list Detalle
}.

(** ** The database and the session *)

Record Tablas : Type := mkTablas {
  productos : list ProductoDB.t;
  ventas : list VentaDB.t;
  detalles_venta : list DetalleVentaDB.t;
  cuentas_pendientes : list CuentaPendienteDB.t;
  detalles_cuenta_pendiente : list DetalleCuentaPendienteDB.t
}.

Definition base_vacia : Tablas := mkTablas [] [] [] [] [].

(** [en_disco] is what has been committed; [en_sesion] is what the
    endpoint sees through the session: the committed rows with the
    attribute changes and additions made so far. *)
Record Session : Type := mkSession {
  en_disco : Tablas;
  en_sesion : Tablas
}.

Definition SessionLocal (t : Tablas) : Session := mkSession t t.

(** ** The monad of endpoint bodies: session state plus exceptions *)

Definition M (A : Type) : Type := Session -> Resultado A * Session.

Definition ret {A} (a : A) : M A := fun s => (Retorna a, s).

Definition bind {A B} (m : M A) (k : A -> M B) : M B :=
  fun s => match m s with
           | (Retorna a, s') => k a s'
           | (Lanza e, s') => (Lanza e, s')
           end.

Definition raise {A} (e : Excepcion) : M A := fun s => (Lanza e, s).

Definition alzar {A} (r : Resultado A) : M A := fun s => (r, s).

Notation "x <- m ;; k" := (bind m (fun x => k))
  (at level 61, m at next level, right associativity).
Notation "' p <- m ;; k" := (bind m (fun x => match x with p => k end))
  (at level 61, p pattern, m at next level, right associativity).
Notation "m ;;; k" := (bind m (fun _ => k))
  (at level 61, right associativity).

(** [try: m  except Exception: h]. *)
Definition try_except {A} (m : M A) (h : M A) : M A :=
  fun s => match m s with
           | (Retorna a, s') => (Retorna a, s')
           | (Lanza _, s') => h s'
           end.

(** [for x in xs: acc = cuerpo(acc, x)]. *)
Fixpoint for_each {A B} (xs : list A) (acc : B) (cuerpo : B -> A -> M B) : M B :=
  match xs with
  | [] => ret acc
  | x :: xs' => acc' <- cuerpo acc x ;; for_each xs' acc' cuerpo
  end.

Definition leer {A} (f : Tablas -> A) : M A :=
  fun s => (Retorna (f (en_sesion s)), s).

Definition modificar (f : Tablas -> Tablas) : M unit :=
  fun s => (Retorna tt, mkSession (en_disco s) (f (en_sesion s))).

(** ** The flush *)

(** The [unique=True] index on [codigo_barras]. *)
Fixpoint codigos_unicos (ps : list ProductoDB.t) : bool :=
  match ps with
  | [] => true
  | p :: ps' =>
      negb (existsb (fun q => String.eqb (ProductoDB.codigo_barras q)
                                         (ProductoDB.codigo_barras p)) ps')
      && codigos_unicos ps'
  end.

(** The row [x] of the session is on disk under the same key with the
    same quantity: the flush has no quantity to write for it. *)
Definition cantidad_en_disco {A} (clave cantidad : A -> Z) (disco : list A) (x : A)
    : bool :=
  existsb (fun y => (clave y =? clave x) && (cantidad y =? cantidad x)) disco.

(** The quantities the flush binds for one table: those of the rows that
    are new, and of the rows whose quantity was assigned a value other
    than the one on disk. *)
Definition cantidades_por_escribir {A} (clave cantidad : A -> Z)
    (disco sesion : list A) : list Z :=
  map cantidad
    (filter (fun x => negb (cantidad_en_disco clave cantidad disco x)) sesion).

(** The integers of the requests that the flush binds: [cantidad] is the
    only [Integer] column an endpoint fills from a request; keys and
    foreign keys come from the store. *)
Definition enteros_por_escribir (disco sesion : Tablas) : list Z :=
  cantidades_por_escribir ProductoDB.id ProductoDB.cantidad
    (productos disco) (productos sesion)
  ++ cantidades_por_escribir DetalleVentaDB.id DetalleVentaDB.cantidad
       (detalles_venta disco) (detalles_venta sesion)
  ++ cantidades_por_escribir DetalleCuentaPendienteDB.id
       DetalleCuentaPendienteDB.cantidad
       (detalles_cuenta_pendiente disco) (detalles_cuenta_pendiente sesion).

Definition escribible (disco sesion : Tablas) : bool :=
  forallb en_int64 (enteros_por_escribir disco sesion).

(** [db.commit()]: the pending changes are flushed and committed.  The
    flush raises [OverflowError] when a quantity it has to write is
    outside signed 64 bits, and [IntegrityError] when the write would
    leave two products with one barcode; nothing is written then.  What
    is written is read back as SQLite keeps it (see [REAL], [es_None]). *)
Definition commit : M unit :=
  fun s =>
    if escribible (en_disco s) (en_sesion s)
    then if codigos_unicos (productos (en_sesion s))
         then (Retorna tt, mkSession (en_sesion s) (en_sesion s))
         else (Lanza IntegrityError, s)
    else (Lanza OverflowError, s).

(** [db.rollback()]. *)
Definition rollback : M unit :=
  fun s => (Retorna tt, mkSession (en_disco s) (en_disco s)).

(** [get_db]: a session is opened on the database, handed to the
    endpoint, and closed in the [finally] clause; closing drops whatever
    was not committed. *)
Definition Depends_get_db {A} (endpoint : M A) (t : Tablas) : Resultado A * Tablas :=
  let (r, s) := endpoint (SessionLocal t) in (r, en_disco s).

(** The key an [Integer] primary key gets on insert: one more than the
    largest in the table, 1 in an empty table. *)
Definition siguiente_id (ids : list Z) : Z :=
  match ids with
  | [] => 1
  | i :: ids' => fold_left Z.max ids' i + 1
  end.

(** ** Queries and attribute assignments *)

(** [.first()] of a filtered query is [find]; assigning to an attribute
    of the object it returned changes that row, the first one the filter
    accepts, in the session. *)
Fixpoint actualizar_primero {A} (es : A -> bool) (f : A -> A) (filas : list A) : list A :=
  match filas with
  | [] => []
  | x :: filas' =>
      if es x then f x :: filas' else x :: actualizar_primero es f filas'
  end.

(** [db.delete(obj)] for the object a filtered [.first()] returned. *)
Fixpoint eliminar_primero {A} (es : A -> bool) (filas : list A) : list A :=
  match filas with
  | [] => []
  | x :: filas' => if es x then filas' else x :: eliminar_primero es filas'
  end.

(** The key [i] of a request is bound as the parameter of a query on a
    table whose keys are [claves]: the driver raises [OverflowError]
    when [i] is outside signed 64 bits.  The keys of the table are keys
    SQLite holds, within 64 bits whatever [Z] allows: a key that is in
    the table is bound. *)
Definition clave_enlazable (i : Z) (claves : list Z) : bool :=
  en_int64 i || existsb (Z.eqb i) claves.

Definition enlazar (i : Z) (claves : Tablas -> list Z) : M unit :=
  fun s => (if clave_enlazable i (claves (en_sesion s))
            then Retorna tt else Lanza OverflowError, s).

Definition claves_de_productos (t : Tablas) : list Z :=
  map ProductoDB.id (productos t).

Definition claves_de_ventas (t : Tablas) : list Z :=
  map VentaDB.id (ventas t).

Definition claves_de_cuentas (t : Tablas) : list Z :=
  map CuentaPendienteDB.id (cuentas_pendientes t).

Definition es_producto (i : Z) (p : ProductoDB.t) : bool :=
  ProductoDB.id p =? i.

(** The row that [db.query(ProductoDB).filter(ProductoDB.id == i).first()]
    finds once [i] is bound, and the row the relationship [d.producto]
    of a line loads. *)
Definition producto_por_id (i : Z) (t : Tablas) : option ProductoDB.t :=
  find (es_producto i) (productos t).

Definition es_cuenta_pendiente (i : Z) (c : CuentaPendienteDB.t) : bool :=
  (CuentaPendienteDB.id c =? i) && String.eqb (CuentaPendienteDB.estado c) "pendiente".

(** The row that [db.query(CuentaPendienteDB).filter(CuentaPendienteDB.id
    == i, CuentaPendienteDB.estado == "pendiente").first()] finds once
    [i] is bound. *)
Definition cuenta_pendiente_por_id (i : Z) (t : Tablas) : option CuentaPendienteDB.t :=
  find (es_cuenta_pendiente i) (cuentas_pendientes t).

Definition es_venta (i : Z) (v : VentaDB.t) : bool := VentaDB.id v =? i.

(** The row that [db.query(VentaDB).filter(VentaDB.id == i).first()]
    finds once [i] is bound. *)
Definition venta_por_id (i : Z) (t : Tablas) : option VentaDB.t :=
  find (es_venta i) (ventas t).

(** The relationship [venta.detalles]. *)
Definition detalles_de_venta (i : Z) (t : Tablas) : list DetalleVentaDB.t :=
  filter (fun d => DetalleVentaDB.venta_id d =? i) (detalles_venta t).

(** The relationship [cuenta.detalles]. *)
Definition detalles_de_cuenta (i : Z) (t : Tablas) : list DetalleCuentaPendienteDB.t :=
  filter (fun d => DetalleCuentaPendienteDB.cuenta_id d =? i) (detalles_cuenta_pendiente t).

Definition con_productos (t : Tablas) (ps : list ProductoDB.t) : Tablas :=
  mkTablas ps (ventas t) (detalles_venta t) (cuentas_pendientes t)
           (detalles_cuenta_pendiente t).

Definition con_cuentas (t : Tablas) (cs : list CuentaPendienteDB.t) : Tablas :=
  mkTablas (productos t) (ventas t) (detalles_venta t) cs
           (detalles_cuenta_pendiente t).

(** [producto.cantidad = c] on the object found by id [i]. *)
Definition asignar_cantidad (i c : Z) (t : Tablas) : Tablas :=
  con_productos t
    (actualizar_primero (es_producto i)
       (fun p => ProductoDB.con_cantidad p c) (productos t)).

(** Flushing new sale lines under the sale [vid], in list order. *)
Fixpoint insertar_detalles_venta (vid : Z) (nuevos : list DetalleNuevo)
    (filas : list DetalleVentaDB.t) : list DetalleVentaDB.t :=
  match nuevos with
  | [] => filas
  | n :: nuevos' =>
      insertar_detalles_venta vid nuevos'
        (filas ++ [DetalleVentaDB.mk
                     (siguiente_id (map DetalleVentaDB.id filas)) vid
                     (dn_producto_id n) (dn_cantidad n) (dn_precio_unitario n)])
  end.

(** Flushing new account lines under the account [cid], in list order. *)
Fixpoint insertar_detalles_cuenta (cid : Z) (nuevos : list DetalleNuevo)
    (filas : list DetalleCuentaPendienteDB.t) : list DetalleCuentaPendienteDB.t :=
  match nuevos with
  | [] => filas
  | n :: nuevos' =>
      insertar_detalles_cuenta cid nuevos'
        (filas ++ [DetalleCuentaPendienteDB.mk
                     (siguiente_id (map DetalleCuentaPendienteDB.id filas)) cid
                     (dn_producto_id n) (dn_cantidad n) (dn_precio_unitario n)])
  end.

(** [venta_db = VentaDB(total=total, detalles=detalles_db); db.add(venta_db)] *)
Definition add_venta (ahora : Z) (total : float) (detalles_db : list DetalleNuevo)
    : M VentaDB.t :=
  fun s =>
    let t := en_sesion s in
    let venta_db := VentaDB.mk (siguiente_id (map VentaDB.id (ventas t))) ahora total in
    (Retorna venta_db,
     mkSession (en_disco s)
       (mkTablas (productos t) (ventas t ++ [venta_db])
          (insertar_detalles_venta (VentaDB.id venta_db) detalles_db (detalles_venta t))
          (cuentas_pendientes t) (detalles_cuenta_pendiente t))).

(** [cuenta_db = CuentaPendienteDB(nombre_cliente=..., total=total,
    detalles=detalles_db); db.add(cuenta_db)]; [estado] takes its default. *)
Definition add_cuenta (ahora : Z) (nombre_cliente : string) (total : float)
    (detalles_db : list DetalleNuevo) : M CuentaPendienteDB.t :=
  fun s =>
    let t := en_sesion s in
    let cuenta_db :=
      CuentaPendienteDB.mk (siguiente_id (map CuentaPendienteDB.id (cuentas_pendientes t)))
        nombre_cliente ahora "pendiente" total in
    (Retorna cuenta_db,
     mkSession (en_disco s)
       (mkTablas (productos t) (ventas t) (detalles_venta t)
          (cuentas_pendientes t ++ [cuenta_db])
          (insertar_detalles_cuenta (CuentaPendienteDB.id cuenta_db) detalles_db
             (detalles_cuenta_pendiente t)))).

(** [db.add(detalle)] for a line built with its [cuenta_id]. *)
Definition add_detalle_cuenta (cid : Z) (n : DetalleNuevo) : M unit :=
  modificar (fun t =>
    mkTablas (productos t) (ventas t) (detalles_venta t) (cuentas_pendientes t)
      (insertar_detalles_cuenta cid [n] (detalles_cuenta_pendiente t))).

(** ** The answers

    The answers are built from what is read back after the commit. *)

(** One response line, [DetalleVenta(producto_id=..., cantidad=...,
    precio_unitario=..., nombre_producto=d.producto.nombre)]:
    [d.producto.nombre] raises [AttributeError] when the product row is
    gone and [d.producto] is [None]; pydantic then refuses a
    [precio_unitario] that is [None]. *)
Definition a_detalle (t : Tablas) (producto_id cantidad : Z) (precio_unitario : float)
    : Resultado Detalle :=
  match producto_por_id producto_id t with
  | Some p =>
      if es_None precio_unitario then Lanza ValidationError
      else Retorna (mkDetalle producto_id cantidad precio_unitario
                      (Some (ProductoDB.nombre p)))
  | None => Lanza AttributeError
  end.

(** Building a list element by element, stopping at the first exception. *)
Fixpoint cada_uno {A B} (f : A -> Resultado B) (xs : list A) : Resultado (list B) :=
  match xs with
  | [] => Retorna []
  | x :: xs' =>
      match f x with
      | Lanza e => Lanza e
      | Retorna y =>
          match cada_uno f xs' with
          | Lanza e => Lanza e
          | Retorna ys => Retorna (y :: ys)
          end
      end
  end.

Definition detalles_respuesta_venta (t : Tablas) (ds : list DetalleVentaDB.t)
    : Resultado (list Detalle) :=
  cada_uno (fun d => a_detalle t (DetalleVentaDB.producto_id d)
                       (DetalleVentaDB.cantidad d) (DetalleVentaDB.precio_unitario d)) ds.

Definition detalles_respuesta_cuenta (t : Tablas) (ds : list DetalleCuentaPendienteDB.t)
    : Resultado (list Detalle) :=
  cada_uno (fun d => a_detalle t (DetalleCuentaPendienteDB.producto_id d)
                       (DetalleCuentaPendienteDB.cantidad d)
                       (DetalleCuentaPendienteDB.precio_unitario d)) ds.

(** [Venta(id=v.id, fecha=v.fecha, total=v.total, detalles=detalles)]:
    the model refuses a [total] that is [None]. *)
Definition a_venta (v : VentaDB.t) (detalles : list Detalle) : Resultado Venta :=
  if es_None (VentaDB.total v) then Lanza ValidationError
  else Retorna (mkVenta (VentaDB.id v) (VentaDB.fecha v) (VentaDB.total v) detalles).

(** [CuentaPendiente(id=c.id, ..., total=c.total, detalles=detalles)]. *)
Definition a_cuenta_pendiente (c : CuentaPendienteDB.t) (detalles : list Detalle)
    : Resultado CuentaPendiente :=
  if es_None (CuentaPendienteDB.total c) then Lanza ValidationError
  else Retorna (mkCuentaPendiente (CuentaPendienteDB.id c)
                  (CuentaPendienteDB.nombre_cliente c)
                  (CuentaPendienteDB.fecha_creacion c) (CuentaPendienteDB.estado c)
                  (CuentaPendienteDB.total c) detalles).

(** The answer for the sale [v] in [t]: its lines are loaded, each with
    the name of its product, and then the sale is built. *)
Definition respuesta_venta (t : Tablas) (v : VentaDB.t) : Resultado Venta :=
  match detalles_respuesta_venta t (detalles_de_venta (VentaDB.id v) t) with
  | Retorna detalles => a_venta v detalles
  | Lanza e => Lanza e
  end.

Definition responder_venta (v : VentaDB.t) : M Venta :=
  fun s => (respuesta_venta (en_sesion s) v, s).

(** The answer for the account [c] in [t], the tail shared by the
    account endpoints. *)
Definition respuesta_cuenta (t : Tablas) (c : CuentaPendienteDB.t)
    : Resultado CuentaPendiente :=
  match detalles_respuesta_cuenta t (detalles_de_cuenta (CuentaPendienteDB.id c) t) with
  | Retorna detalles => a_cuenta_pendiente c detalles
  | Lanza e => Lanza e
  end.

Definition responder_cuenta (c : CuentaPendienteDB.t) : M CuentaPendiente :=
  fun s => (respuesta_cuenta (en_sesion s) c, s).

(** ** Product endpoints *)

(** [POST /api/productos].  The new row takes the next key; a commit
    that fails, for whatever reason, is rolled back and answered 400.
    The object returned is the row as [db.refresh] reads it back. *)
Definition crear_producto_cuerpo (producto : ProductoCreate) : M ProductoDB.t :=
  db_producto <- leer (fun t =>
      ProductoDB.mk (siguiente_id (map ProductoDB.id (productos t)))
        (pc_nombre producto) (pc_codigo_barras producto)
        (REAL (pc_precio producto)) (pc_cantidad producto)) ;;
  modificar (fun t => con_productos t (productos t ++ [db_producto])) ;;;
  try_except
    commit
    (rollback ;;;
     raise (HTTPException 400 "Código de barras ya registrado")) ;;;
  ret db_producto.

Definition crear_producto (producto : ProductoCreate) :=
  Depends_get_db (crear_producto_cuerpo producto).

(** [PUT /api/productos/{producto_id}].  The four fields of the request
    are assigned to the row found, whatever they are. *)
Definition editar_producto_cuerpo (producto_id : Z) (producto : ProductoCreate)
    : M ProductoDB.t :=
  enlazar producto_id claves_de_productos ;;;
  db_producto <- leer (producto_por_id producto_id) ;;
  match db_producto with
  | None => raise (HTTPException 404 "Producto no encontrado")
  | Some db_producto =>
      let db_producto :=
        ProductoDB.mk (ProductoDB.id db_producto)
          (pc_nombre producto) (pc_codigo_barras producto)
          (REAL (pc_precio producto)) (pc_cantidad producto) in
      modificar (fun t => con_productos t
        (actualizar_primero (es_producto producto_id) (fun _ => db_producto)
           (productos t))) ;;;
      try_except
        commit
        (rollback ;;;
         raise (HTTPException 400 "Error al actualizar el producto")) ;;;
      ret db_producto
  end.

Definition editar_producto (producto_id : Z) (producto : ProductoCreate) :=
  Depends_get_db (editar_producto_cuerpo producto_id producto).

(** [DELETE /api/productos/{producto_id}].  Lines that name the product
    stay where they are. *)
Definition eliminar_producto_cuerpo (producto_id : Z) : M string :=
  enlazar producto_id claves_de_productos ;;;
  db_producto <- leer (producto_por_id producto_id) ;;
  match db_producto with
  | None => raise (HTTPException 404 "Producto no encontrado")
  | Some _ =>
      modificar (fun t => con_productos t
        (eliminar_primero (es_producto producto_id) (productos t))) ;;;
      commit ;;;
      ret "Producto eliminado"%string
  end.

Definition eliminar_producto (producto_id : Z) :=
  Depends_get_db (eliminar_producto_cuerpo producto_id).

(** ** Sale endpoint *)

(** One turn of the loop of [crear_venta]: the product is looked up
    through the session, so a product met again is met as the earlier
    turns left it; the stock is checked, decremented, and the line is
    priced. *)
Definition crear_venta_paso (acc : float * list DetalleNuevo) (item : DetalleCreate)
    : M (float * list DetalleNuevo) :=
  let '(total, detalles_db) := acc in
  enlazar (dc_producto_id item) claves_de_productos ;;;
  producto <- leer (producto_por_id (dc_producto_id item)) ;;
  match producto with
  | None =>
      raise (HTTPException 404
               ("Producto con id " ++ str (dc_producto_id item) ++ " no encontrado"))
  | Some producto =>
      if ProductoDB.cantidad producto <? dc_cantidad item
      then raise (HTTPException 400
                    ("Stock insuficiente para " ++ ProductoDB.nombre producto))
      else
        modificar (asignar_cantidad (dc_producto_id item)
                     (ProductoDB.cantidad producto - dc_cantidad item)) ;;;
        subtotal <- alzar (float_por_int (ProductoDB.precio producto) (dc_cantidad item)) ;;
        ret ((total + subtotal)%float,
             detalles_db ++ [mkDetalleNuevo (ProductoDB.id producto) (dc_cantidad item)
                               (ProductoDB.precio producto)])
  end.

(** [POST /api/ventas].  Nothing is committed before the loop is over;
    after the commit the sale is read back with its lines, and each
    line with the name of its product. *)
Definition crear_venta_cuerpo (ahora : Z) (venta : VentaCreate) : M Venta :=
  '(total, detalles_db) <- for_each (vc_detalles venta) (0%float, []) crear_venta_paso ;;
  venta_db <- add_venta ahora total detalles_db ;;
  commit ;;;
  responder_venta venta_db.

Definition crear_venta (ahora : Z) (venta : VentaCreate) :=
  Depends_get_db (crear_venta_cuerpo ahora venta).

(** ** Pending-account endpoints *)

(** One turn of the loop of [crear_cuenta_pendiente], which the source
    writes out again line for line. *)
Definition crear_cuenta_pendiente_paso (acc : float * list DetalleNuevo)
    (item : DetalleCreate) : M (float * list DetalleNuevo) :=
  let '(total, detalles_db) := acc in
  enlazar (dc_producto_id item) claves_de_productos ;;;
  producto <- leer (producto_por_id (dc_producto_id item)) ;;
  match producto with
  | None =>
      raise (HTTPException 404
               ("Producto con id " ++ str (dc_producto_id item) ++ " no encontrado"))
  | Some producto =>
      if ProductoDB.cantidad producto <? dc_cantidad item
      then raise (HTTPException 400
                    ("Stock insuficiente para " ++ ProductoDB.nombre producto))
      else
        modificar (asignar_cantidad (dc_producto_id item)
                     (ProductoDB.cantidad producto - dc_cantidad item)) ;;;
        subtotal <- alzar (float_por_int (ProductoDB.precio producto) (dc_cantidad item)) ;;
        ret ((total + subtotal)%float,
             detalles_db ++ [mkDetalleNuevo (ProductoDB.id producto) (dc_cantidad item)
                               (ProductoDB.precio producto)])
  end.

(** [POST /api/cuentas_pendientes]. *)
Definition crear_cuenta_pendiente_cuerpo (ahora : Z) (cuenta : CuentaPendienteCreate)
    : M CuentaPendiente :=
  '(total, detalles_db) <-
     for_each (cc_detalles cuenta) (0%float, []) crear_cuenta_pendiente_paso ;;
  cuenta_db <- add_cuenta ahora (cc_nombre_cliente cuenta) total detalles_db ;;
  commit ;;;
  responder_cuenta cuenta_db.

Definition crear_cuenta_pendiente (ahora : Z) (cuenta : CuentaPendienteCreate) :=
  Depends_get_db (crear_cuenta_pendiente_cuerpo ahora cuenta).

(** [db.query(CuentaPendienteDB).filter(CuentaPendienteDB.estado ==
    "pendiente").all()] *)
Definition cuentas_activas (t : Tablas) : list CuentaPendienteDB.t :=
  filter (fun c => String.eqb (CuentaPendienteDB.estado c) "pendiente")
    (cuentas_pendientes t).

(** [GET /api/cuentas_pendientes]. *)
Definition listar_cuentas_pendientes_cuerpo : M (list CuentaPendiente) :=
  cuentas <- leer cuentas_activas ;;
  for_each cuentas [] (fun resultado c =>
    r <- responder_cuenta c ;;
    ret (resultado ++ [r])).

Definition listar_cuentas_pendientes :=
  Depends_get_db listar_cuentas_pendientes_cuerpo.

(** [POST /api/cuentas_pendientes/{cuenta_id}/pagar].  The query only
    sees accounts that are pending; the sale and the new state go out
    in one commit. *)
Definition pagar_cuenta_pendiente_cuerpo (ahora : Z) (cuenta_id : Z) : M CuentaPendiente :=
  enlazar cuenta_id claves_de_cuentas ;;;
  cuenta <- leer (cuenta_pendiente_por_id cuenta_id) ;;
  match cuenta with
  | None => raise (HTTPException 404 "Cuenta pendiente no encontrada")
  | Some cuenta =>
      detalles_venta <- leer (fun t =>
        map (fun d => mkDetalleNuevo (DetalleCuentaPendienteDB.producto_id d)
                        (DetalleCuentaPendienteDB.cantidad d)
                        (DetalleCuentaPendienteDB.precio_unitario d))
          (detalles_de_cuenta (CuentaPendienteDB.id cuenta) t)) ;;
      add_venta ahora (CuentaPendienteDB.total cuenta) detalles_venta ;;;
      modificar (fun t => con_cuentas t
        (actualizar_primero (es_cuenta_pendiente cuenta_id)
           (fun c => CuentaPendienteDB.con_estado c "pagada") (cuentas_pendientes t))) ;;;
      commit ;;;
      responder_cuenta (CuentaPendienteDB.con_estado cuenta "pagada")
  end.

Definition pagar_cuenta_pendiente (ahora : Z) (cuenta_id : Z) :=
  Depends_get_db (pagar_cuenta_pendiente_cuerpo ahora cuenta_id).

(** One turn of the loop of [agregar_productos_cuenta_pendiente]: the
    same reservation, and the line is added to the session at once. *)
Definition agregar_productos_paso (cuenta : CuentaPendienteDB.t) (total_agregado : float)
    (item : DetalleCreate) : M float :=
  enlazar (dc_producto_id item) claves_de_productos ;;;
  producto <- leer (producto_por_id (dc_producto_id item)) ;;
  match producto with
  | None =>
      raise (HTTPException 404
               ("Producto con id " ++ str (dc_producto_id item) ++ " no encontrado"))
  | Some producto =>
      if ProductoDB.cantidad producto <? dc_cantidad item
      then raise (HTTPException 400
                    ("Stock insuficiente para " ++ ProductoDB.nombre producto))
      else
        modificar (asignar_cantidad (dc_producto_id item)
                     (ProductoDB.cantidad producto - dc_cantidad item)) ;;;
        subtotal <- alzar (float_por_int (ProductoDB.precio producto) (dc_cantidad item)) ;;
        add_detalle_cuenta (CuentaPendienteDB.id cuenta)
          (mkDetalleNuevo (ProductoDB.id producto) (dc_cantidad item)
             (ProductoDB.precio producto)) ;;;
        ret (total_agregado + subtotal)%float
  end.

(** [POST /api/cuentas_pendientes/{cuenta_id}/agregar_productos]. *)
Definition agregar_productos_cuenta_pendiente_cuerpo (cuenta_id : Z)
    (req : AgregarProductosCuentaRequest) : M CuentaPendiente :=
  enlazar cuenta_id claves_de_cuentas ;;;
  cuenta <- leer (cuenta_pendiente_por_id cuenta_id) ;;
  match cuenta with
  | None => raise (HTTPException 404 "Cuenta pendiente no encontrada")
  | Some cuenta =>
      total_agregado <- for_each (ar_detalles req) 0%float (agregar_productos_paso cuenta) ;;
      total <- alzar (mas_igual (CuentaPendienteDB.total cuenta) total_agregado) ;;
      modificar (fun t => con_cuentas t
        (actualizar_primero (es_cuenta_pendiente cuenta_id)
           (fun c => CuentaPendienteDB.con_total c total)
           (cuentas_pendientes t))) ;;;
      commit ;;;
      responder_cuenta (CuentaPendienteDB.con_total cuenta total)
  end.

Definition agregar_productos_cuenta_pendiente (cuenta_id : Z)
    (req : AgregarProductosCuentaRequest) :=
  Depends_get_db (agregar_productos_cuenta_pendiente_cuerpo cuenta_id req).

(** ** The endpoints that only read *)

(** [OFFSET n] and [LIMIT n] as the database of the source (SQLite)
    applies them: a negative offset skips nothing, a negative limit is
    no limit. *)
Definition offset {A} (n : Z) (filas : list A) : list A :=
  skipn (Z.to_nat n) filas.

Definition limit {A} (n : Z) (filas : list A) : list A :=
  if n <? 0 then filas else firstn (Z.to_nat n) filas.

(** [GET /api/productos]:
    [db.query(ProductoDB).offset(skip).limit(limit).all()]; [skip] and
    [limit] are bound as parameters. *)
Definition listar_productos_cuerpo (skip limite : Z) : M (list ProductoDB.t) :=
  if en_int64 skip && en_int64 limite
  then leer (fun t => limit limite (offset skip (productos t)))
  else raise OverflowError.

Definition listar_productos (skip limite : Z) :=
  Depends_get_db (listar_productos_cuerpo skip limite).

Definition es_codigo (codigo_barras : string) (p : ProductoDB.t) : bool :=
  String.eqb (ProductoDB.codigo_barras p) codigo_barras.

(** [GET /api/productos/buscar/{codigo_barras}]. *)
Definition buscar_producto_codigo_cuerpo (codigo_barras : string) : M ProductoDB.t :=
  producto <- leer (fun t => find (es_codigo codigo_barras) (productos t)) ;;
  match producto with
  | None => raise (HTTPException 404 "Producto no encontrado")
  | Some producto => ret producto
  end.

Definition buscar_producto_codigo (codigo_barras : string) :=
  Depends_get_db (buscar_producto_codigo_cuerpo codigo_barras).

(** [GET /api/ventas]. *)
Definition listar_ventas_cuerpo : M (list Venta) :=
  ventas <- leer ventas ;;
  for_each ventas [] (fun resultado v =>
    r <- responder_venta v ;;
    ret (resultado ++ [r])).

Definition listar_ventas := Depends_get_db listar_ventas_cuerpo.

(** [GET /api/ventas/{venta_id}]. *)
Definition obtener_venta_cuerpo (venta_id : Z) : M Venta :=
  enlazar venta_id claves_de_ventas ;;;
  v <- leer (venta_por_id venta_id) ;;
  match v with
  | None => raise (HTTPException 404 "Venta no encontrada")
  | Some v => responder_venta v
  end.

Definition obtener_venta (venta_id : Z) :=
  Depends_get_db (obtener_venta_cuerpo venta_id).

(** ** Sequences of requests *)

Inductive Peticion : Type :=
| PCrearProducto (producto : ProductoCreate)
| PEditarProducto (producto_id : Z) (producto : ProductoCreate)
| PEliminarProducto (producto_id : Z)
| PCrearVenta (ahora : Z) (venta : VentaCreate)
| PCrearCuentaPendiente (ahora : Z) (cuenta : CuentaPendienteCreate)
| PAgregarProductos (cuenta_id : Z) (req : AgregarProductosCuentaRequest)
| PPagarCuenta (ahora : Z) (cuenta_id : Z).

(** The database after one request, whatever was answered. *)
Definition atender (p : Peticion) (t : Tablas) : Tablas :=
  match p with
  | PCrearProducto producto => snd (crear_producto producto t)
  | PEditarProducto i producto => snd (editar_producto i producto t)
  | PEliminarProducto i => snd (eliminar_producto i t)
  | PCrearVenta ahora venta => snd (crear_venta ahora venta t)
  | PCrearCuentaPendiente ahora cuenta => snd (crear_cuenta_pendiente ahora cuenta t)
  | PAgregarProductos i req => snd (agregar_productos_cuenta_pendiente i req t)
  | PPagarCuenta ahora i => snd (pagar_cuenta_pendiente ahora i t)
  end.

Definition atender_todas (ps : list Peticion) (t : Tablas) : Tablas :=
  fold_left (fun t p => atender p t) ps t.

(** * Vocabulary of the properties *)

(** [preserva I m]: whatever [m] answers, a session that satisfied [I]
    before still satisfies it afterwards. *)
Definition preserva {A} (I : Session -> Prop) (m : M A) : Prop :=
  forall s r s', I s -> m s = (r, s') -> I s'.

(** An invariant of the tables that holds on both sides of the session
    survives [commit], [rollback] and the closing of the session. *)
Definition en_ambas (P : Tablas -> Prop) (s : Session) : Prop :=
  P (en_disco s) /\ P (en_sesion s).



(** What a request asks of product [i] in total. *)
Fixpoint suma_pedida (i : Z) (items : list DetalleCreate) : Z :=
  match items with
  | [] => 0
  | item :: items' =>
      (if dc_producto_id item =? i then dc_cantidad item else 0)
      + suma_pedida i items'
  end.

(** [quantity * unit price] of a line, and the running sum the loops
    keep: a left-to-right float sum starting from [inicio]. *)
Definition subtotal_nuevo (n : DetalleNuevo) : float :=
  (dn_precio_unitario n * Z2float (dn_cantidad n))%float.

Definition sumar (inicio : float) (xs : list float) : float :=
  fold_left PrimFloat.add xs inicio.

(** The line the loops build for [item] once [p] has been reserved. *)
Definition linea_de (p : ProductoDB.t) (item : DetalleCreate) : DetalleNuevo :=
  mkDetalleNuevo (ProductoDB.id p) (dc_cantidad item) (ProductoDB.precio p).

Definition con_detalles_cuenta (t : Tablas)
    (ds : list DetalleCuentaPendienteDB.t) : Tablas :=
  mkTablas (productos t) (ventas t) (detalles_venta t) (cuentas_pendientes t) ds.

(** The session of the append loop, seen from the sale loop: the same
    session with the lines built so far already inserted. *)
Definition con_lineas (cid : Z) (ds : list DetalleNuevo) (s : Session) : Session :=
  mkSession (en_disco s)
    (con_detalles_cuenta (en_sesion s)
       (insertar_detalles_cuenta cid ds (detalles_cuenta_pendiente (en_sesion s)))).

(** The three constructor arguments a stored line was built from. *)
Definition linea_de_venta (d : DetalleVentaDB.t) : DetalleNuevo :=
  mkDetalleNuevo (DetalleVentaDB.producto_id d) (DetalleVentaDB.cantidad d)
    (DetalleVentaDB.precio_unitario d).

Definition linea_de_cuenta (d : DetalleCuentaPendienteDB.t) : DetalleNuevo :=
  mkDetalleNuevo (DetalleCuentaPendienteDB.producto_id d)
    (DetalleCuentaPendienteDB.cantidad d)
    (DetalleCuentaPendienteDB.precio_unitario d).

(** ** Well-formed databases

    What the schema and the store guarantee of any database the
    endpoints have built: account keys are distinct, every line hangs
    from a row of its ledger, no two products share a barcode, and every
    quantity is an integer SQLite holds. *)
Definition integridad (t : Tablas) : Prop :=
  NoDup (map CuentaPendienteDB.id (cuentas_pendientes t)) /\
  Forall (fun d => In (DetalleVentaDB.venta_id d) (map VentaDB.id (ventas t)))
    (detalles_venta t) /\
  Forall (fun d => In (DetalleCuentaPendienteDB.cuenta_id d)
                     (map CuentaPendienteDB.id (cuentas_pendientes t)))
    (detalles_cuenta_pendiente t).

Definition cantidades_almacenables (t : Tablas) : Prop :=
  Forall (fun p => en_int64 (ProductoDB.cantidad p) = true) (productos t) /\
  Forall (fun d => en_int64 (DetalleVentaDB.cantidad d) = true) (detalles_venta t) /\
  Forall (fun d => en_int64 (DetalleCuentaPendienteDB.cantidad d) = true)
    (detalles_cuenta_pendiente t).

Definition bien_formada (t : Tablas) : Prop :=
  codigos_unicos (productos t) = true /\ integridad t /\ cantidades_almacenables t.

(** Barcodes are distinct in what is on disk. *)
Definition disco_ok (s : Session) : Prop :=
  codigos_unicos (productos (en_disco s)) = true.

(** While lines are appended to account [cid], the account must stay in
    the session for the references to hold. *)
Definition integridad_con_cuenta (cid : Z) (s : Session) : Prop :=
  en_ambas integridad s /\
  In cid (map CuentaPendienteDB.id (cuentas_pendientes (en_sesion s))).

(** Line [item], coming after the lines [previas] of the same request,
    asks for more than is left of its product, or for a product that
    does not exist. *)
Definition excede (t : Tablas) (previas : list DetalleCreate) (item : DetalleCreate)
    : Prop :=
  match producto_por_id (dc_producto_id item) t with
  | None => True
  | Some p =>
      ProductoDB.cantidad p - suma_pedida (dc_producto_id item) previas
      < dc_cantidad item
  end.

(** Line [item] asks for more than its product has in [t], or for a
    product that does not exist. *)
Definition excede_existencias (t : Tablas) (item : DetalleCreate) : Prop :=
  match producto_por_id (dc_producto_id item) t with
  | None => True
  | Some p => ProductoDB.cantidad p < dc_cantidad item
  end.

(** A shop with one product, five units of it in stock. *)
Definition tienda_leche : Tablas :=
  mkTablas [ProductoDB.mk 1 "Leche" "750" 10%float 5] [] [] [] [].

(** The request asks, over all its lines, for more of some product it
    names than the product has. *)
Definition pide_de_mas (t : Tablas) (items : list DetalleCreate) : Prop :=
  exists i p,
    In i (map dc_producto_id items) /\
    producto_por_id i t = Some p /\
    ProductoDB.cantidad p < suma_pedida i items.


(** What a line whose product is not in the table is refused with: the
    404 of the loop, or the [OverflowError] of the query when the key
    cannot be bound. *)
Definition producto_no_encontrado (i : Z) : Excepcion :=
  if en_int64 i
  then HTTPException 404 ("Producto con id " ++ str i ++ " no encontrado")
  else OverflowError.

(** What a request for an account that the filtered query does not find
    is refused with: the 404 of the endpoint, or the [OverflowError] of
    the query when the key cannot be bound. *)
Definition cuenta_no_encontrada (i : Z) (t : Tablas) : Excepcion :=
  if clave_enlazable i (claves_de_cuentas t)
  then HTTPException 404 "Cuenta pendiente no encontrada"
  else OverflowError.

(** The answer [r] is a refusal that leaves the database [t] as it was,
    with an exception of which [P] holds. *)
Definition rechazada {A} (r : Resultado A * Tablas) (t : Tablas)
    (P : Excepcion -> Prop) : Prop :=
  exists e, r = (Lanza e, t) /\ P e.


(** The exception is one of the two raised while an answer is built. *)
Definition es_fallo_de_respuesta (e : Excepcion) : Prop :=
  e = AttributeError \/ e = ValidationError.

(** The shop after Ana's account (two units, then one more) was opened,
    extended and settled. *)
Definition tienda_saldada : Tablas :=
  mkTablas
    [ProductoDB.mk 1 "Leche" "750" 10%float 2]
    [VentaDB.mk 1 9 30%float]
    [DetalleVentaDB.mk 1 1 1 2 10%float; DetalleVentaDB.mk 2 1 1 1 10%float]
    [CuentaPendienteDB.mk 1 "Ana" 7 "pagada" 30%float]
    [DetalleCuentaPendienteDB.mk 1 1 1 2 10%float;
     DetalleCuentaPendienteDB.mk 2 1 1 1 10%float].

(** The same shop just before the settlement. *)
Definition tienda_con_cuenta : Tablas :=
  mkTablas
    [ProductoDB.mk 1 "Leche" "750" 10%float 2]
    [] []
    [CuentaPendienteDB.mk 1 "Ana" 7 "pendiente" 30%float]
    [DetalleCuentaPendienteDB.mk 1 1 1 2 10%float;
     DetalleCuentaPendienteDB.mk 2 1 1 1 10%float].

(** The line [n] serves the request line [item]: same product, same
    quantity, and as unit price the price the product has in [t]. *)
Definition linea_servida (t : Tablas) (item : DetalleCreate) (n : DetalleNuevo) : Prop :=
  dn_producto_id n = dc_producto_id item /\
  dn_cantidad n = dc_cantidad item /\
  exists p, producto_por_id (dc_producto_id item) t = Some p /\
            dn_precio_unitario n = ProductoDB.precio p.

(** ** Account totals *)

Definition subtotal_linea (d : DetalleCuentaPendienteDB.t) : float :=
  (DetalleCuentaPendienteDB.precio_unitario d
   * Z2float (DetalleCuentaPendienteDB.cantidad d))%float.

(** The sum over the lines of quantity times unit price, taken from the
    first line to the last, as [sum(...)] takes it. *)
Definition suma_lineas (ds : list DetalleCuentaPendienteDB.t) : float :=
  sumar 0%float (map subtotal_linea ds).

(** The claim that every account's total is the sum of its lines. *)
Definition totales_exactos (t : Tablas) : Prop :=
  Forall (fun c => CuentaPendienteDB.total c
                   = suma_lineas (detalles_de_cuenta (CuentaPendienteDB.id c) t))
    (cuentas_pendientes t).

(** What one request does to the account that is [c'] afterwards. *)

(** The account and its lines are as they were. *)
Definition cuenta_intacta (t t' : Tablas) (c' : CuentaPendienteDB.t) : Prop :=
  In c' (cuentas_pendientes t) /\
  detalles_de_cuenta (CuentaPendienteDB.id c') t'
  = detalles_de_cuenta (CuentaPendienteDB.id c') t.

(** The account was opened by the request, with the lines [items]: it is
    pending, under a key no account had, its lines serve the lines of
    the request, one by one, and its total is the sum over its lines
    ([NULL] when that sum is not a number). *)
Definition cuenta_abierta (t t' : Tablas) (items : list DetalleCreate)
    (c' : CuentaPendienteDB.t) : Prop :=
  let lineas := detalles_de_cuenta (CuentaPendienteDB.id c') t' in
  ~ In (CuentaPendienteDB.id c') (map CuentaPendienteDB.id (cuentas_pendientes t)) /\
  CuentaPendienteDB.estado c' = "pendiente"%string /\
  Forall2 (linea_servida t) items (map linea_de_cuenta lineas) /\
  CuentaPendienteDB.total c' = suma_lineas lineas.

(** The account was extended by the request, with the lines [items]: it
    was pending with a total that was not [NULL], the new lines come
    after the lines it had, and the sum over the new lines alone was
    added to its total (kept as [NULL] when the result is not a
    number). *)
Definition cuenta_extendida (t t' : Tablas) (items : list DetalleCreate)
    (c' : CuentaPendienteDB.t) : Prop :=
  exists c nuevas,
    In c (cuentas_pendientes t) /\
    CuentaPendienteDB.estado c = "pendiente"%string /\
    es_None (CuentaPendienteDB.total c) = false /\
    c' = CuentaPendienteDB.con_total c
           (CuentaPendienteDB.total c + suma_lineas nuevas)%float /\
    detalles_de_cuenta (CuentaPendienteDB.id c') t'
    = detalles_de_cuenta (CuentaPendienteDB.id c) t ++ nuevas /\
    Forall2 (linea_servida t) items (map linea_de_cuenta nuevas).

(** The account was settled by the request: only its state changed. *)
Definition cuenta_pagada (t t' : Tablas) (c' : CuentaPendienteDB.t) : Prop :=
  exists c,
    In c (cuentas_pendientes t) /\
    CuentaPendienteDB.estado c = "pendiente"%string /\
    c' = CuentaPendienteDB.con_estado c "pagada" /\
    detalles_de_cuenta (CuentaPendienteDB.id c') t'
    = detalles_de_cuenta (CuentaPendienteDB.id c) t.

(** A tab opened with one unit at 0.1 and extended by two and three
    more units in a single append. *)
Definition peticiones_decimos : list Peticion :=
  [PCrearProducto (mkProductoCreate "Chicle" "111" 0.1%float 10);
   PCrearCuentaPendiente 1 (mkCuentaPendienteCreate "Ana" [mkDetalleCreate 1 1]);
   PAgregarProductos 1
     (mkAgregarProductosCuentaRequest [mkDetalleCreate 1 2; mkDetalleCreate 1 3])].

(** ** Vocabulary for the further properties *)

(** The product as [crear_producto] writes it into [t] and reads it
    back. *)
Definition producto_nuevo (t : Tablas) (producto : ProductoCreate) : ProductoDB.t :=
  ProductoDB.mk (siguiente_id (map ProductoDB.id (productos t)))
    (pc_nombre producto) (pc_codigo_barras producto)
    (REAL (pc_precio producto)) (pc_cantidad producto).

(** The row [editar_producto] leaves under the key [i]. *)
Definition producto_editado (i : Z) (producto : ProductoCreate) : ProductoDB.t :=
  ProductoDB.mk i (pc_nombre producto) (pc_codigo_barras producto)
    (REAL (pc_precio producto)) (pc_cantidad producto).

(** Primary keys of products are distinct. *)
Definition claves_de_producto_unicas (t : Tablas) : Prop :=
  NoDup (map ProductoDB.id (productos t)).

(** [quantity * unit price] of a line of an answer. *)
Definition subtotal_detalle (d : Detalle) : float :=
  (d_precio_unitario d * Z2float (d_cantidad d))%float.

(** What each product has left once [items] have been served. *)
Definition stock_descontado (t t' : Tablas) (items : list DetalleCreate) : Prop :=
  forall i,
    producto_por_id i t' =
    option_map (fun p => ProductoDB.con_cantidad p
                           (ProductoDB.cantidad p - suma_pedida i items))
      (producto_por_id i t).

(** Some line of the sale [vid], or of the account [cid], names a
    product that is no longer in the table. *)
Definition venta_con_linea_huerfana (t : Tablas) (vid : Z) : Prop :=
  exists d, In d (detalles_de_venta vid t) /\
            producto_por_id (DetalleVentaDB.producto_id d) t = None.

Definition cuenta_con_linea_huerfana (t : Tablas) (cid : Z) : Prop :=
  exists d, In d (detalles_de_cuenta cid t) /\
            producto_por_id (DetalleCuentaPendienteDB.producto_id d) t = None.

(** One response line from the three fields of a line. *)
Definition a_detalle_nuevo (t : Tablas) (n : DetalleNuevo) : Resultado Detalle :=
  a_detalle t (dn_producto_id n) (dn_cantidad n) (dn_precio_unitario n).

(** The response line [d] answers the request line [item]: same product
    and quantity, and the price and name the product has in [t]. *)
Definition detalle_servido (t : Tablas) (item : DetalleCreate) (d : Detalle) : Prop :=
  d_producto_id d = dc_producto_id item /\
  d_cantidad d = dc_cantidad item /\
  exists p, producto_por_id (dc_producto_id item) t = Some p /\
            d_precio_unitario d = ProductoDB.precio p /\
            d_nombre_producto d = Some (ProductoDB.nombre p).

(** The ledgers of [t'] are those of [t] with rows added at the end. *)
Definition libros_extendidos (t t' : Tablas) : Prop :=
  exists vs dvs dcs cs,
    ventas t' = ventas t ++ vs /\
    detalles_venta t' = detalles_venta t ++ dvs /\
    detalles_cuenta_pendiente t' = detalles_cuenta_pendiente t ++ dcs /\
    map CuentaPendienteDB.id (cuentas_pendientes t')
      = map CuentaPendienteDB.id (cuentas_pendientes t) ++ cs.
(** * Properties *)

(** ** A small program logic for endpoint bodies *)

Section Preserva.
Variable I : Session -> Prop.

Lemma preserva_ret {A} (a : A) : preserva I (ret a).
Proof. intros s r s' Hs H. inversion H; subst; exact Hs. Qed.

Lemma preserva_raise {A} e : preserva I (@raise A e).
Proof. intros s r s' Hs H. inversion H; subst; exact Hs. Qed.

Lemma preserva_alzar {A} (x : Resultado A) : preserva I (alzar x).
Proof. intros s r s' Hs H. inversion H; subst; exact Hs. Qed.

Lemma preserva_leer {A} (f : Tablas -> A) : preserva I (leer f).
Proof. intros s r s' Hs H. inversion H; subst; exact Hs. Qed.

Lemma preserva_puro {A} (f : Session -> Resultado A) :
  preserva I (fun s => (f s, s)).
Proof. intros s r s' Hs H. inversion H; subst; exact Hs. Qed.

Lemma preserva_bind {A B} (m : M A) (k : A -> M B) :
  preserva I m -> (forall a, preserva I (k a)) -> preserva I (bind m k).
Proof.
  intros Hm Hk s r s' Hs H. unfold bind in H.
  destruct (m s) as [[a | e] s1] eqn:E.
  - eapply Hk; [eapply Hm; eassumption | eassumption].
  - inversion H; subst. eapply Hm; eassumption.
Qed.

Lemma preserva_bind_leer {A B} (f : Tablas -> A) (k : A -> M B) :
  (forall t, preserva I (k (f t))) -> preserva I (bind (leer f) k).
Proof.
  intros Hk s r s' Hs H. unfold bind, leer in H.
  eapply Hk; eassumption.
Qed.

Lemma preserva_try_except {A} (m h : M A) :
  preserva I m -> preserva I h -> preserva I (try_except m h).
Proof.
  intros Hm Hh s r s' Hs H. unfold try_except in H.
  destruct (m s) as [[a | e] s1] eqn:E.
  - inversion H; subst. eapply Hm; eassumption.
  - eapply Hh; [eapply Hm; eassumption | eassumption].
Qed.

Lemma preserva_for_each {A B} (xs : list A) (cuerpo : B -> A -> M B) :
  (forall acc x, In x xs -> preserva I (cuerpo acc x)) ->
  forall acc, preserva I (for_each xs acc cuerpo).
Proof.
  induction xs as [| x xs IH]; intros Hc acc; simpl.
  - apply preserva_ret.
  - apply preserva_bind.
    + apply Hc; left; reflexivity.
    + intros acc'. apply IH. intros; apply Hc; right; assumption.
Qed.

Lemma preserva_enlazar i claves : preserva I (enlazar i claves).
Proof. apply preserva_puro. Qed.

Lemma preserva_responder_venta v : preserva I (responder_venta v).
Proof. apply preserva_puro. Qed.

Lemma preserva_responder_cuenta c : preserva I (responder_cuenta c).
Proof. apply preserva_puro. Qed.
End Preserva.


Lemma preserva_commit P : preserva (en_ambas P) commit.
Proof.
  intros s r s' [Hd Hs] H. unfold commit in H.
  destruct (escribible _ _); [destruct (codigos_unicos _) |];
    inversion H; subst; split; simpl; assumption.
Qed.

Lemma preserva_rollback P : preserva (en_ambas P) rollback.
Proof.
  intros s r s' [Hd Hs] H. inversion H; subst; split; simpl; assumption.
Qed.

Lemma preserva_modificar P f :
  (forall t, P t -> P (f t)) -> preserva (en_ambas P) (modificar f).
Proof.
  intros Hf s r s' [Hd Hs] H. inversion H; subst; split; simpl; auto.
Qed.

Lemma Depends_get_db_preserva {A} P (m : M A) t :
  preserva (en_ambas P) m -> P t -> P (snd (Depends_get_db m t)).
Proof.
  intros Hm Ht. unfold Depends_get_db.
  destruct (m (SessionLocal t)) as [r s] eqn:E. simpl.
  assert (Hi : en_ambas P (SessionLocal t)) by (split; exact Ht).
  exact (proj1 (Hm _ _ _ Hi E)).
Qed.

Lemma atender_todas_inv (P : Tablas -> Prop) (Q : Peticion -> Prop) :
  (forall p t, Q p -> P t -> P (atender p t)) ->
  forall ps t, Forall Q ps -> P t -> P (atender_todas ps t).
Proof.
  intros Hstep ps. induction ps as [| p ps IH]; intros t Hq Ht; simpl.
  - exact Ht.
  - inversion Hq; subst. apply IH; [assumption |]. apply Hstep; assumption.
Qed.

(** ** Stock never goes below zero through the transaction endpoints *)




(** Invariants that only read the product table are untouched by the
    insertions into the ledgers. *)
Section SoloProductos.
Variable P : Tablas -> Prop.
Hypothesis P_productos :
  forall t t', productos t' = productos t -> P t -> P t'.

Lemma preserva_add_venta ahora total ds :
  preserva (en_ambas P) (add_venta ahora total ds).
Proof.
  intros s r s' [Hd Hs] H. inversion H; subst; split; simpl; [assumption |].
  eapply P_productos; [| exact Hs]. reflexivity.
Qed.

Lemma preserva_add_cuenta ahora nombre total ds :
  preserva (en_ambas P) (add_cuenta ahora nombre total ds).
Proof.
  intros s r s' [Hd Hs] H. inversion H; subst; split; simpl; [assumption |].
  eapply P_productos; [| exact Hs]. reflexivity.
Qed.

Lemma preserva_add_detalle_cuenta cid n :
  preserva (en_ambas P) (add_detalle_cuenta cid n).
Proof.
  apply preserva_modificar. intros t Ht.
  eapply P_productos; [| exact Ht]. reflexivity.
Qed.

Lemma preserva_con_cuentas f :
  preserva (en_ambas P) (modificar (fun t => con_cuentas t (f t))).
Proof.
  apply preserva_modificar. intros t Ht.
  eapply P_productos; [| exact Ht]. reflexivity.
Qed.

End SoloProductos.

(** Structural steps of a preservation proof.  [hoja] closes the goals
    the invariant at hand knows how to close (assignments, insertions,
    loop bodies already treated); it is tried before a step is opened. *)
Ltac preserva_estructura hoja :=
  repeat first
    [ solve [hoja]
    | apply preserva_ret | apply preserva_raise | apply preserva_alzar
    | apply preserva_leer | apply preserva_puro
    | apply preserva_enlazar | apply preserva_responder_venta
    | apply preserva_responder_cuenta
    | apply preserva_commit | apply preserva_rollback
    | apply preserva_try_except
    | apply preserva_bind_leer
    | apply preserva_bind
    | apply preserva_for_each
    | progress intros
    | match goal with
      | |- preserva _ (match ?x with _ => _ end) => destruct x eqn:?
      end ].

















(** ** Binding a key *)

Lemma existsb_Zeqb i (l : list Z) : existsb (Z.eqb i) l = true <-> In i l.
Proof.
  rewrite existsb_exists. split.
  - intros (x & Hx & He). apply Z.eqb_eq in He. subst x. exact Hx.
  - intros H. exists i. split; [exact H | apply Z.eqb_refl].
Qed.

Lemma clave_enlazable_In i claves : In i claves -> clave_enlazable i claves = true.
Proof.
  intros H. unfold clave_enlazable. apply orb_true_iff. right.
  apply existsb_Zeqb. exact H.
Qed.

Lemma clave_enlazable_ausente i claves :
  ~ In i claves -> clave_enlazable i claves = en_int64 i.
Proof.
  intros H. unfold clave_enlazable.
  destruct (existsb (Z.eqb i) claves) eqn:E.
  - apply existsb_Zeqb in E. contradiction.
  - apply orb_false_r.
Qed.

Lemma producto_por_id_In i t p :
  producto_por_id i t = Some p -> In i (claves_de_productos t).
Proof.
  unfold producto_por_id, claves_de_productos. intros H. apply find_some in H.
  destruct H as [Hin He]. apply Z.eqb_eq in He. rewrite <- He.
  apply in_map. exact Hin.
Qed.

Lemma producto_por_id_ausente_claves i t :
  producto_por_id i t = None -> ~ In i (claves_de_productos t).
Proof.
  unfold producto_por_id, claves_de_productos. intros H Hin.
  apply in_map_iff in Hin. destruct Hin as (p & Hid & Hp).
  pose proof (find_none _ _ H p Hp) as Hf. unfold es_producto in Hf.
  rewrite Hid, Z.eqb_refl in Hf. discriminate.
Qed.

(** The query for a product that is there goes through; the query for
    a product that is not raises when the key cannot be bound. *)
Lemma enlazar_producto_presente i s p :
  producto_por_id i (en_sesion s) = Some p ->
  enlazar i claves_de_productos s = (Retorna tt, s).
Proof.
  intros H. unfold enlazar.
  rewrite (clave_enlazable_In _ _ (producto_por_id_In _ _ _ H)). reflexivity.
Qed.

Lemma enlazar_producto_ausente i s :
  producto_por_id i (en_sesion s) = None ->
  enlazar i claves_de_productos s
  = (if en_int64 i then Retorna tt else Lanza OverflowError, s).
Proof.
  intros H. unfold enlazar.
  rewrite (clave_enlazable_ausente _ _ (producto_por_id_ausente_claves _ _ H)).
  reflexivity.
Qed.

(** ** The reservation loop, one step at a time *)

Lemma crear_venta_paso_Retorna total ds item s total' ds' s' :
  crear_venta_paso (total, ds) item s = (Retorna (total', ds'), s') ->
  exists p,
    producto_por_id (dc_producto_id item) (en_sesion s) = Some p /\
    dc_cantidad item <= ProductoDB.cantidad p /\
    (cabe_en_float (dc_cantidad item) = true /\
     es_None (ProductoDB.precio p) = false) /\
    s' = mkSession (en_disco s)
           (asignar_cantidad (dc_producto_id item)
              (ProductoDB.cantidad p - dc_cantidad item) (en_sesion s)) /\
    total' = (total + subtotal_nuevo (linea_de p item))%float /\
    ds' = ds ++ [linea_de p item].
Proof.
  unfold crear_venta_paso. unfold bind at 1.
  destruct (producto_por_id (dc_producto_id item) (en_sesion s)) as [p |] eqn:Ep.
  - rewrite (enlazar_producto_presente _ _ _ Ep).
    unfold bind, leer, raise, modificar, alzar, ret, float_por_int. rewrite Ep.
    destruct (ProductoDB.cantidad p <? dc_cantidad item) eqn:Ec; [discriminate |].
    destruct (es_None (ProductoDB.precio p)) eqn:En; [discriminate |].
    destruct (cabe_en_float (dc_cantidad item)) eqn:Ef; [| discriminate].
    intros H; inversion H; subst; clear H.
    exists p. apply Z.ltb_ge in Ec. repeat split; auto.
  - rewrite (enlazar_producto_ausente _ _ Ep).
    unfold bind, leer, raise. rewrite Ep.
    destruct (en_int64 (dc_producto_id item)); discriminate.
Qed.

Lemma crear_venta_paso_ausente acc item s :
  producto_por_id (dc_producto_id item) (en_sesion s) = None ->
  crear_venta_paso acc item s =
    (Lanza (producto_no_encontrado (dc_producto_id item)), s).
Proof.
  intros Ep. destruct acc. unfold crear_venta_paso. unfold bind at 1.
  rewrite (enlazar_producto_ausente _ _ Ep). unfold producto_no_encontrado.
  destruct (en_int64 (dc_producto_id item)); [| reflexivity].
  unfold bind, leer, raise. rewrite Ep. reflexivity.
Qed.

Lemma crear_venta_paso_400 acc item s p :
  producto_por_id (dc_producto_id item) (en_sesion s) = Some p ->
  ProductoDB.cantidad p < dc_cantidad item ->
  crear_venta_paso acc item s =
    (Lanza (HTTPException 400 ("Stock insuficiente para " ++ ProductoDB.nombre p)), s).
Proof.
  intros Ep Hc. destruct acc. unfold crear_venta_paso. unfold bind at 1.
  rewrite (enlazar_producto_presente _ _ _ Ep).
  unfold bind, leer, raise.
  rewrite Ep. apply Z.ltb_lt in Hc. rewrite Hc. reflexivity.
Qed.

(** A step that raises has written nothing to disk, and raises one of
    four things. *)
Lemma crear_venta_paso_Lanza acc item s e s' :
  crear_venta_paso acc item s = (Lanza e, s') ->
  en_disco s' = en_disco s /\
  ( (producto_por_id (dc_producto_id item) (en_sesion s) = None /\
     e = producto_no_encontrado (dc_producto_id item))
    \/ (exists p, producto_por_id (dc_producto_id item) (en_sesion s) = Some p /\
                  ProductoDB.cantidad p < dc_cantidad item /\
                  e = HTTPException 400
                        ("Stock insuficiente para " ++ ProductoDB.nombre p))
    \/ (exists p, producto_por_id (dc_producto_id item) (en_sesion s) = Some p /\
                  es_None (ProductoDB.precio p) = true /\ e = TypeError)
    \/ (cabe_en_float (dc_cantidad item) = false /\ e = OverflowError) ).
Proof.
  destruct (producto_por_id (dc_producto_id item) (en_sesion s)) as [p |] eqn:Ep.
  - destruct acc as [total ds]. unfold crear_venta_paso. unfold bind at 1.
    rewrite (enlazar_producto_presente _ _ _ Ep).
    unfold bind, leer, raise, modificar, alzar, ret, float_por_int. rewrite Ep.
    destruct (ProductoDB.cantidad p <? dc_cantidad item) eqn:Ec.
    + intros H; inversion H; subst. split; [reflexivity |].
      right; left. exists p. apply Z.ltb_lt in Ec. auto.
    + destruct (es_None (ProductoDB.precio p)) eqn:En.
      * intros H; inversion H; subst. split; [reflexivity |].
        right; right; left. exists p. auto.
      * destruct (cabe_en_float (dc_cantidad item)) eqn:Ef; [discriminate |].
        intros H; inversion H; subst. split; [reflexivity |].
        right; right; right; auto.
  - rewrite (crear_venta_paso_ausente _ _ _ Ep).
    intros H; inversion H; subst. split; [reflexivity |]. left; auto.
Qed.

Lemma for_each_app {A B} (xs ys : list A) (acc : B) cuerpo s :
  for_each (xs ++ ys) acc cuerpo s =
  match for_each xs acc cuerpo s with
  | (Retorna acc', s') => for_each ys acc' cuerpo s'
  | (Lanza e, s') => (Lanza e, s')
  end.
Proof.
  revert acc s. induction xs as [| x xs IH]; intros acc s; simpl.
  - reflexivity.
  - unfold bind. destruct (cuerpo acc x s) as [[acc' | e] s1]; [apply IH | reflexivity].
Qed.

(** ** Looking a product up after an assignment *)

Lemma find_actualizar_primero_mismo {A} (es : A -> bool) f (xs : list A) :
  (forall x, es x = true -> es (f x) = true) ->
  find es (actualizar_primero es f xs) = option_map f (find es xs).
Proof.
  intros Hf. induction xs as [| x xs IH]; simpl; [reflexivity |].
  destruct (es x) eqn:E; simpl.
  - rewrite (Hf x E). reflexivity.
  - rewrite E. exact IH.
Qed.

Lemma find_actualizar_primero_otro {A} (es es' : A -> bool) f (xs : list A) :
  (forall x, es' (f x) = es' x) ->
  (forall x, es x = true -> es' x = false) ->
  find es' (actualizar_primero es f xs) = find es' xs.
Proof.
  intros Hf Hd. induction xs as [| x xs IH]; simpl; [reflexivity |].
  destruct (es x) eqn:E; simpl.
  - rewrite Hf, (Hd x E). reflexivity.
  - rewrite IH. reflexivity.
Qed.

Lemma producto_por_id_asignar_cantidad i j c t :
  producto_por_id i (asignar_cantidad j c t) =
  if i =? j
  then option_map (fun p => ProductoDB.con_cantidad p c) (producto_por_id i t)
  else producto_por_id i t.
Proof.
  unfold producto_por_id, asignar_cantidad; simpl.
  destruct (i =? j) eqn:E.
  - apply Z.eqb_eq in E; subst j.
    apply find_actualizar_primero_mismo. intros x Hx. exact Hx.
  - apply find_actualizar_primero_otro.
    + intros x. reflexivity.
    + intros x Hx. unfold es_producto in *. apply Z.eqb_eq in Hx.
      rewrite Hx. rewrite Z.eqb_sym. exact E.
Qed.

Lemma producto_por_id_id i t p :
  producto_por_id i t = Some p -> ProductoDB.id p = i.
Proof.
  unfold producto_por_id. intros H. apply find_some in H.
  destruct H as [_ H]. apply Z.eqb_eq in H. exact H.
Qed.

Lemma con_cantidad_misma p : ProductoDB.con_cantidad p (ProductoDB.cantidad p) = p.
Proof. destruct p; reflexivity. Qed.

(** ** The reservation loop as a whole *)

(** When the loop runs to its end, nothing was written to disk, only the
    product table of the session changed, and each product is left with
    what it had minus what the request asked of it. *)
Lemma for_each_venta_Retorna items : forall total ds s total' ds' s',
  for_each items (total, ds) crear_venta_paso s = (Retorna (total', ds'), s') ->
  en_disco s' = en_disco s /\
  (exists ps', en_sesion s' = con_productos (en_sesion s) ps') /\
  (forall i, producto_por_id i (en_sesion s') =
             option_map (fun p => ProductoDB.con_cantidad p
                                    (ProductoDB.cantidad p - suma_pedida i items))
               (producto_por_id i (en_sesion s))).
Proof.
  induction items as [| item items IH]; intros total ds s total' ds' s' H; cbn [for_each] in H.
  - unfold ret in H. inversion H; subst. split; [reflexivity |]. split.
    + exists (productos (en_sesion s')). destruct (en_sesion s'); reflexivity.
    + intros i. simpl. destruct (producto_por_id i (en_sesion s')) as [p |]; simpl;
        [| reflexivity].
      rewrite Z.sub_0_r, con_cantidad_misma. reflexivity.
  - unfold bind in H.
    destruct (crear_venta_paso (total, ds) item s) as [[[total1 ds1] | e] s1] eqn:E1;
      [| discriminate].
    apply crear_venta_paso_Retorna in E1.
    destruct E1 as (p & Ep & Hc & Hf & Hs1 & Ht1 & Hd1).
    apply IH in H. destruct H as (Hd & (ps' & Hps') & Hst).
    subst s1. simpl in *. split; [exact Hd |]. split.
    + exists ps'. rewrite Hps'. reflexivity.
    + intros i. rewrite Hst, producto_por_id_asignar_cantidad.
      destruct (i =? dc_producto_id item) eqn:Ei.
      * apply Z.eqb_eq in Ei; subst i. rewrite Ep; simpl.
        rewrite Z.eqb_refl. f_equal. unfold ProductoDB.con_cantidad; simpl.
        f_equal. lia.
      * rewrite Z.eqb_sym, Ei. simpl.
        destruct (producto_por_id i (en_sesion s)); reflexivity.
Qed.

(** However the loop ends, the disk is as it was. *)
Lemma for_each_venta_disco items : forall acc s r s',
  for_each items acc crear_venta_paso s = (r, s') -> en_disco s' = en_disco s.
Proof.
  induction items as [| item items IH]; intros acc s r s' H; cbn [for_each] in H.
  - unfold ret in H. inversion H; reflexivity.
  - unfold bind in H.
    destruct (crear_venta_paso acc item s) as [[acc1 | e] s1] eqn:E1.
    + destruct acc as [total ds], acc1 as [total1 ds1].
      apply crear_venta_paso_Retorna in E1.
      destruct E1 as (p & _ & _ & _ & Hs1 & _).
      apply IH in H. rewrite H, Hs1. reflexivity.
    + inversion H; subst. apply crear_venta_paso_Lanza in E1. apply E1.
Qed.

(** The lines the loop hands over: one per request line, in order, each
    with the id and the price of the product as it was when the request
    arrived; the total is their left-to-right sum. *)
Lemma for_each_venta_lineas items : forall total ds s total' ds' s',
  for_each items (total, ds) crear_venta_paso s = (Retorna (total', ds'), s') ->
  exists nuevos,
    ds' = ds ++ nuevos /\
    total' = sumar total (map subtotal_nuevo nuevos) /\
    Forall2 (fun item n =>
               cabe_en_float (dc_cantidad item) = true /\
               exists p, producto_por_id (dc_producto_id item) (en_sesion s) = Some p /\
                         es_None (ProductoDB.precio p) = false /\
                         n = linea_de p item)
      items nuevos.
Proof.
  induction items as [| item items IH]; intros total ds s total' ds' s' H;
    cbn [for_each] in H.
  - unfold ret in H. inversion H; subst. exists []. rewrite app_nil_r.
    repeat split. constructor.
  - unfold bind in H.
    destruct (crear_venta_paso (total, ds) item s) as [[[total1 ds1] | e] s1] eqn:E1;
      [| discriminate].
    apply crear_venta_paso_Retorna in E1.
    destruct E1 as (p & Ep & Hc & [Hf Hnn] & Hs1 & Ht1 & Hd1).
    apply IH in H. destruct H as (nuevos & Hds & Htot & Hall).
    exists (linea_de p item :: nuevos). subst ds1 total1 s1. split; [| split].
    + rewrite Hds, <- app_assoc. reflexivity.
    + rewrite Htot. reflexivity.
    + constructor.
      * split; [exact Hf |]. exists p. split; [exact Ep |]. split; [exact Hnn | reflexivity].
      * eapply Forall2_impl; [| exact Hall].
        intros it n [Hfit (q & Hq & Hnq & Hn)]. split; [exact Hfit |].
        simpl in Hq. rewrite producto_por_id_asignar_cantidad in Hq.
        destruct (dc_producto_id it =? dc_producto_id item).
        -- destruct (producto_por_id (dc_producto_id it) (en_sesion s)) as [q0 |];
             [| discriminate].
           simpl in Hq. inversion Hq; subst. exists q0. repeat split. exact Hnq.
        -- exists q. repeat split; assumption.
Qed.

(** ** Appending to an account runs the same loop, inserting as it goes *)

Lemma insertar_detalles_cuenta_app cid ds ds' filas :
  insertar_detalles_cuenta cid (ds ++ ds') filas =
  insertar_detalles_cuenta cid ds' (insertar_detalles_cuenta cid ds filas).
Proof.
  revert filas. induction ds as [| d ds IH]; intros filas; simpl.
  - reflexivity.
  - apply IH.
Qed.

Lemma agregar_productos_paso_simula cuenta total ds item s :
  match crear_venta_paso (total, ds) item s with
  | (Retorna (total', ds'), s') =>
      agregar_productos_paso cuenta total item
        (con_lineas (CuentaPendienteDB.id cuenta) ds s)
      = (Retorna total', con_lineas (CuentaPendienteDB.id cuenta) ds' s')
  | (Lanza e, s') =>
      exists s'',
        agregar_productos_paso cuenta total item
          (con_lineas (CuentaPendienteDB.id cuenta) ds s) = (Lanza e, s'') /\
        en_disco s'' = en_disco s'
  end.
Proof.
  unfold crear_venta_paso, agregar_productos_paso, add_detalle_cuenta,
    bind, enlazar, leer, raise, modificar, alzar, ret, float_por_int, con_lineas,
    claves_de_productos, producto_por_id.
  cbn [en_sesion en_disco productos con_detalles_cuenta].
  destruct (clave_enlazable (dc_producto_id item)
              (map ProductoDB.id (productos (en_sesion s)))).
  2: { eexists; split; reflexivity. }
  destruct (find (es_producto (dc_producto_id item)) (productos (en_sesion s)))
    as [p |].
  - destruct (ProductoDB.cantidad p <? dc_cantidad item).
    + eexists; split; reflexivity.
    + destruct (es_None (ProductoDB.precio p)).
      * eexists; split; reflexivity.
      * destruct (cabe_en_float (dc_cantidad item)).
        -- cbn. rewrite insertar_detalles_cuenta_app. reflexivity.
        -- eexists; split; reflexivity.
  - eexists; split; reflexivity.
Qed.

Lemma for_each_agregar_simula cuenta items : forall total ds s,
  match for_each items (total, ds) crear_venta_paso s with
  | (Retorna (total', ds'), s') =>
      for_each items total (agregar_productos_paso cuenta)
        (con_lineas (CuentaPendienteDB.id cuenta) ds s)
      = (Retorna total', con_lineas (CuentaPendienteDB.id cuenta) ds' s')
  | (Lanza e, s') =>
      exists s'',
        for_each items total (agregar_productos_paso cuenta)
          (con_lineas (CuentaPendienteDB.id cuenta) ds s) = (Lanza e, s'') /\
        en_disco s'' = en_disco s'
  end.
Proof.
  induction items as [| item items IH]; intros total ds s; cbn [for_each].
  - reflexivity.
  - unfold bind.
    pose proof (agregar_productos_paso_simula cuenta total ds item s) as Hp.
    destruct (crear_venta_paso (total, ds) item s) as [[[total1 ds1] | e] s1].
    + rewrite Hp. apply IH.
    + destruct Hp as (s'' & Hp & Hd). rewrite Hp. exists s''. split; [reflexivity | exact Hd].
Qed.

Lemma con_lineas_nil cid s : con_lineas cid [] s = s.
Proof. destruct s as [d [ps vs dvs cs dcs]]. reflexivity. Qed.

(** ** Primary keys *)

Lemma fold_left_max_cota (l : list Z) : forall a,
  a <= fold_left Z.max l a /\ Forall (fun x => x <= fold_left Z.max l a) l.
Proof.
  induction l as [| x l IH]; intros a; simpl.
  - split; [lia | constructor].
  - destruct (IH (Z.max a x)) as [H1 H2]. split; [lia |].
    constructor; [lia | exact H2].
Qed.

Lemma siguiente_id_fresco (ids : list Z) : ~ In (siguiente_id ids) ids.
Proof.
  destruct ids as [| i ids]; simpl; [tauto |].
  destruct (fold_left_max_cota ids i) as [H1 H2].
  rewrite Forall_forall in H2.
  intros [H | H]; [lia |]. apply H2 in H. lia.
Qed.

(** ** Inserted lines *)

Lemma insertar_detalles_venta_filas vid ds : forall filas,
  exists nuevas,
    insertar_detalles_venta vid ds filas = filas ++ nuevas /\
    Forall (fun d => DetalleVentaDB.venta_id d = vid) nuevas /\
    map linea_de_venta nuevas = ds.
Proof.
  induction ds as [| d ds IH]; intros filas; simpl.
  - exists []. rewrite app_nil_r. repeat split. constructor.
  - destruct (IH (filas ++
        [DetalleVentaDB.mk (siguiente_id (map DetalleVentaDB.id filas)) vid
           (dn_producto_id d) (dn_cantidad d) (dn_precio_unitario d)]))
      as (nuevas & H1 & H2 & H3).
    eexists (_ :: nuevas). rewrite H1, <- app_assoc. split; [reflexivity |].
    split.
    + constructor; [reflexivity | exact H2].
    + simpl. rewrite H3. destruct d; reflexivity.
Qed.

Lemma insertar_detalles_cuenta_filas cid ds : forall filas,
  exists nuevas,
    insertar_detalles_cuenta cid ds filas = filas ++ nuevas /\
    Forall (fun d => DetalleCuentaPendienteDB.cuenta_id d = cid) nuevas /\
    map linea_de_cuenta nuevas = ds.
Proof.
  induction ds as [| d ds IH]; intros filas; simpl.
  - exists []. rewrite app_nil_r. repeat split. constructor.
  - destruct (IH (filas ++
        [DetalleCuentaPendienteDB.mk
           (siguiente_id (map DetalleCuentaPendienteDB.id filas)) cid
           (dn_producto_id d) (dn_cantidad d) (dn_precio_unitario d)]))
      as (nuevas & H1 & H2 & H3).
    eexists (_ :: nuevas). rewrite H1, <- app_assoc. split; [reflexivity |].
    split.
    + constructor; [reflexivity | exact H2].
    + simpl. rewrite H3. destruct d; reflexivity.
Qed.

Lemma map_actualizar_primero {A B} (g : A -> B) es f (xs : list A) :
  (forall x, g (f x) = g x) ->
  map g (actualizar_primero es f xs) = map g xs.
Proof.
  intros Hf. induction xs as [| x xs IH]; simpl; [reflexivity |].
  destruct (es x); simpl; [rewrite Hf | rewrite IH]; reflexivity.
Qed.

(** ** Barcodes *)

Lemma codigos_unicos_map ps : forall ps',
  map ProductoDB.codigo_barras ps' = map ProductoDB.codigo_barras ps ->
  codigos_unicos ps' = codigos_unicos ps.
Proof.
  assert (Hex : forall c (qs qs' : list ProductoDB.t),
             map ProductoDB.codigo_barras qs' = map ProductoDB.codigo_barras qs ->
             existsb (fun q => String.eqb (ProductoDB.codigo_barras q) c) qs' =
             existsb (fun q => String.eqb (ProductoDB.codigo_barras q) c) qs).
  { intros c qs. induction qs as [| q qs IHq]; intros [| q' qs'] H; simpl in *;
      try discriminate; [reflexivity |].
    inversion H. rewrite (IHq qs'); [| assumption]. congruence. }
  induction ps as [| p ps IH]; intros [| p' ps'] H; simpl in *;
    try discriminate; [reflexivity |].
  inversion H as [[Hc Ht]]. rewrite (IH ps' Ht), Hc, (Hex _ ps ps' Ht). reflexivity.
Qed.

Lemma codigos_unicos_asignar_cantidad i c t :
  codigos_unicos (productos (asignar_cantidad i c t)) = codigos_unicos (productos t).
Proof.
  apply codigos_unicos_map. simpl. apply map_actualizar_primero. reflexivity.
Qed.

(** ** Every endpoint leaves a well-formed database well-formed *)

(** Barcodes on disk: only [commit] writes to disk, and it checks. *)
Lemma disco_ok_commit : preserva disco_ok commit.
Proof.
  intros s r s' Hs H. unfold commit in H.
  destruct (escribible _ _);
    [destruct (codigos_unicos (productos (en_sesion s))) eqn:E |];
    inversion H; subst; [exact E | exact Hs | exact Hs].
Qed.

Ltac disco_intacto :=
  let s := fresh "s" in let r := fresh "r" in let s' := fresh "s'" in
  let Hs := fresh "Hs" in let H := fresh "H" in
  intros s r s' Hs H; inversion H; subst; exact Hs.

Ltac disco_ok_hoja :=
  first [ apply disco_ok_commit
        | unfold modificar, add_venta, add_cuenta, add_detalle_cuenta, rollback;
          disco_intacto ].

Lemma disco_ok_atender p t :
  codigos_unicos (productos t) = true ->
  codigos_unicos (productos (atender p t)) = true.
Proof.
  intros Ht.
  change (disco_ok (SessionLocal t)) in Ht.
  destruct p; cbn [atender];
    unfold crear_producto, editar_producto, eliminar_producto, crear_venta,
      crear_cuenta_pendiente, agregar_productos_cuenta_pendiente,
      pagar_cuenta_pendiente, Depends_get_db;
    match goal with
    | |- context [?m (SessionLocal t)] =>
        destruct (m (SessionLocal t)) as [r s] eqn:E; cbn [snd];
        revert E; revert Ht;
        generalize (SessionLocal t); intros s0 Ht E;
        change (disco_ok s); revert s0 r s Ht E;
        change (preserva disco_ok m)
    end;
    unfold crear_producto_cuerpo, editar_producto_cuerpo, eliminar_producto_cuerpo,
      crear_venta_cuerpo, crear_cuenta_pendiente_cuerpo,
      agregar_productos_cuenta_pendiente_cuerpo, pagar_cuenta_pendiente_cuerpo,
      crear_venta_paso, crear_cuenta_pendiente_paso, agregar_productos_paso;
    preserva_estructura disco_ok_hoja.
Qed.

(** Keys and references. *)
Lemma integridad_con_productos t ps :
  integridad t -> integridad (con_productos t ps).
Proof. intros H; exact H. Qed.

Lemma integridad_asignar_cantidad i c t :
  integridad t -> integridad (asignar_cantidad i c t).
Proof. intros H; exact H. Qed.

Lemma integridad_add_venta ahora total ds :
  preserva (en_ambas integridad) (add_venta ahora total ds).
Proof.
  intros s r s' [Hd (Hn & Hv & Hc)] H. inversion H; subst; clear H.
  split; [exact Hd |]. split; [exact Hn |]. split; [| exact Hc]. simpl.
  destruct (insertar_detalles_venta_filas
              (siguiente_id (map VentaDB.id (ventas (en_sesion s)))) ds
              (detalles_venta (en_sesion s))) as (nuevas & -> & Hvid & _).
  apply Forall_app; split.
  - eapply Forall_impl; [| exact Hv]. intros d Hin.
    rewrite map_app. apply in_or_app; left; exact Hin.
  - eapply Forall_impl; [| exact Hvid]. intros d ->.
    rewrite map_app. apply in_or_app; right; left. reflexivity.
Qed.

Lemma integridad_add_cuenta ahora nombre total ds :
  preserva (en_ambas integridad) (add_cuenta ahora nombre total ds).
Proof.
  intros s r s' [Hd (Hn & Hv & Hc)] H. inversion H; subst; clear H.
  split; [exact Hd |]. split; [| split; [exact Hv |]]; simpl.
  - rewrite map_app; simpl.
    eapply NoDup_Add; [apply Add_app |]. rewrite app_nil_r.
    split; [exact Hn | apply siguiente_id_fresco].
  - destruct (insertar_detalles_cuenta_filas
                (siguiente_id (map CuentaPendienteDB.id (cuentas_pendientes (en_sesion s))))
                ds (detalles_cuenta_pendiente (en_sesion s))) as (nuevas & -> & Hcid & _).
    apply Forall_app; split.
    + eapply Forall_impl; [| exact Hc]. intros d Hin.
      rewrite map_app. apply in_or_app; left; exact Hin.
    + eapply Forall_impl; [| exact Hcid]. intros d ->.
      rewrite map_app. apply in_or_app; right; left. reflexivity.
Qed.

Lemma integridad_actualizar_cuentas es f t :
  (forall c, CuentaPendienteDB.id (f c) = CuentaPendienteDB.id c) ->
  integridad t ->
  integridad (con_cuentas t (actualizar_primero es f (cuentas_pendientes t))).
Proof.
  intros Hf (Hn & Hv & Hc). unfold integridad; simpl.
  rewrite (map_actualizar_primero CuentaPendienteDB.id es f _ Hf). auto.
Qed.

Lemma integridad_insertar_detalles_cuenta cid ds t :
  In cid (map CuentaPendienteDB.id (cuentas_pendientes t)) ->
  integridad t ->
  integridad (con_detalles_cuenta t
                (insertar_detalles_cuenta cid ds (detalles_cuenta_pendiente t))).
Proof.
  intros Hin (Hn & Hv & Hc). unfold integridad; simpl.
  split; [exact Hn |]. split; [exact Hv |].
  destruct (insertar_detalles_cuenta_filas cid ds (detalles_cuenta_pendiente t))
    as (nuevas & -> & Hcid & _).
  apply Forall_app; split; [exact Hc |].
  eapply Forall_impl; [| exact Hcid]. intros d ->. exact Hin.
Qed.

Ltac integridad_hoja :=
  first
    [ apply integridad_add_venta
    | apply integridad_add_cuenta
    | apply preserva_modificar; intros ? ?;
      first [ apply integridad_asignar_cantidad; assumption
            | apply integridad_con_productos; assumption
            | apply integridad_actualizar_cuentas; [reflexivity | assumption] ] ].

Lemma integridad_crear_producto producto :
  preserva (en_ambas integridad) (crear_producto_cuerpo producto).
Proof. unfold crear_producto_cuerpo. preserva_estructura integridad_hoja. Qed.

Lemma integridad_editar_producto i producto :
  preserva (en_ambas integridad) (editar_producto_cuerpo i producto).
Proof. unfold editar_producto_cuerpo. preserva_estructura integridad_hoja. Qed.

Lemma integridad_eliminar_producto i :
  preserva (en_ambas integridad) (eliminar_producto_cuerpo i).
Proof. unfold eliminar_producto_cuerpo. preserva_estructura integridad_hoja. Qed.

Lemma integridad_crear_venta ahora venta :
  preserva (en_ambas integridad) (crear_venta_cuerpo ahora venta).
Proof.
  unfold crear_venta_cuerpo, crear_venta_paso.
  preserva_estructura integridad_hoja.
Qed.

Lemma integridad_crear_cuenta_pendiente ahora cuenta :
  preserva (en_ambas integridad) (crear_cuenta_pendiente_cuerpo ahora cuenta).
Proof.
  unfold crear_cuenta_pendiente_cuerpo, crear_cuenta_pendiente_paso.
  preserva_estructura integridad_hoja.
Qed.

Lemma integridad_pagar_cuenta ahora i :
  preserva (en_ambas integridad) (pagar_cuenta_pendiente_cuerpo ahora i).
Proof.
  unfold pagar_cuenta_pendiente_cuerpo.
  preserva_estructura integridad_hoja.
Qed.


Lemma integridad_con_cuenta_modificar cid f :
  (forall t, cuentas_pendientes (f t) = cuentas_pendientes t \/
             map CuentaPendienteDB.id (cuentas_pendientes (f t)) =
             map CuentaPendienteDB.id (cuentas_pendientes t)) ->
  (forall t, In cid (map CuentaPendienteDB.id (cuentas_pendientes t)) ->
             integridad t -> integridad (f t)) ->
  preserva (integridad_con_cuenta cid) (modificar f).
Proof.
  intros Hids Hf s r s' [[Hd Hs] Hin] H. inversion H; subst; clear H.
  split; [split |]; simpl; auto.
  destruct (Hids (en_sesion s)) as [-> | ->]; exact Hin.
Qed.

Lemma integridad_con_cuenta_commit cid :
  preserva (integridad_con_cuenta cid) commit.
Proof.
  intros s r s' [[Hd Hs] Hin] H. unfold commit in H.
  destruct (escribible _ _); [destruct (codigos_unicos _) |];
    inversion H; subst; (split; [split |]); simpl; auto.
Qed.

Ltac integridad_con_cuenta_hoja :=
  first
    [ apply integridad_con_cuenta_commit
    | apply integridad_con_cuenta_modificar;
      [ intros ?; first [left; reflexivity
                        | right; apply map_actualizar_primero; reflexivity]
      | intros ? ? ?;
        first [ apply integridad_asignar_cantidad; assumption
              | apply integridad_insertar_detalles_cuenta; assumption
              | apply integridad_actualizar_cuentas; [reflexivity | assumption] ] ] ].

Lemma integridad_agregar_productos cuenta_id req :
  preserva (en_ambas integridad)
    (agregar_productos_cuenta_pendiente_cuerpo cuenta_id req).
Proof.
  intros s r s' Hs H.
  unfold agregar_productos_cuenta_pendiente_cuerpo in H.
  unfold bind at 1, enlazar at 1 in H.
  destruct (clave_enlazable _ _); [| inversion H; subst; exact Hs].
  unfold bind at 1, leer at 1 in H.
  destruct (cuenta_pendiente_por_id cuenta_id (en_sesion s)) as [cuenta |] eqn:Ec.
  - assert (Hin : integridad_con_cuenta (CuentaPendienteDB.id cuenta) s).
    { split; [exact Hs |]. apply in_map. unfold cuenta_pendiente_por_id in Ec.
      apply find_some in Ec. apply Ec. }
    match type of H with
    | ?m s = _ =>
        assert (Hp : preserva (integridad_con_cuenta (CuentaPendienteDB.id cuenta)) m)
    end.
    { unfold agregar_productos_paso, add_detalle_cuenta.
      preserva_estructura integridad_con_cuenta_hoja. }
    exact (proj1 (Hp _ _ _ Hin H)).
  - inversion H; subst. exact Hs.
Qed.

Lemma integridad_atender p t : integridad t -> integridad (atender p t).
Proof.
  intros Ht. destruct p; cbn [atender];
    unfold crear_producto, editar_producto, eliminar_producto, crear_venta,
      crear_cuenta_pendiente, agregar_productos_cuenta_pendiente,
      pagar_cuenta_pendiente;
    (apply Depends_get_db_preserva; [| exact Ht]).
  - apply integridad_crear_producto.
  - apply integridad_editar_producto.
  - apply integridad_eliminar_producto.
  - apply integridad_crear_venta.
  - apply integridad_crear_cuenta_pendiente.
  - apply integridad_agregar_productos.
  - apply integridad_pagar_cuenta.
Qed.

(** Quantities: only [commit] writes to disk, and what it writes is
    either on disk already or checked. *)
Lemma cantidades_por_escribir_almacenables {A} (clave cantidad : A -> Z)
    (disco sesion : list A) :
  Forall (fun x => en_int64 (cantidad x) = true) disco ->
  forallb en_int64 (cantidades_por_escribir clave cantidad disco sesion) = true ->
  Forall (fun x => en_int64 (cantidad x) = true) sesion.
Proof.
  intros Hd Hs. apply Forall_forall. intros x Hx.
  destruct (cantidad_en_disco clave cantidad disco x) eqn:E.
  - unfold cantidad_en_disco in E. apply existsb_exists in E.
    destruct E as (y & Hy & He). apply andb_true_iff in He. destruct He as [_ He].
    apply Z.eqb_eq in He. rewrite <- He.
    rewrite Forall_forall in Hd. apply Hd; exact Hy.
  - rewrite forallb_forall in Hs. apply Hs.
    unfold cantidades_por_escribir. apply in_map. apply filter_In.
    split; [exact Hx |]. rewrite E. reflexivity.
Qed.

Lemma escribible_almacenables d s :
  cantidades_almacenables d -> escribible d s = true -> cantidades_almacenables s.
Proof.
  intros (Hp & Hv & Hc) H. unfold escribible, enteros_por_escribir in H.
  rewrite !forallb_app in H. apply andb_true_iff in H. destruct H as [H1 H].
  apply andb_true_iff in H. destruct H as [H2 H3].
  split; [| split]; eapply cantidades_por_escribir_almacenables; eassumption.
Qed.

Lemma almacenables_commit :
  preserva (fun s => cantidades_almacenables (en_disco s)) commit.
Proof.
  intros s r s' Hs H. unfold commit in H.
  destruct (escribible (en_disco s) (en_sesion s)) eqn:E;
    [destruct (codigos_unicos _) |]; inversion H; subst; cbn [en_disco];
    [exact (escribible_almacenables _ _ Hs E) | exact Hs | exact Hs].
Qed.

Ltac almacenables_hoja :=
  first [ apply almacenables_commit
        | unfold modificar, add_venta, add_cuenta, add_detalle_cuenta, rollback;
          disco_intacto ].

Lemma almacenables_atender p t :
  cantidades_almacenables t -> cantidades_almacenables (atender p t).
Proof.
  intros Ht.
  change ((fun s => cantidades_almacenables (en_disco s)) (SessionLocal t)) in Ht.
  destruct p; cbn [atender];
    unfold crear_producto, editar_producto, eliminar_producto, crear_venta,
      crear_cuenta_pendiente, agregar_productos_cuenta_pendiente,
      pagar_cuenta_pendiente, Depends_get_db;
    match goal with
    | |- context [?m (SessionLocal t)] =>
        destruct (m (SessionLocal t)) as [r s] eqn:E; cbn [snd];
        revert E; revert Ht;
        generalize (SessionLocal t); intros s0 Ht E;
        change ((fun s => cantidades_almacenables (en_disco s)) s);
        revert s0 r s Ht E;
        change (preserva (fun s => cantidades_almacenables (en_disco s)) m)
    end;
    unfold crear_producto_cuerpo, editar_producto_cuerpo, eliminar_producto_cuerpo,
      crear_venta_cuerpo, crear_cuenta_pendiente_cuerpo,
      agregar_productos_cuenta_pendiente_cuerpo, pagar_cuenta_pendiente_cuerpo,
      crear_venta_paso, crear_cuenta_pendiente_paso, agregar_productos_paso;
    preserva_estructura almacenables_hoja.
Qed.

Lemma bien_formada_base_vacia : bien_formada base_vacia.
Proof. repeat split; constructor. Qed.

Lemma bien_formada_atender p t : bien_formada t -> bien_formada (atender p t).
Proof.
  intros (Hc & Hi & Ha).
  split; [apply disco_ok_atender | split;
          [apply integridad_atender | apply almacenables_atender]]; assumption.
Qed.

Lemma bien_formada_atender_todas ps : forall t,
  bien_formada t -> bien_formada (atender_todas ps t).
Proof.
  intros t Ht. apply (atender_todas_inv bien_formada (fun _ => True)).
  - intros p t' _. apply bien_formada_atender.
  - apply Forall_forall. intros; exact Logic.I.
  - exact Ht.
Qed.

(** ** What the flush has to write *)

Lemma cantidades_por_escribir_ok {A} (clave cantidad : A -> Z) (disco sesion : list A) :
  (forall x, In x sesion -> In x disco \/ en_int64 (cantidad x) = true) ->
  forallb en_int64 (cantidades_por_escribir clave cantidad disco sesion) = true.
Proof.
  intros H. apply forallb_forall. intros n Hn. unfold cantidades_por_escribir in Hn.
  apply in_map_iff in Hn. destruct Hn as (x & <- & Hx).
  apply filter_In in Hx. destruct Hx as [Hx Hneg].
  destruct (H x Hx) as [Hd | Hr]; [| exact Hr].
  exfalso. apply negb_true_iff in Hneg. unfold cantidad_en_disco in Hneg.
  assert (Ht : existsb (fun y => (clave y =? clave x) && (cantidad y =? cantidad x))
                 disco = true).
  { apply existsb_exists. exists x. rewrite !Z.eqb_refl. auto. }
  congruence.
Qed.

(** Rows that are on disk as they are, or carry a quantity within 64
    bits, can be written. *)
Lemma escribible_si d s :
  (forall x, In x (productos s) ->
             In x (productos d) \/ en_int64 (ProductoDB.cantidad x) = true) ->
  (forall x, In x (detalles_venta s) ->
             In x (detalles_venta d) \/ en_int64 (DetalleVentaDB.cantidad x) = true) ->
  (forall x, In x (detalles_cuenta_pendiente s) ->
             In x (detalles_cuenta_pendiente d) \/
             en_int64 (DetalleCuentaPendienteDB.cantidad x) = true) ->
  escribible d s = true.
Proof.
  intros Hp Hv Hc. unfold escribible, enteros_por_escribir.
  rewrite !forallb_app, !cantidades_por_escribir_ok; auto.
Qed.


(** ** What the loop leaves behind, in one statement *)

Lemma for_each_venta_codigos items b : forall acc,
  preserva (fun s => codigos_unicos (productos (en_sesion s)) = b)
    (for_each items acc crear_venta_paso).
Proof.
  intros acc. unfold crear_venta_paso.
  preserva_estructura
    ltac:(unfold preserva, modificar;
          let H := fresh in
          intros ? ? ? <- H; inversion H; subst; cbn [en_sesion];
          apply codigos_unicos_asignar_cantidad).
Qed.

Lemma resolver_Retorna t items total ds s1 :
  for_each items (0%float, []) crear_venta_paso (SessionLocal t)
    = (Retorna (total, ds), s1) ->
  exists ps',
    s1 = mkSession t (con_productos t ps') /\
    codigos_unicos ps' = codigos_unicos (productos t) /\
    (forall i, find (es_producto i) ps' =
               option_map (fun p => ProductoDB.con_cantidad p
                                      (ProductoDB.cantidad p - suma_pedida i items))
                 (producto_por_id i t)) /\
    total = sumar 0%float (map subtotal_nuevo ds) /\
    Forall2 (fun item n =>
               cabe_en_float (dc_cantidad item) = true /\
               exists p, producto_por_id (dc_producto_id item) t = Some p /\
                         es_None (ProductoDB.precio p) = false /\
                         n = linea_de p item)
      items ds.
Proof.
  intros H.
  destruct (for_each_venta_Retorna _ _ _ _ _ _ _ H) as (Hd & (ps' & Hps') & Hst).
  destruct (for_each_venta_lineas _ _ _ _ _ _ _ H) as (nuevos & Hds & Htot & Hall).
  pose proof (for_each_venta_codigos items (codigos_unicos (productos t)) _
                (SessionLocal t) _ _ eq_refl H) as Hcod.
  simpl in *. subst ds. exists ps'. split; [| split; [| split; [| split]]].
  - destruct s1 as [d1 e1]. simpl in *. subst. reflexivity.
  - rewrite Hps' in Hcod. exact Hcod.
  - intros i. rewrite <- Hst, Hps'. reflexivity.
  - exact Htot.
  - exact Hall.
Qed.

Lemma resolver_Lanza t items e s1 :
  for_each items (0%float, []) crear_venta_paso (SessionLocal t) = (Lanza e, s1) ->
  en_disco s1 = t.
Proof. intros H. apply for_each_venta_disco in H. exact H. Qed.

(** ** The endpoints in terms of the loop *)

Lemma crear_venta_Lanza ahora venta t e s1 :
  for_each (vc_detalles venta) (0%float, []) crear_venta_paso (SessionLocal t)
    = (Lanza e, s1) ->
  crear_venta ahora venta t = (Lanza e, t).
Proof.
  intros H. unfold crear_venta, Depends_get_db, crear_venta_cuerpo.
  unfold bind at 1. rewrite H. rewrite (resolver_Lanza _ _ _ _ H). reflexivity.
Qed.

(** Once the loop is over, the sale goes out with the decrements in
    one commit, unless a quantity cannot be written; the answer is built
    from what the commit left. *)
Lemma crear_venta_Retorna ahora venta t total ds ps' :
  codigos_unicos ps' = true ->
  for_each (vc_detalles venta) (0%float, []) crear_venta_paso (SessionLocal t)
    = (Retorna (total, ds), mkSession t (con_productos t ps')) ->
  let vid := siguiente_id (map VentaDB.id (ventas t)) in
  let t' := mkTablas ps' (ventas t ++ [VentaDB.mk vid ahora total])
              (insertar_detalles_venta vid ds (detalles_venta t))
              (cuentas_pendientes t) (detalles_cuenta_pendiente t) in
  crear_venta ahora venta t =
    if escribible t t'
    then (respuesta_venta t' (VentaDB.mk vid ahora total), t')
    else (Lanza OverflowError, t).
Proof.
  intros Hc H. unfold crear_venta, Depends_get_db, crear_venta_cuerpo.
  unfold bind at 1. rewrite H.
  unfold bind, add_venta, commit, responder_venta.
  cbn [en_sesion en_disco productos con_productos
    ventas detalles_venta cuentas_pendientes detalles_cuenta_pendiente VentaDB.id].
  destruct (escribible _ _); [| reflexivity].
  rewrite Hc. reflexivity.
Qed.

Lemma con_productos_mismos t : con_productos t (productos t) = t.
Proof. destruct t; reflexivity. Qed.

Lemma filter_detalles_venta_fresco vid ids (ds : list DetalleVentaDB.t) :
  Forall (fun d => In (DetalleVentaDB.venta_id d) ids) ds ->
  ~ In vid ids ->
  filter (fun d => DetalleVentaDB.venta_id d =? vid) ds = [].
Proof.
  intros Hds Hvid. induction Hds as [| d ds Hd Hds IH]; simpl; [reflexivity |].
  destruct (DetalleVentaDB.venta_id d =? vid) eqn:E; [| exact IH].
  apply Z.eqb_eq in E. subst vid. contradiction.
Qed.

Lemma filter_detalles_cuenta_fresco cid ids (ds : list DetalleCuentaPendienteDB.t) :
  Forall (fun d => In (DetalleCuentaPendienteDB.cuenta_id d) ids) ds ->
  ~ In cid ids ->
  filter (fun d => DetalleCuentaPendienteDB.cuenta_id d =? cid) ds = [].
Proof.
  intros Hds Hcid. induction Hds as [| d ds Hd Hds IH]; simpl; [reflexivity |].
  destruct (DetalleCuentaPendienteDB.cuenta_id d =? cid) eqn:E; [| exact IH].
  apply Z.eqb_eq in E. subst cid. contradiction.
Qed.

(** C8.  A sale request with no lines is accepted: the answer is a sale
    with total 0 and no lines, the sale is appended to the ledger, and
    the product table (every quantity on hand with it) is what it was. *)
Theorem crear_venta_sin_lineas (ahora : Z) (t : Tablas) :
  bien_formada t ->
  let vid := siguiente_id (map VentaDB.id (ventas t)) in
  crear_venta ahora (mkVentaCreate []) t =
    (Retorna (mkVenta vid ahora 0%float []),
     mkTablas (productos t) (ventas t ++ [VentaDB.mk vid ahora 0%float])
       (detalles_venta t) (cuentas_pendientes t) (detalles_cuenta_pendiente t)).
Proof.
  intros (Hc & (_ & Hv & _) & _) vid.
  rewrite (crear_venta_Retorna ahora (mkVentaCreate []) t 0%float [] (productos t) Hc).
  - cbn [insertar_detalles_venta]. rewrite escribible_si; try (intros x Hx; left; exact Hx).
    unfold respuesta_venta, detalles_de_venta. cbn [detalles_venta VentaDB.id].
    rewrite (filter_detalles_venta_fresco _ (map VentaDB.id (ventas t))).
    + reflexivity.
    + exact Hv.
    + apply siguiente_id_fresco.
  - cbn [vc_detalles for_each]. unfold ret, SessionLocal.
    rewrite con_productos_mismos. reflexivity.
Qed.

Lemma crear_venta_sin_lineas_testigo :
  crear_venta 100 (mkVentaCreate []) tienda_leche =
    (Retorna (mkVenta 1 100 0%float []),
     mkTablas (productos tienda_leche) [VentaDB.mk 1 100 0%float] [] [] []).
Proof.
  apply (crear_venta_sin_lineas 100 tienda_leche).
  repeat split; repeat constructor.
Defined.

(** ** A line that cannot be served *)

(** The loop stops with an exception at such a line, if not before. *)
Lemma for_each_venta_excede t previas item resto :
  excede t previas item ->
  exists e s,
    for_each (previas ++ item :: resto) (0%float, []) crear_venta_paso (SessionLocal t)
    = (Lanza e, s).
Proof.
  intros Hex. rewrite for_each_app.
  destruct (for_each previas (0%float, []) crear_venta_paso (SessionLocal t))
    as [[[total ds] | e] s1] eqn:E1; [| exists e, s1; reflexivity].
  destruct (resolver_Retorna _ _ _ _ _ E1) as (ps' & Hs1 & _ & Hst & _).
  cbn [for_each]. unfold bind. unfold excede in Hex.
  specialize (Hst (dc_producto_id item)).
  destruct (producto_por_id (dc_producto_id item) t) as [p |] eqn:Ep.
  - rewrite (crear_venta_paso_400 _ _ _
               (ProductoDB.con_cantidad p
                  (ProductoDB.cantidad p - suma_pedida (dc_producto_id item) previas))).
    + do 2 eexists; reflexivity.
    + subst s1. exact Hst.
    + exact Hex.
  - rewrite crear_venta_paso_ausente.
    + do 2 eexists; reflexivity.
    + subst s1. exact Hst.
Qed.

Lemma suma_pedida_no_negativa i items :
  Forall (fun x => 0 <= dc_cantidad x) items -> 0 <= suma_pedida i items.
Proof.
  induction 1 as [| x items Hx Hitems IH]; simpl; [lia |].
  destruct (dc_producto_id x =? i); lia.
Qed.

(** With quantities that are not negative, it is enough that the line
    asks for more than the product had when the request arrived. *)
Lemma excede_stock_inicial t previas item :
  Forall (fun x => 0 <= dc_cantidad x) previas ->
  excede_existencias t item ->
  excede t previas item.
Proof.
  intros Hpos Hp. unfold excede, excede_existencias in *.
  destruct (producto_por_id (dc_producto_id item) t) as [p |]; [| exact Logic.I].
  pose proof (suma_pedida_no_negativa (dc_producto_id item) previas Hpos). lia.
Qed.

(** C2, as amended.  When some line of a sale request asks for more than
    is left of its product when that line is reached (what the product
    had when the request arrived, less what the earlier lines of the
    request took), or names a product that does not exist, the request
    is refused and the database is returned exactly as it was: no
    decrement made for an earlier line survives and no sale is recorded.
    A line that asks for more than the product had when the request
    arrived is such a line when no earlier line of the request carries a
    negative quantity. *)
Theorem crear_venta_excede_revierte (ahora : Z) (t : Tablas)
    (previas : list DetalleCreate) (item : DetalleCreate)
    (resto : list DetalleCreate) :
  excede t previas item \/
  (Forall (fun x => 0 <= dc_cantidad x) previas /\ excede_existencias t item) ->
  exists e,
    crear_venta ahora (mkVentaCreate (previas ++ item :: resto)) t = (Lanza e, t).
Proof.
  intros Hex.
  assert (Hex' : excede t previas item).
  { destruct Hex as [Hex | [Hpos Hex]]; [exact Hex |].
    apply excede_stock_inicial; assumption. }
  destruct (for_each_venta_excede t previas item resto Hex') as (e & s & E).
  exists e.
  exact (crear_venta_Lanza ahora (mkVentaCreate (previas ++ item :: resto)) t e s E).
Qed.

Lemma crear_venta_excede_revierte_testigo :
  exists e,
    crear_venta 100
      (mkVentaCreate ([mkDetalleCreate 1 3] ++ mkDetalleCreate 1 3 :: []))
      tienda_leche
    = (Lanza e, tienda_leche).
Proof.
  apply (crear_venta_excede_revierte 100 tienda_leche
           [mkDetalleCreate 1 3] (mkDetalleCreate 1 3) []).
  left. unfold excede. simpl. lia.
Defined.

(** C2, as stated, fails: the second line asks for twelve units of a
    product that has five, and the sale is recorded all the same, the
    first line having put ten units back. *)
Lemma venta_aceptada_con_linea_que_excede :
  excede_existencias tienda_leche (mkDetalleCreate 1 12) /\
  crear_venta 100
    (mkVentaCreate [mkDetalleCreate 1 (-10); mkDetalleCreate 1 12]) tienda_leche
  = (Retorna (mkVenta 1 100 20%float
                [mkDetalle 1 (-10) 10%float (Some "Leche"%string);
                 mkDetalle 1 12 10%float (Some "Leche"%string)]),
     mkTablas [ProductoDB.mk 1 "Leche" "750" 10%float 3]
       [VentaDB.mk 1 100 20%float]
       [DetalleVentaDB.mk 1 1 1 (-10) 10%float; DetalleVentaDB.mk 2 1 1 12 10%float]
       [] []).
Proof.
  split.
  - unfold excede_existencias. simpl. lia.
  - vm_compute. reflexivity.
Qed.

(** ** Requests that ask for more than there is *)





(** ** Opening and extending an account, in terms of the loop *)

Lemma crear_cuenta_pendiente_Lanza ahora cuenta t e s1 :
  for_each (cc_detalles cuenta) (0%float, []) crear_venta_paso (SessionLocal t)
    = (Lanza e, s1) ->
  crear_cuenta_pendiente ahora cuenta t = (Lanza e, t).
Proof.
  intros H. unfold crear_cuenta_pendiente, Depends_get_db, crear_cuenta_pendiente_cuerpo.
  unfold bind at 1.
  change crear_cuenta_pendiente_paso with crear_venta_paso.
  rewrite H. rewrite (resolver_Lanza _ _ _ _ H). reflexivity.
Qed.

Lemma crear_cuenta_pendiente_Retorna ahora cuenta t total ds ps' :
  codigos_unicos ps' = true ->
  for_each (cc_detalles cuenta) (0%float, []) crear_venta_paso (SessionLocal t)
    = (Retorna (total, ds), mkSession t (con_productos t ps')) ->
  let cid := siguiente_id (map CuentaPendienteDB.id (cuentas_pendientes t)) in
  let c := CuentaPendienteDB.mk cid (cc_nombre_cliente cuenta) ahora "pendiente" total in
  let t' := mkTablas ps' (ventas t) (detalles_venta t) (cuentas_pendientes t ++ [c])
              (insertar_detalles_cuenta cid ds (detalles_cuenta_pendiente t)) in
  crear_cuenta_pendiente ahora cuenta t =
    if escribible t t' then (respuesta_cuenta t' c, t') else (Lanza OverflowError, t).
Proof.
  intros Hc H. unfold crear_cuenta_pendiente, Depends_get_db, crear_cuenta_pendiente_cuerpo.
  unfold bind at 1.
  change crear_cuenta_pendiente_paso with crear_venta_paso.
  rewrite H.
  unfold responder_cuenta, bind, add_cuenta, commit.
  cbn [en_sesion en_disco productos con_productos
    ventas detalles_venta cuentas_pendientes detalles_cuenta_pendiente
    CuentaPendienteDB.id].
  destruct (escribible _ _); [| reflexivity].
  rewrite Hc. reflexivity.
Qed.

Lemma cuenta_pendiente_por_id_In i t c :
  cuenta_pendiente_por_id i t = Some c ->
  In c (cuentas_pendientes t) /\ CuentaPendienteDB.id c = i /\
  CuentaPendienteDB.estado c = "pendiente"%string /\
  clave_enlazable i (claves_de_cuentas t) = true.
Proof.
  unfold cuenta_pendiente_por_id. intros H. apply find_some in H.
  destruct H as [Hin He]. unfold es_cuenta_pendiente in He.
  apply andb_true_iff in He. destruct He as [Hid Hest].
  apply Z.eqb_eq in Hid. apply String.eqb_eq in Hest.
  repeat split; auto.
  apply clave_enlazable_In. unfold claves_de_cuentas. rewrite <- Hid.
  apply in_map. exact Hin.
Qed.

Lemma agregar_productos_sin_cuenta cuenta_id req t :
  cuenta_pendiente_por_id cuenta_id t = None ->
  agregar_productos_cuenta_pendiente cuenta_id req t =
    (Lanza (cuenta_no_encontrada cuenta_id t), t).
Proof.
  intros H. unfold agregar_productos_cuenta_pendiente, Depends_get_db,
    agregar_productos_cuenta_pendiente_cuerpo, bind, enlazar, leer, cuenta_no_encontrada.
  cbn [SessionLocal en_sesion].
  destruct (clave_enlazable _ _); [| reflexivity]. rewrite H. reflexivity.
Qed.

Lemma agregar_productos_Lanza cuenta_id req t cuenta e s1 :
  cuenta_pendiente_por_id cuenta_id t = Some cuenta ->
  for_each (ar_detalles req) (0%float, []) crear_venta_paso (SessionLocal t)
    = (Lanza e, s1) ->
  agregar_productos_cuenta_pendiente cuenta_id req t = (Lanza e, t).
Proof.
  intros Hc H.
  pose proof (for_each_agregar_simula cuenta (ar_detalles req) 0%float []
                (SessionLocal t)) as Hsim.
  rewrite H, con_lineas_nil in Hsim. destruct Hsim as (s'' & Hsim & Hd).
  destruct (cuenta_pendiente_por_id_In _ _ _ Hc) as (_ & _ & _ & Hb).
  unfold agregar_productos_cuenta_pendiente, Depends_get_db,
    agregar_productos_cuenta_pendiente_cuerpo.
  unfold bind at 1, enlazar at 1. cbn [SessionLocal en_sesion]. rewrite Hb.
  unfold bind at 1, leer at 1. cbn [SessionLocal en_sesion]. rewrite Hc.
  unfold bind at 1. fold (SessionLocal t). rewrite Hsim.
  rewrite Hd, (resolver_Lanza _ _ _ _ H). reflexivity.
Qed.

(** Once the loop is over, the total of the account is added to, which
    raises when the account has none; then the lines and the new total
    go out with the decrements in one commit, unless a quantity cannot
    be written. *)
Lemma agregar_productos_Retorna cuenta_id req t cuenta total ds ps' :
  codigos_unicos ps' = true ->
  cuenta_pendiente_por_id cuenta_id t = Some cuenta ->
  for_each (ar_detalles req) (0%float, []) crear_venta_paso (SessionLocal t)
    = (Retorna (total, ds), mkSession t (con_productos t ps')) ->
  let c := CuentaPendienteDB.con_total cuenta
             (CuentaPendienteDB.total cuenta + total)%float in
  let t' := mkTablas ps' (ventas t) (detalles_venta t)
              (actualizar_primero (es_cuenta_pendiente cuenta_id)
                 (fun c => CuentaPendienteDB.con_total c
                             (CuentaPendienteDB.total cuenta + total)%float)
                 (cuentas_pendientes t))
              (insertar_detalles_cuenta (CuentaPendienteDB.id cuenta) ds
                 (detalles_cuenta_pendiente t)) in
  agregar_productos_cuenta_pendiente cuenta_id req t =
    if es_None (CuentaPendienteDB.total cuenta) then (Lanza TypeError, t)
    else if escribible t t' then (respuesta_cuenta t' c, t')
    else (Lanza OverflowError, t).
Proof.
  intros Hcod Hc H.
  pose proof (for_each_agregar_simula cuenta (ar_detalles req) 0%float []
                (SessionLocal t)) as Hsim.
  rewrite H, con_lineas_nil in Hsim.
  destruct (cuenta_pendiente_por_id_In _ _ _ Hc) as (_ & _ & _ & Hb).
  unfold agregar_productos_cuenta_pendiente, Depends_get_db,
    agregar_productos_cuenta_pendiente_cuerpo.
  unfold bind at 1, enlazar at 1. cbn [SessionLocal en_sesion]. rewrite Hb.
  unfold bind at 1, leer at 1. cbn [SessionLocal en_sesion]. rewrite Hc.
  unfold bind at 1. fold (SessionLocal t). rewrite Hsim.
  unfold bind at 1, alzar, mas_igual.
  destruct (es_None (CuentaPendienteDB.total cuenta)); [reflexivity |].
  unfold responder_cuenta, bind, modificar, commit, con_lineas.
  cbn [en_sesion en_disco productos con_productos con_detalles_cuenta con_cuentas
    ventas detalles_venta cuentas_pendientes detalles_cuenta_pendiente
    CuentaPendienteDB.id CuentaPendienteDB.con_total].
  destruct (escribible _ _); [| reflexivity].
  rewrite Hcod. reflexivity.
Qed.




(** So does a line for a product without price before the line that
    runs out of stock: [None * cantidad] raises [TypeError] first. *)
Example pedir_de_mas_con_precio_nulo :
  let t := mkTablas [ProductoDB.mk 1 "Leche" "750" 10%float 5;
                     ProductoDB.mk 2 "Oro" "1" nan 5] [] [] [] [] in
  let items := [mkDetalleCreate 2 1; mkDetalleCreate 1 3; mkDetalleCreate 1 3] in
  pide_de_mas t items /\
  crear_venta 100 (mkVentaCreate items) t = (Lanza TypeError, t).
Proof.
  split.
  - exists 1, (ProductoDB.mk 1 "Leche" "750" 10%float 5).
    split; [simpl; auto | split; [reflexivity | simpl; lia]].
  - vm_compute. reflexivity.
Qed.

(** ** Settling an account *)

Example tienda_con_cuenta_alcanzable :
  atender_todas
    [PCrearProducto (mkProductoCreate "Leche" "750" 10%float 5);
     PCrearCuentaPendiente 7 (mkCuentaPendienteCreate "Ana" [mkDetalleCreate 1 2]);
     PAgregarProductos 1 (mkAgregarProductosCuentaRequest [mkDetalleCreate 1 1])]
    base_vacia
  = tienda_con_cuenta.
Proof. vm_compute. reflexivity. Qed.

Example tienda_saldada_alcanzable :
  atender (PPagarCuenta 9 1) tienda_con_cuenta = tienda_saldada.
Proof. vm_compute. reflexivity. Qed.

Lemma pagar_cuenta_sin_cuenta ahora cuenta_id t :
  cuenta_pendiente_por_id cuenta_id t = None ->
  pagar_cuenta_pendiente ahora cuenta_id t =
    (Lanza (cuenta_no_encontrada cuenta_id t), t).
Proof.
  intros H. unfold pagar_cuenta_pendiente, Depends_get_db,
    pagar_cuenta_pendiente_cuerpo, bind, enlazar, leer, cuenta_no_encontrada.
  cbn [SessionLocal en_sesion].
  destruct (clave_enlazable _ _); [| reflexivity]. rewrite H. reflexivity.
Qed.

(** The sale and the new state go out in one commit, unless a quantity
    cannot be written; the answer is built from what the commit left. *)
Lemma pagar_cuenta_Retorna ahora cuenta_id t cuenta :
  codigos_unicos (productos t) = true ->
  cuenta_pendiente_por_id cuenta_id t = Some cuenta ->
  let vid := siguiente_id (map VentaDB.id (ventas t)) in
  let c := CuentaPendienteDB.con_estado cuenta "pagada" in
  let t' := mkTablas (productos t)
              (ventas t ++ [VentaDB.mk vid ahora (CuentaPendienteDB.total cuenta)])
              (insertar_detalles_venta vid
                 (map linea_de_cuenta
                    (detalles_de_cuenta (CuentaPendienteDB.id cuenta) t))
                 (detalles_venta t))
              (actualizar_primero (es_cuenta_pendiente cuenta_id)
                 (fun c => CuentaPendienteDB.con_estado c "pagada")
                 (cuentas_pendientes t))
              (detalles_cuenta_pendiente t) in
  pagar_cuenta_pendiente ahora cuenta_id t =
    if escribible t t' then (respuesta_cuenta t' c, t') else (Lanza OverflowError, t).
Proof.
  intros Hcod Hc.
  destruct (cuenta_pendiente_por_id_In _ _ _ Hc) as (_ & _ & _ & Hb).
  unfold pagar_cuenta_pendiente, Depends_get_db, pagar_cuenta_pendiente_cuerpo.
  unfold bind at 1, enlazar at 1. cbn [SessionLocal en_sesion]. rewrite Hb.
  unfold bind at 1, leer at 1. cbn [SessionLocal en_sesion]. rewrite Hc.
  unfold responder_cuenta, bind, leer, add_venta, modificar, commit.
  cbn [SessionLocal en_sesion en_disco productos con_cuentas
    ventas detalles_venta cuentas_pendientes detalles_cuenta_pendiente
    VentaDB.id CuentaPendienteDB.id CuentaPendienteDB.con_estado].
  destruct (escribible _ _); [| reflexivity].
  rewrite Hcod. reflexivity.
Qed.

(** The lines of a settled account are written again as lines of the
    sale: their quantities are quantities the store holds. *)
Lemma lineas_copiadas_en_rango (nuevas : list DetalleVentaDB.t) :
  forall ds : list DetalleCuentaPendienteDB.t,
  map linea_de_venta nuevas = map linea_de_cuenta ds ->
  Forall (fun d => en_int64 (DetalleCuentaPendienteDB.cantidad d) = true) ds ->
  Forall (fun d => en_int64 (DetalleVentaDB.cantidad d) = true) nuevas.
Proof.
  induction nuevas as [| n nuevas IH]; intros [| d ds] Hmap Hds;
    try discriminate; constructor.
  - cbn [map] in Hmap. unfold linea_de_venta, linea_de_cuenta in Hmap.
    injection Hmap as _ Hc _ _. inversion Hds; subst. congruence.
  - cbn [map] in Hmap. injection Hmap as _ Hmap. inversion Hds; subst.
    eapply IH; eassumption.
Qed.

Lemma Forall_detalles_de_cuenta (P : DetalleCuentaPendienteDB.t -> Prop) cid t :
  Forall P (detalles_cuenta_pendiente t) -> Forall P (detalles_de_cuenta cid t).
Proof.
  intros H. apply Forall_forall. intros d Hd. unfold detalles_de_cuenta in Hd.
  apply filter_In in Hd. rewrite Forall_forall in H. apply H. apply Hd.
Qed.

Lemma pagar_cuenta_escribible t vid cid ahora total cs :
  cantidades_almacenables t ->
  escribible t
    (mkTablas (productos t) (ventas t ++ [VentaDB.mk vid ahora total])
       (insertar_detalles_venta vid
          (map linea_de_cuenta (detalles_de_cuenta cid t)) (detalles_venta t))
       cs (detalles_cuenta_pendiente t)) = true.
Proof.
  intros (_ & _ & Hdc).
  destruct (insertar_detalles_venta_filas vid
              (map linea_de_cuenta (detalles_de_cuenta cid t)) (detalles_venta t))
    as (nuevas & Hins & _ & Hmap).
  apply escribible_si; cbn [productos detalles_venta detalles_cuenta_pendiente].
  - intros x Hx. left; exact Hx.
  - rewrite Hins. intros x Hx. apply in_app_or in Hx. destruct Hx as [Hx | Hx].
    + left; exact Hx.
    + right.
      pose proof (lineas_copiadas_en_rango nuevas _ Hmap
                    (Forall_detalles_de_cuenta _ cid t Hdc)) as Hn.
      rewrite Forall_forall in Hn. apply Hn; exact Hx.
  - intros x Hx. left; exact Hx.
Qed.

Lemma In_misma_clave {A} (g : A -> Z) (xs : list A) a b :
  NoDup (map g xs) -> In a xs -> In b xs -> g a = g b -> a = b.
Proof.
  induction xs as [| x xs IH]; simpl; intros Hn Ha Hb Hg; [contradiction |].
  inversion Hn as [| y ys Hnotin Hn']; subst.
  destruct Ha as [-> | Ha], Hb as [-> | Hb].
  - reflexivity.
  - exfalso. apply Hnotin. rewrite Hg. apply in_map; exact Hb.
  - exfalso. apply Hnotin. rewrite <- Hg. apply in_map; exact Ha.
  - apply IH; assumption.
Qed.

Lemma es_cuenta_pendiente_true i c :
  es_cuenta_pendiente i c = true <->
  CuentaPendienteDB.id c = i /\ CuentaPendienteDB.estado c = "pendiente"%string.
Proof.
  unfold es_cuenta_pendiente. rewrite andb_true_iff, Z.eqb_eq, String.eqb_eq.
  reflexivity.
Qed.

(** With distinct keys, the filtered query finds the account exactly
    when it is there and pending. *)
Lemma cuenta_pendiente_por_id_pendiente t c :
  NoDup (map CuentaPendienteDB.id (cuentas_pendientes t)) ->
  In c (cuentas_pendientes t) ->
  CuentaPendienteDB.estado c = "pendiente"%string ->
  cuenta_pendiente_por_id (CuentaPendienteDB.id c) t = Some c.
Proof.
  intros Hn Hin He. unfold cuenta_pendiente_por_id.
  destruct (find (es_cuenta_pendiente (CuentaPendienteDB.id c)) (cuentas_pendientes t))
    as [c' |] eqn:E.
  - apply find_some in E. destruct E as [Hin' Hes].
    apply es_cuenta_pendiente_true in Hes. destruct Hes as [Hid _].
    f_equal. exact (In_misma_clave _ _ _ _ Hn Hin' Hin Hid).
  - exfalso. pose proof (find_none _ _ E c Hin) as Hes.
    assert (Ht : es_cuenta_pendiente (CuentaPendienteDB.id c) c = true)
      by (apply es_cuenta_pendiente_true; auto).
    congruence.
Qed.

Lemma cuenta_pendiente_por_id_saldada t c :
  NoDup (map CuentaPendienteDB.id (cuentas_pendientes t)) ->
  In c (cuentas_pendientes t) ->
  CuentaPendienteDB.estado c <> "pendiente"%string ->
  cuenta_pendiente_por_id (CuentaPendienteDB.id c) t = None.
Proof.
  intros Hn Hin He. unfold cuenta_pendiente_por_id.
  destruct (find (es_cuenta_pendiente (CuentaPendienteDB.id c)) (cuentas_pendientes t))
    as [c' |] eqn:E; [| reflexivity].
  apply find_some in E. destruct E as [Hin' Hes].
  apply es_cuenta_pendiente_true in Hes. destruct Hes as [Hid Hest].
  rewrite (In_misma_clave _ _ _ _ Hn Hin' Hin Hid) in Hest. contradiction.
Qed.

Lemma cuenta_pendiente_por_id_ausente t i :
  ~ In i (map CuentaPendienteDB.id (cuentas_pendientes t)) ->
  cuenta_pendiente_por_id i t = None.
Proof.
  intros Hout. unfold cuenta_pendiente_por_id.
  destruct (find (es_cuenta_pendiente i) (cuentas_pendientes t)) as [c |] eqn:E;
    [| reflexivity].
  apply find_some in E. destruct E as [Hin Hes].
  apply es_cuenta_pendiente_true in Hes. destruct Hes as [Hid _].
  exfalso. apply Hout. rewrite <- Hid. apply in_map; exact Hin.
Qed.

Lemma cuenta_no_encontrada_presente t c :
  In c (cuentas_pendientes t) ->
  cuenta_no_encontrada (CuentaPendienteDB.id c) t
  = HTTPException 404 "Cuenta pendiente no encontrada".
Proof.
  intros Hin. unfold cuenta_no_encontrada. rewrite clave_enlazable_In; [reflexivity |].
  unfold claves_de_cuentas. apply in_map. exact Hin.
Qed.

Lemma cuenta_no_encontrada_ausente t i :
  ~ In i (map CuentaPendienteDB.id (cuentas_pendientes t)) ->
  cuenta_no_encontrada i t
  = if en_int64 i then HTTPException 404 "Cuenta pendiente no encontrada"
    else OverflowError.
Proof.
  intros Hi. unfold cuenta_no_encontrada, claves_de_cuentas.
  rewrite (clave_enlazable_ausente _ _ Hi). reflexivity.
Qed.

(** C3, as amended.  Settling an account that is already settled is
    refused and records nothing: the database is returned as it was.
    The refusal is the 404 "Cuenta pendiente no encontrada", the very
    answer given for an account id that does not exist (and that SQLite
    can look up: an id outside signed 64 bits, which no account has,
    makes the query raise [OverflowError] instead, a 500). *)
Theorem pagar_cuenta_saldada (ahora : Z) (t : Tablas) (c : CuentaPendienteDB.t) :
  bien_formada t ->
  In c (cuentas_pendientes t) ->
  CuentaPendienteDB.estado c = "pagada"%string ->
  pagar_cuenta_pendiente ahora (CuentaPendienteDB.id c) t
    = (Lanza (HTTPException 404 "Cuenta pendiente no encontrada"), t)
  /\
  (forall i, ~ In i (map CuentaPendienteDB.id (cuentas_pendientes t)) ->
             en_int64 i = true ->
             pagar_cuenta_pendiente ahora i t
             = pagar_cuenta_pendiente ahora (CuentaPendienteDB.id c) t)
  /\
  (forall i, ~ In i (map CuentaPendienteDB.id (cuentas_pendientes t)) ->
             en_int64 i = false ->
             pagar_cuenta_pendiente ahora i t = (Lanza OverflowError, t)).
Proof.
  intros (_ & (Hn & _) & _) Hin He.
  assert (H1 : pagar_cuenta_pendiente ahora (CuentaPendienteDB.id c) t
               = (Lanza (HTTPException 404 "Cuenta pendiente no encontrada"), t)).
  { rewrite pagar_cuenta_sin_cuenta.
    - rewrite (cuenta_no_encontrada_presente _ _ Hin). reflexivity.
    - apply cuenta_pendiente_por_id_saldada; auto. rewrite He. discriminate. }
  split; [exact H1 | split]; intros i Hi Hr.
  - rewrite H1, pagar_cuenta_sin_cuenta
      by (apply cuenta_pendiente_por_id_ausente; exact Hi).
    rewrite (cuenta_no_encontrada_ausente _ _ Hi), Hr. reflexivity.
  - rewrite pagar_cuenta_sin_cuenta
      by (apply cuenta_pendiente_por_id_ausente; exact Hi).
    rewrite (cuenta_no_encontrada_ausente _ _ Hi), Hr. reflexivity.
Qed.

Lemma pagar_cuenta_saldada_testigo :
  pagar_cuenta_pendiente 10 1 tienda_saldada
    = (Lanza (HTTPException 404 "Cuenta pendiente no encontrada"), tienda_saldada)
  /\
  (forall i, ~ In i (map CuentaPendienteDB.id (cuentas_pendientes tienda_saldada)) ->
             en_int64 i = true ->
             pagar_cuenta_pendiente 10 i tienda_saldada
             = pagar_cuenta_pendiente 10 1 tienda_saldada)
  /\
  (forall i, ~ In i (map CuentaPendienteDB.id (cuentas_pendientes tienda_saldada)) ->
             en_int64 i = false ->
             pagar_cuenta_pendiente 10 i tienda_saldada
             = (Lanza OverflowError, tienda_saldada)).
Proof.
  apply (pagar_cuenta_saldada 10 tienda_saldada
           (CuentaPendienteDB.mk 1 "Ana" 7 "pagada" 30%float)).
  - repeat split; simpl; repeat constructor; simpl; tauto.
  - simpl; auto.
  - reflexivity.
Defined.

(** C3, as stated, fails: the second settlement of Ana's account is
    answered 404, exactly as the settlement of account 7, which does
    not exist, and not with the 400 of an invalid state. *)
Lemma pagar_dos_veces_responde_404 :
  tienda_saldada = atender (PPagarCuenta 9 1) tienda_con_cuenta /\
  estado_http (fst (pagar_cuenta_pendiente 10 1 tienda_saldada)) = 404 /\
  fst (pagar_cuenta_pendiente 10 1 tienda_saldada)
    = fst (pagar_cuenta_pendiente 10 7 tienda_saldada) /\
  estado_http (fst (pagar_cuenta_pendiente 10 1 tienda_saldada)) <> 400.
Proof. vm_compute. repeat split; discriminate. Qed.

(** C4, as amended.  Appending lines to an account that is already
    settled is refused whatever the lines are, and the database (the
    account, the inventory and both ledgers) is returned as it was.  The
    refusal is the 404 "Cuenta pendiente no encontrada", the very answer
    given for an account id that does not exist (and that SQLite can
    look up: an id outside signed 64 bits, which no account has, makes
    the query raise [OverflowError] instead, a 500). *)
Theorem agregar_productos_cuenta_saldada (t : Tablas) (c : CuentaPendienteDB.t)
    (req : AgregarProductosCuentaRequest) :
  bien_formada t ->
  In c (cuentas_pendientes t) ->
  CuentaPendienteDB.estado c = "pagada"%string ->
  agregar_productos_cuenta_pendiente (CuentaPendienteDB.id c) req t
    = (Lanza (HTTPException 404 "Cuenta pendiente no encontrada"), t)
  /\
  (forall i, ~ In i (map CuentaPendienteDB.id (cuentas_pendientes t)) ->
             en_int64 i = true ->
             agregar_productos_cuenta_pendiente i req t
             = agregar_productos_cuenta_pendiente (CuentaPendienteDB.id c) req t)
  /\
  (forall i, ~ In i (map CuentaPendienteDB.id (cuentas_pendientes t)) ->
             en_int64 i = false ->
             agregar_productos_cuenta_pendiente i req t = (Lanza OverflowError, t)).
Proof.
  intros (_ & (Hn & _) & _) Hin He.
  assert (H1 : agregar_productos_cuenta_pendiente (CuentaPendienteDB.id c) req t
               = (Lanza (HTTPException 404 "Cuenta pendiente no encontrada"), t)).
  { rewrite agregar_productos_sin_cuenta.
    - rewrite (cuenta_no_encontrada_presente _ _ Hin). reflexivity.
    - apply cuenta_pendiente_por_id_saldada; auto. rewrite He. discriminate. }
  split; [exact H1 | split]; intros i Hi Hr.
  - rewrite H1, agregar_productos_sin_cuenta
      by (apply cuenta_pendiente_por_id_ausente; exact Hi).
    rewrite (cuenta_no_encontrada_ausente _ _ Hi), Hr. reflexivity.
  - rewrite agregar_productos_sin_cuenta
      by (apply cuenta_pendiente_por_id_ausente; exact Hi).
    rewrite (cuenta_no_encontrada_ausente _ _ Hi), Hr. reflexivity.
Qed.

Lemma agregar_productos_cuenta_saldada_testigo :
  let req := mkAgregarProductosCuentaRequest [mkDetalleCreate 1 1] in
  agregar_productos_cuenta_pendiente 1 req tienda_saldada
    = (Lanza (HTTPException 404 "Cuenta pendiente no encontrada"), tienda_saldada)
  /\
  (forall i, ~ In i (map CuentaPendienteDB.id (cuentas_pendientes tienda_saldada)) ->
             en_int64 i = true ->
             agregar_productos_cuenta_pendiente i req tienda_saldada
             = agregar_productos_cuenta_pendiente 1 req tienda_saldada)
  /\
  (forall i, ~ In i (map CuentaPendienteDB.id (cuentas_pendientes tienda_saldada)) ->
             en_int64 i = false ->
             agregar_productos_cuenta_pendiente i req tienda_saldada
             = (Lanza OverflowError, tienda_saldada)).
Proof.
  apply (agregar_productos_cuenta_saldada tienda_saldada
           (CuentaPendienteDB.mk 1 "Ana" 7 "pagada" 30%float)
           (mkAgregarProductosCuentaRequest [mkDetalleCreate 1 1])).
  - repeat split; simpl; repeat constructor; simpl; tauto.
  - simpl; auto.
  - reflexivity.
Defined.

(** C4, as stated, fails: an append to Ana's settled account is answered
    404, exactly as an append to account 7, which does not exist, and
    not with the 400 of an invalid state. *)
Lemma agregar_a_saldada_responde_404 :
  let req := mkAgregarProductosCuentaRequest [mkDetalleCreate 1 1] in
  tienda_saldada = atender (PPagarCuenta 9 1) tienda_con_cuenta /\
  estado_http (fst (agregar_productos_cuenta_pendiente 1 req tienda_saldada)) = 404 /\
  fst (agregar_productos_cuenta_pendiente 1 req tienda_saldada)
    = fst (agregar_productos_cuenta_pendiente 7 req tienda_saldada) /\
  estado_http (fst (agregar_productos_cuenta_pendiente 1 req tienda_saldada)) <> 400.
Proof. vm_compute. repeat split; discriminate. Qed.

(** C10.  Settling an account leaves the product table as it was, row by
    row: no quantity on hand, price, name or barcode changes, whether
    the settlement goes through or is refused. *)
Theorem pagar_cuenta_no_toca_productos (ahora cuenta_id : Z) (t : Tablas) :
  productos (snd (pagar_cuenta_pendiente ahora cuenta_id t)) = productos t.
Proof.
  unfold pagar_cuenta_pendiente.
  apply (Depends_get_db_preserva (fun t' => productos t' = productos t));
    [| reflexivity].
  assert (Hp : forall t1 t2 : Tablas,
             productos t2 = productos t1 ->
             productos t1 = productos t -> productos t2 = productos t)
    by (intros; congruence).
  unfold pagar_cuenta_pendiente_cuerpo.
  preserva_estructura
    ltac:(first [ apply preserva_add_venta; exact Hp
                | apply (preserva_con_cuentas _ Hp) ]).
Qed.

Lemma filter_detalles_venta_propios vid (ds : list DetalleVentaDB.t) :
  Forall (fun d => DetalleVentaDB.venta_id d = vid) ds ->
  filter (fun d => DetalleVentaDB.venta_id d =? vid) ds = ds.
Proof.
  induction 1 as [| d ds Hd Hds IH]; simpl; [reflexivity |].
  rewrite Hd, Z.eqb_refl, IH. reflexivity.
Qed.

Lemma filter_detalles_cuenta_propios cid (ds : list DetalleCuentaPendienteDB.t) :
  Forall (fun d => DetalleCuentaPendienteDB.cuenta_id d = cid) ds ->
  filter (fun d => DetalleCuentaPendienteDB.cuenta_id d =? cid) ds = ds.
Proof.
  induction 1 as [| d ds Hd Hds IH]; simpl; [reflexivity |].
  rewrite Hd, Z.eqb_refl, IH. reflexivity.
Qed.

Lemma actualizar_primero_partes {A} (es : A -> bool) f (xs : list A) x :
  find es xs = Some x ->
  exists l1 l2,
    xs = l1 ++ x :: l2 /\ actualizar_primero es f xs = l1 ++ f x :: l2.
Proof.
  induction xs as [| y xs IH]; simpl; [discriminate |].
  destruct (es y) eqn:E.
  - intros H; inversion H; subst. exists [], xs. split; reflexivity.
  - intros H. destruct (IH H) as (l1 & l2 & -> & ->).
    exists (y :: l1), l2. split; reflexivity.
Qed.

(** What an answer that is built says of the row it is built from. *)
Lemma respuesta_cuenta_Retorna t c r :
  respuesta_cuenta t c = Retorna r ->
  es_None (CuentaPendienteDB.total c) = false /\
  exists ds,
    detalles_respuesta_cuenta t (detalles_de_cuenta (CuentaPendienteDB.id c) t)
      = Retorna ds /\
    r = mkCuentaPendiente (CuentaPendienteDB.id c) (CuentaPendienteDB.nombre_cliente c)
          (CuentaPendienteDB.fecha_creacion c) (CuentaPendienteDB.estado c)
          (CuentaPendienteDB.total c) ds.
Proof.
  unfold respuesta_cuenta, a_cuenta_pendiente.
  destruct (detalles_respuesta_cuenta _ _) as [ds | e]; [| discriminate].
  destruct (es_None _); [discriminate |].
  intros H; inversion H; subst. split; [reflexivity |].
  exists ds. split; reflexivity.
Qed.

Lemma respuesta_venta_Retorna t v r :
  respuesta_venta t v = Retorna r ->
  es_None (VentaDB.total v) = false /\
  exists ds,
    detalles_respuesta_venta t (detalles_de_venta (VentaDB.id v) t) = Retorna ds /\
    r = mkVenta (VentaDB.id v) (VentaDB.fecha v) (VentaDB.total v) ds.
Proof.
  unfold respuesta_venta, a_venta.
  destruct (detalles_respuesta_venta _ _) as [ds | e]; [| discriminate].
  destruct (es_None _); [discriminate |].
  intros H; inversion H; subst. split; [reflexivity |].
  exists ds. split; reflexivity.
Qed.

(** A listing that is answered lists exactly the accounts the query
    selects, in order. *)
Lemma listar_cuentas_pendientes_ids t l t2 :
  listar_cuentas_pendientes t = (Retorna l, t2) ->
  map c_id l = map CuentaPendienteDB.id (cuentas_activas t).
Proof.
  unfold listar_cuentas_pendientes, Depends_get_db, listar_cuentas_pendientes_cuerpo.
  unfold bind at 1, leer at 1. cbn [SessionLocal en_sesion].
  assert (Hgen : forall cs acc s r s',
             for_each cs acc
               (fun resultado c => r <- responder_cuenta c ;; ret (resultado ++ [r])) s
             = (Retorna r, s') ->
             map c_id r = map c_id acc ++ map CuentaPendienteDB.id cs).
  { induction cs as [| c cs IH]; intros acc s r s' H; cbn [for_each] in H.
    - unfold ret in H. inversion H; subst. rewrite app_nil_r. reflexivity.
    - unfold bind at 1 in H.
      destruct ((r0 <- responder_cuenta c;; ret (acc ++ [r0])) s)
        as [[acc1 | e] s1] eqn:E1; [| discriminate].
      apply IH in H. rewrite H.
      unfold responder_cuenta, bind, ret in E1.
      destruct (respuesta_cuenta _ _) as [r0 | e] eqn:Er; [| discriminate].
      apply respuesta_cuenta_Retorna in Er. destruct Er as (_ & ds & _ & ->).
      inversion E1; subst. rewrite map_app, <- app_assoc. reflexivity. }
  destruct (for_each (cuentas_activas t) [] _ _) as [[r | e] s'] eqn:E;
    intros H; inversion H; subst.
  apply Hgen in E. exact E.
Qed.

(** C6.  Settling an account that is pending marks it settled and, in
    the same commit, appends to the sale ledger one sale with the
    account's total and, line by line, the account's product ids,
    quantities and unit prices; the account keeps its lines, drops out
    of the active accounts, and an answered listing does not show it. *)
Theorem pagar_cuenta_pendiente_salda (ahora : Z) (t : Tablas)
    (c : CuentaPendienteDB.t) :
  bien_formada t ->
  In c (cuentas_pendientes t) ->
  CuentaPendienteDB.estado c = "pendiente"%string ->
  let cid := CuentaPendienteDB.id c in
  let t' := snd (pagar_cuenta_pendiente ahora cid t) in
  let vid := siguiente_id (map VentaDB.id (ventas t)) in
  In (CuentaPendienteDB.con_estado c "pagada") (cuentas_pendientes t') /\
  (forall c', In c' (cuentas_pendientes t') -> CuentaPendienteDB.id c' = cid ->
              c' = CuentaPendienteDB.con_estado c "pagada") /\
  ventas t' = ventas t ++ [VentaDB.mk vid ahora (CuentaPendienteDB.total c)] /\
  map linea_de_venta (detalles_de_venta vid t')
    = map linea_de_cuenta (detalles_de_cuenta cid t) /\
  detalles_de_cuenta cid t' = detalles_de_cuenta cid t /\
  ~ In cid (map CuentaPendienteDB.id (cuentas_activas t')) /\
  (forall l t'', listar_cuentas_pendientes t' = (Retorna l, t'') ->
                 ~ In cid (map c_id l)) /\
  (forall r, fst (pagar_cuenta_pendiente ahora cid t) = Retorna r ->
             c_id r = cid /\ c_estado r = "pagada"%string /\
             c_total r = CuentaPendienteDB.total c).
Proof.
  intros (Hcod & (Hn & Hv & Hdc) & Halm) Hin Hest. cbv zeta.
  pose proof (cuenta_pendiente_por_id_pendiente t c Hn Hin Hest) as Hfind.
  rewrite (pagar_cuenta_Retorna ahora (CuentaPendienteDB.id c) t c Hcod Hfind).
  cbv zeta. rewrite (pagar_cuenta_escribible _ _ _ _ _ _ Halm).
  cbn [snd fst].
  destruct (actualizar_primero_partes (es_cuenta_pendiente (CuentaPendienteDB.id c))
              (fun c => CuentaPendienteDB.con_estado c "pagada")
              (cuentas_pendientes t) c Hfind) as (l1 & l2 & Hxs & Hact).
  destruct (insertar_detalles_venta_filas (siguiente_id (map VentaDB.id (ventas t)))
              (map linea_de_cuenta (detalles_de_cuenta (CuentaPendienteDB.id c) t))
              (detalles_venta t))
    as (nuevas & Hins & Hvid & Hmap).
  rewrite Hact, Hins.
  match goal with
  | |- context [respuesta_cuenta ?a ?b] =>
      pose proof (respuesta_cuenta_Retorna a b) as Hresp;
      generalize dependent (respuesta_cuenta a b); intros resp Hresp
  end.
  match goal with
  | |- context [listar_cuentas_pendientes ?a] => set (t' := a)
  end.
  assert (Hunica : forall c', In c' (cuentas_pendientes t') ->
                     CuentaPendienteDB.id c' = CuentaPendienteDB.id c ->
                     c' = CuentaPendienteDB.con_estado c "pagada").
  { intros c' Hc' Hid. cbn [t' cuentas_pendientes] in Hc'.
    rewrite Hxs, map_app in Hn. simpl in Hn.
    apply NoDup_remove_2 in Hn.
    apply in_app_or in Hc'. destruct Hc' as [Hc' | [Hc' | Hc']].
    - exfalso. apply Hn. apply in_or_app; left.
      rewrite <- Hid. apply in_map; exact Hc'.
    - symmetry; exact Hc'.
    - exfalso. apply Hn. apply in_or_app; right.
      rewrite <- Hid. apply in_map; exact Hc'. }
  assert (Hactivas : ~ In (CuentaPendienteDB.id c)
                       (map CuentaPendienteDB.id (cuentas_activas t'))).
  { intros Hact'. apply in_map_iff in Hact'. destruct Hact' as (c' & Hid & Hc').
    unfold cuentas_activas in Hc'. apply filter_In in Hc'. destruct Hc' as [Hc' Hp].
    rewrite (Hunica c' Hc' Hid) in Hp. simpl in Hp. discriminate. }
  split; [| split; [exact Hunica | split; [| split; [| split; [| split; [exact Hactivas | split]]]]]].
  - cbn [t' cuentas_pendientes]. apply in_or_app; right; left; reflexivity.
  - reflexivity.
  - unfold detalles_de_venta at 1. cbn [t' detalles_venta].
    rewrite filter_app.
    rewrite (filter_detalles_venta_fresco _ (map VentaDB.id (ventas t)));
      [| exact Hv | apply siguiente_id_fresco].
    simpl. rewrite <- Hmap. f_equal.
    apply filter_detalles_venta_propios. exact Hvid.
  - reflexivity.
  - intros l t'' Hl. rewrite (listar_cuentas_pendientes_ids _ _ _ Hl). exact Hactivas.
  - intros r Hr. destruct (Hresp r Hr) as (_ & ds & _ & ->). repeat split.
Qed.

Lemma pagar_cuenta_pendiente_salda_testigo :
  let c := CuentaPendienteDB.mk 1 "Ana" 7 "pendiente" 30%float in
  let t' := snd (pagar_cuenta_pendiente 9 1 tienda_con_cuenta) in
  In (CuentaPendienteDB.con_estado c "pagada") (cuentas_pendientes t') /\
  (forall c', In c' (cuentas_pendientes t') -> CuentaPendienteDB.id c' = 1 ->
              c' = CuentaPendienteDB.con_estado c "pagada") /\
  ventas t' = ventas tienda_con_cuenta ++ [VentaDB.mk 1 9 30%float] /\
  map linea_de_venta (detalles_de_venta 1 t')
    = map linea_de_cuenta (detalles_de_cuenta 1 tienda_con_cuenta) /\
  detalles_de_cuenta 1 t' = detalles_de_cuenta 1 tienda_con_cuenta /\
  ~ In 1 (map CuentaPendienteDB.id (cuentas_activas t')) /\
  (forall l t'', listar_cuentas_pendientes t' = (Retorna l, t'') ->
                 ~ In 1 (map c_id l)) /\
  (forall r, fst (pagar_cuenta_pendiente 9 1 tienda_con_cuenta) = Retorna r ->
             c_id r = 1 /\ c_estado r = "pagada"%string /\ c_total r = 30%float).
Proof.
  apply (pagar_cuenta_pendiente_salda 9 tienda_con_cuenta
           (CuentaPendienteDB.mk 1 "Ana" 7 "pendiente" 30%float)).
  - repeat split; simpl; repeat constructor; simpl; tauto.
  - simpl; auto.
  - reflexivity.
Defined.

(** ** Unit prices are copied when the line is written *)

Lemma resolver_lineas_servidas t items ds :
  Forall2 (fun item n =>
             cabe_en_float (dc_cantidad item) = true /\
             exists p, producto_por_id (dc_producto_id item) t = Some p /\
                       es_None (ProductoDB.precio p) = false /\
                       n = linea_de p item) items ds ->
  Forall2 (linea_servida t) items ds.
Proof.
  intros H. eapply Forall2_impl; [| exact H].
  intros item n [_ (p & Hp & _ & ->)]. unfold linea_servida, linea_de; simpl.
  split; [exact (producto_por_id_id _ _ _ Hp) |]. split; [reflexivity |].
  exists p. split; [exact Hp | reflexivity].
Qed.

(** A sale request is refused with the database as it was, or its lines
    are committed, in order, as the lines of a new sale. *)
Lemma crear_venta_lineas ahora venta t :
  bien_formada t ->
  (exists e, crear_venta ahora venta t = (Lanza e, t)) \/
  exists nuevas total ps',
    let vid := siguiente_id (map VentaDB.id (ventas t)) in
    let t' := mkTablas ps' (ventas t ++ [VentaDB.mk vid ahora total])
                (detalles_venta t ++ nuevas)
                (cuentas_pendientes t) (detalles_cuenta_pendiente t) in
    crear_venta ahora venta t = (respuesta_venta t' (VentaDB.mk vid ahora total), t') /\
    detalles_de_venta vid t' = nuevas /\
    total = sumar 0%float (map subtotal_nuevo (map linea_de_venta nuevas)) /\
    stock_descontado t t' (vc_detalles venta) /\
    Forall2 (fun item n =>
               cabe_en_float (dc_cantidad item) = true /\
               exists p, producto_por_id (dc_producto_id item) t = Some p /\
                         es_None (ProductoDB.precio p) = false /\
                         n = linea_de p item)
      (vc_detalles venta) (map linea_de_venta nuevas).
Proof.
  intros (Hcod & (Hn & Hv & Hdc) & Halm).
  destruct (for_each (vc_detalles venta) (0%float, []) crear_venta_paso (SessionLocal t))
    as [[[total ds] | e] s1] eqn:E.
  - destruct (resolver_Retorna _ _ _ _ _ E) as (ps' & -> & Hc' & Hst & Htot & Hall).
    rewrite Hcod in Hc'.
    rewrite (crear_venta_Retorna ahora venta t total ds ps' Hc' E). cbv zeta.
    destruct (escribible _ _); [| left; exists OverflowError; reflexivity].
    right.
    destruct (insertar_detalles_venta_filas
                (siguiente_id (map VentaDB.id (ventas t))) ds (detalles_venta t))
      as (nuevas & Hins & Hvid & Hmap).
    exists nuevas, total, ps'. rewrite Hins, Hmap.
    split; [reflexivity |]. split; [| split; [exact Htot | split; [| exact Hall]]].
    + unfold detalles_de_venta. cbn [detalles_venta]. rewrite filter_app.
      rewrite (filter_detalles_venta_fresco _ (map VentaDB.id (ventas t)));
        [| exact Hv | apply siguiente_id_fresco].
      apply filter_detalles_venta_propios. exact Hvid.
    + intros i. unfold producto_por_id at 1. cbn [productos]. apply Hst.
  - left. exists e. exact (crear_venta_Lanza ahora venta t e s1 E).
Qed.

Lemma crear_cuenta_pendiente_lineas ahora cuenta t :
  bien_formada t ->
  (exists e, crear_cuenta_pendiente ahora cuenta t = (Lanza e, t)) \/
  exists nuevas total ps',
    let cid := siguiente_id (map CuentaPendienteDB.id (cuentas_pendientes t)) in
    let c := CuentaPendienteDB.mk cid (cc_nombre_cliente cuenta) ahora "pendiente" total in
    let t' := mkTablas ps' (ventas t) (detalles_venta t) (cuentas_pendientes t ++ [c])
                (detalles_cuenta_pendiente t ++ nuevas) in
    crear_cuenta_pendiente ahora cuenta t = (respuesta_cuenta t' c, t') /\
    detalles_de_cuenta cid t' = nuevas /\
    Forall (fun d => DetalleCuentaPendienteDB.cuenta_id d = cid) nuevas /\
    total = sumar 0%float (map subtotal_nuevo (map linea_de_cuenta nuevas)) /\
    stock_descontado t t' (cc_detalles cuenta) /\
    Forall2 (fun item n =>
               cabe_en_float (dc_cantidad item) = true /\
               exists p, producto_por_id (dc_producto_id item) t = Some p /\
                         es_None (ProductoDB.precio p) = false /\
                         n = linea_de p item)
      (cc_detalles cuenta) (map linea_de_cuenta nuevas).
Proof.
  intros (Hcod & (Hn & Hv & Hdc) & Halm).
  destruct (for_each (cc_detalles cuenta) (0%float, []) crear_venta_paso (SessionLocal t))
    as [[[total ds] | e] s1] eqn:E.
  - destruct (resolver_Retorna _ _ _ _ _ E) as (ps' & -> & Hc' & Hst & Htot & Hall).
    rewrite Hcod in Hc'.
    rewrite (crear_cuenta_pendiente_Retorna ahora cuenta t total ds ps' Hc' E).
    cbv zeta.
    destruct (escribible _ _); [| left; exists OverflowError; reflexivity].
    right.
    destruct (insertar_detalles_cuenta_filas
                (siguiente_id (map CuentaPendienteDB.id (cuentas_pendientes t))) ds
                (detalles_cuenta_pendiente t))
      as (nuevas & Hins & Hcid & Hmap).
    exists nuevas, total, ps'. rewrite Hins, Hmap.
    split; [reflexivity |].
    split; [| split; [exact Hcid | split; [exact Htot | split; [| exact Hall]]]].
    + unfold detalles_de_cuenta. cbn [detalles_cuenta_pendiente]. rewrite filter_app.
      rewrite (filter_detalles_cuenta_fresco _
                 (map CuentaPendienteDB.id (cuentas_pendientes t)));
        [| exact Hdc | apply siguiente_id_fresco].
      apply filter_detalles_cuenta_propios. exact Hcid.
    + intros i. unfold producto_por_id at 1. cbn [productos]. apply Hst.
  - left. exists e. exact (crear_cuenta_pendiente_Lanza ahora cuenta t e s1 E).
Qed.

Lemma agregar_productos_lineas cuenta_id req t :
  bien_formada t ->
  (exists e, agregar_productos_cuenta_pendiente cuenta_id req t = (Lanza e, t)) \/
  exists cuenta nuevas total ps',
    cuenta_pendiente_por_id cuenta_id t = Some cuenta /\
    es_None (CuentaPendienteDB.total cuenta) = false /\
    let nuevo := (CuentaPendienteDB.total cuenta + total)%float in
    let t' := mkTablas ps' (ventas t) (detalles_venta t)
                (actualizar_primero (es_cuenta_pendiente cuenta_id)
                   (fun c => CuentaPendienteDB.con_total c nuevo)
                   (cuentas_pendientes t))
                (detalles_cuenta_pendiente t ++ nuevas) in
    agregar_productos_cuenta_pendiente cuenta_id req t
      = (respuesta_cuenta t' (CuentaPendienteDB.con_total cuenta nuevo), t') /\
    detalles_de_cuenta cuenta_id t' = detalles_de_cuenta cuenta_id t ++ nuevas /\
    Forall (fun d => DetalleCuentaPendienteDB.cuenta_id d = cuenta_id) nuevas /\
    total = sumar 0%float (map subtotal_nuevo (map linea_de_cuenta nuevas)) /\
    stock_descontado t t' (ar_detalles req) /\
    Forall2 (fun item n =>
               cabe_en_float (dc_cantidad item) = true /\
               exists p, producto_por_id (dc_producto_id item) t = Some p /\
                         es_None (ProductoDB.precio p) = false /\
                         n = linea_de p item)
      (ar_detalles req) (map linea_de_cuenta nuevas).
Proof.
  intros (Hcod & _ & _).
  destruct (cuenta_pendiente_por_id cuenta_id t) as [cuenta |] eqn:Ec.
  2: { left. eexists. exact (agregar_productos_sin_cuenta _ _ _ Ec). }
  destruct (for_each (ar_detalles req) (0%float, []) crear_venta_paso (SessionLocal t))
    as [[[total ds] | e] s1] eqn:E.
  - destruct (resolver_Retorna _ _ _ _ _ E) as (ps' & -> & Hc' & Hst & Htot & Hall).
    rewrite Hcod in Hc'.
    rewrite (agregar_productos_Retorna cuenta_id req t cuenta total ds ps' Hc' Ec E).
    cbv zeta.
    destruct (es_None (CuentaPendienteDB.total cuenta)) eqn:Enone;
      [left; exists TypeError; reflexivity |].
    destruct (escribible _ _); [| left; exists OverflowError; reflexivity].
    right.
    destruct (cuenta_pendiente_por_id_In _ _ _ Ec) as (_ & Hid & _ & _).
    destruct (insertar_detalles_cuenta_filas (CuentaPendienteDB.id cuenta) ds
                (detalles_cuenta_pendiente t))
      as (nuevas & Hins & Hcid & Hmap).
    rewrite Hid in Hcid.
    exists cuenta, nuevas, total, ps'. rewrite Hins, Hmap.
    split; [reflexivity |]. split; [exact Enone |].
    split; [reflexivity |].
    split; [| split; [exact Hcid | split; [exact Htot | split; [| exact Hall]]]].
    + unfold detalles_de_cuenta. cbn [detalles_cuenta_pendiente]. rewrite filter_app.
      f_equal. apply filter_detalles_cuenta_propios. exact Hcid.
    + intros i. unfold producto_por_id at 1. cbn [productos]. apply Hst.
  - left. exists e. exact (agregar_productos_Lanza cuenta_id req t cuenta e s1 Ec E).
Qed.

Lemma editar_producto_no_toca_lineas i producto t :
  let t' := snd (editar_producto i producto t) in
  detalles_venta t' = detalles_venta t /\
  detalles_cuenta_pendiente t' = detalles_cuenta_pendiente t.
Proof.
  cbv zeta. unfold editar_producto.
  apply (Depends_get_db_preserva
           (fun t' => detalles_venta t' = detalles_venta t /\
                      detalles_cuenta_pendiente t' = detalles_cuenta_pendiente t));
    [| split; reflexivity].
  unfold editar_producto_cuerpo.
  preserva_estructura ltac:(apply preserva_modificar; intros ? ?; assumption).
Qed.

(** C7.  When a sale, an account opening or an append is answered with
    the sale or the account, the lines of the request have been written,
    in order, at the end of their ledger, as the lines of that sale or
    (after the lines it already had) of that account, and the other
    ledger is as it was; each line written carries the product id and
    quantity of its request line and, as its unit price, the price its
    product had when the request arrived (nothing changes a price while
    the lines of a request are reserved).  A request that is answered
    with an exception has written nothing, unless the exception comes
    from building the answer after the commit; the lines written then
    carry the same prices.  Editing a product, which is the only way to
    change a price, leaves every stored line of both ledgers as it was,
    whatever it answers. *)
Theorem precio_unitario_capturado (t : Tablas) :
  bien_formada t ->
  (forall ahora venta r t',
     crear_venta ahora venta t = (Retorna r, t') ->
     exists nuevas,
       detalles_venta t' = detalles_venta t ++ nuevas /\
       detalles_de_venta (v_id r) t' = nuevas /\
       detalles_cuenta_pendiente t' = detalles_cuenta_pendiente t /\
       Forall2 (linea_servida t) (vc_detalles venta) (map linea_de_venta nuevas))
  /\
  (forall ahora venta e t',
     crear_venta ahora venta t = (Lanza e, t') ->
     t' = t \/
     exists nuevas,
       detalles_venta t' = detalles_venta t ++ nuevas /\
       detalles_cuenta_pendiente t' = detalles_cuenta_pendiente t /\
       Forall2 (linea_servida t) (vc_detalles venta) (map linea_de_venta nuevas))
  /\
  (forall ahora cuenta r t',
     crear_cuenta_pendiente ahora cuenta t = (Retorna r, t') ->
     exists nuevas,
       detalles_cuenta_pendiente t' = detalles_cuenta_pendiente t ++ nuevas /\
       detalles_de_cuenta (c_id r) t' = nuevas /\
       detalles_venta t' = detalles_venta t /\
       Forall2 (linea_servida t) (cc_detalles cuenta) (map linea_de_cuenta nuevas))
  /\
  (forall ahora cuenta e t',
     crear_cuenta_pendiente ahora cuenta t = (Lanza e, t') ->
     t' = t \/
     exists nuevas,
       detalles_cuenta_pendiente t' = detalles_cuenta_pendiente t ++ nuevas /\
       detalles_venta t' = detalles_venta t /\
       Forall2 (linea_servida t) (cc_detalles cuenta) (map linea_de_cuenta nuevas))
  /\
  (forall cuenta_id req r t',
     agregar_productos_cuenta_pendiente cuenta_id req t = (Retorna r, t') ->
     exists nuevas,
       c_id r = cuenta_id /\
       detalles_cuenta_pendiente t' = detalles_cuenta_pendiente t ++ nuevas /\
       detalles_de_cuenta cuenta_id t' = detalles_de_cuenta cuenta_id t ++ nuevas /\
       detalles_venta t' = detalles_venta t /\
       Forall2 (linea_servida t) (ar_detalles req) (map linea_de_cuenta nuevas))
  /\
  (forall cuenta_id req e t',
     agregar_productos_cuenta_pendiente cuenta_id req t = (Lanza e, t') ->
     t' = t \/
     exists nuevas,
       detalles_cuenta_pendiente t' = detalles_cuenta_pendiente t ++ nuevas /\
       detalles_venta t' = detalles_venta t /\
       Forall2 (linea_servida t) (ar_detalles req) (map linea_de_cuenta nuevas))
  /\
  (forall producto_id producto,
     let t' := snd (editar_producto producto_id producto t) in
     detalles_venta t' = detalles_venta t /\
     detalles_cuenta_pendiente t' = detalles_cuenta_pendiente t).
Proof.
  intros Hbf. repeat match goal with |- _ /\ _ => split end.
  - intros ahora venta r t' H.
    destruct (crear_venta_lineas ahora venta t Hbf)
      as [[e He] | (nuevas & total & ps' & Heq & Hde & _ & _ & Hall)];
      [rewrite He in H; discriminate |].
    apply resolver_lineas_servidas in Hall.
    cbv zeta in Heq, Hde. rewrite Heq in H. inversion H as [[Hr Ht]].
    apply respuesta_venta_Retorna in Hr. destruct Hr as (_ & ds & _ & ->).
    exists nuevas. cbn [v_id VentaDB.id detalles_venta detalles_cuenta_pendiente].
    repeat apply conj; [reflexivity | exact Hde | reflexivity | exact Hall].
  - intros ahora venta e t' H.
    destruct (crear_venta_lineas ahora venta t Hbf)
      as [[e' He] | (nuevas & total & ps' & Heq & _ & _ & _ & Hall)].
    + rewrite He in H. inversion H. left; reflexivity.
    + apply resolver_lineas_servidas in Hall. cbv zeta in Heq. rewrite Heq in H. inversion H as [[Hr Ht]].
      right. exists nuevas. cbn [detalles_venta detalles_cuenta_pendiente].
      repeat apply conj; [reflexivity | reflexivity | exact Hall].
  - intros ahora cuenta r t' H.
    destruct (crear_cuenta_pendiente_lineas ahora cuenta t Hbf)
      as [[e He] | (nuevas & total & ps' & Heq & Hde & _ & _ & _ & Hall)];
      [rewrite He in H; discriminate |].
    apply resolver_lineas_servidas in Hall.
    cbv zeta in Heq, Hde. rewrite Heq in H. inversion H as [[Hr Ht]].
    apply respuesta_cuenta_Retorna in Hr. destruct Hr as (_ & ds & _ & ->).
    exists nuevas.
    cbn [c_id CuentaPendienteDB.id detalles_venta detalles_cuenta_pendiente].
    repeat apply conj; [reflexivity | exact Hde | reflexivity | exact Hall].
  - intros ahora cuenta e t' H.
    destruct (crear_cuenta_pendiente_lineas ahora cuenta t Hbf)
      as [[e' He] | (nuevas & total & ps' & Heq & _ & _ & _ & _ & Hall)].
    + rewrite He in H. inversion H. left; reflexivity.
    + apply resolver_lineas_servidas in Hall. cbv zeta in Heq. rewrite Heq in H. inversion H as [[Hr Ht]].
      right. exists nuevas. cbn [detalles_venta detalles_cuenta_pendiente].
      repeat apply conj; [reflexivity | reflexivity | exact Hall].
  - intros cuenta_id req r t' H.
    destruct (agregar_productos_lineas cuenta_id req t Hbf)
      as [[e He] | (cuenta & nuevas & total & ps' & Hc & _ & Heq & Hde & _ & _ & _ & Hall)];
      [rewrite He in H; discriminate |].
    apply resolver_lineas_servidas in Hall.
    cbv zeta in Heq, Hde. rewrite Heq in H. inversion H as [[Hr Ht]].
    apply respuesta_cuenta_Retorna in Hr. destruct Hr as (_ & ds & _ & ->).
    destruct (cuenta_pendiente_por_id_In _ _ _ Hc) as (_ & Hid & _ & _).
    exists nuevas.
    cbn [c_id CuentaPendienteDB.id CuentaPendienteDB.con_total
         detalles_venta detalles_cuenta_pendiente].
    repeat apply conj;
      [exact Hid | reflexivity | exact Hde | reflexivity | exact Hall].
  - intros cuenta_id req e t' H.
    destruct (agregar_productos_lineas cuenta_id req t Hbf)
      as [[e' He] | (cuenta & nuevas & total & ps' & _ & _ & Heq & _ & _ & _ & _ & Hall)].
    + rewrite He in H. inversion H. left; reflexivity.
    + apply resolver_lineas_servidas in Hall. cbv zeta in Heq. rewrite Heq in H. inversion H as [[Hr Ht]].
      right. exists nuevas. cbn [detalles_venta detalles_cuenta_pendiente].
      repeat apply conj; [reflexivity | reflexivity | exact Hall].
  - intros producto_id producto. apply editar_producto_no_toca_lineas.
Qed.

Lemma precio_unitario_capturado_testigo :
  let venta := mkVentaCreate [mkDetalleCreate 1 3] in
  let r := mkVenta 1 100 30%float [mkDetalle 1 3 10%float (Some "Leche"%string)] in
  let t' := mkTablas [ProductoDB.mk 1 "Leche" "750" 10%float 2]
              [VentaDB.mk 1 100 30%float] [DetalleVentaDB.mk 1 1 1 3 10%float] [] [] in
  crear_venta 100 venta tienda_leche = (Retorna r, t') /\
  detalles_venta t' = [DetalleVentaDB.mk 1 1 1 3 10%float] /\
  exists nuevas,
    detalles_venta t' = detalles_venta tienda_leche ++ nuevas /\
    detalles_de_venta 1 t' = nuevas /\
    detalles_cuenta_pendiente t' = detalles_cuenta_pendiente tienda_leche /\
    Forall2 (linea_servida tienda_leche) [mkDetalleCreate 1 3]
      (map linea_de_venta nuevas).
Proof.
  cbv zeta. split; [vm_compute; reflexivity |]. split; [reflexivity |].
  apply (proj1 (precio_unitario_capturado tienda_leche
                  ltac:(repeat split; simpl; repeat constructor; simpl; tauto))
           100 (mkVentaCreate [mkDetalleCreate 1 3])
           (mkVenta 1 100 30%float [mkDetalle 1 3 10%float (Some "Leche"%string)])).
  vm_compute. reflexivity.
Defined.

(** A sale at 10, then the price goes to 12: the stored line still says
    10, and the next sale is written at 12. *)
Example precio_historico :
  detalles_venta
    (atender_todas
       [PCrearVenta 100 (mkVentaCreate [mkDetalleCreate 1 3]);
        PEditarProducto 1 (mkProductoCreate "Leche" "750" 12%float 2);
        PCrearVenta 101 (mkVentaCreate [mkDetalleCreate 1 1])]
       tienda_leche)
  = [DetalleVentaDB.mk 1 1 1 3 10%float; DetalleVentaDB.mk 2 2 1 1 12%float].
Proof. vm_compute. reflexivity. Qed.

(** ** The total of an account *)

Lemma suma_lineas_nuevas nuevas ds :
  map linea_de_cuenta nuevas = ds ->
  sumar 0%float (map subtotal_nuevo ds) = suma_lineas nuevas.
Proof.
  intros <-. unfold suma_lineas. rewrite map_map. reflexivity.
Qed.

Lemma add_venta_no_toca_cuentas ahora total ds cs dcs :
  preserva (en_ambas (fun t' => cuentas_pendientes t' = cs /\
                                detalles_cuenta_pendiente t' = dcs))
    (add_venta ahora total ds).
Proof.
  intros s r s' [Hd Hs] H. inversion H; subst. split; [exact Hd | exact Hs].
Qed.

Ltac cuentas_hoja :=
  first
    [ apply preserva_modificar; intros ? ?; assumption
    | apply add_venta_no_toca_cuentas ].

Lemma cuentas_intactas p t :
  match p with
  | PCrearProducto _ | PEditarProducto _ _ | PEliminarProducto _ | PCrearVenta _ _ =>
      cuentas_pendientes (atender p t) = cuentas_pendientes t /\
      detalles_cuenta_pendiente (atender p t) = detalles_cuenta_pendiente t
  | _ => True
  end.
Proof.
  destruct p; cbn [atender]; try exact Logic.I;
    unfold crear_producto, editar_producto, eliminar_producto, crear_venta;
    (apply (Depends_get_db_preserva
              (fun t' => cuentas_pendientes t' = cuentas_pendientes t /\
                         detalles_cuenta_pendiente t' = detalles_cuenta_pendiente t));
     [| split; reflexivity]);
    unfold crear_producto_cuerpo, editar_producto_cuerpo, eliminar_producto_cuerpo,
      crear_venta_cuerpo, crear_venta_paso;
    preserva_estructura cuentas_hoja.
Qed.

Lemma filter_detalles_cuenta_ajenos cid cid' (ds : list DetalleCuentaPendienteDB.t) :
  Forall (fun d => DetalleCuentaPendienteDB.cuenta_id d = cid') ds ->
  cid' <> cid ->
  filter (fun d => DetalleCuentaPendienteDB.cuenta_id d =? cid) ds = [].
Proof.
  intros Hds Hne. induction Hds as [| d ds Hd Hds IH]; simpl; [reflexivity |].
  rewrite Hd. destruct (cid' =? cid) eqn:E; [| exact IH].
  apply Z.eqb_eq in E. contradiction.
Qed.

Lemma In_actualizar_primero_clave {A} (g : A -> Z) (es : A -> bool) f (xs : list A) x c :
  NoDup (map g xs) ->
  find es xs = Some x ->
  In c (actualizar_primero es f xs) ->
  c = f x \/ (In c xs /\ g c <> g x).
Proof.
  intros Hn Hf Hin.
  destruct (actualizar_primero_partes es f xs x Hf) as (l1 & l2 & Hl & Hact).
  rewrite Hact in Hin. rewrite Hl, map_app in Hn. simpl in Hn.
  apply NoDup_remove_2 in Hn.
  apply in_app_or in Hin. destruct Hin as [Hin | [Heq | Hin]].
  - right. split; [rewrite Hl; apply in_or_app; left; exact Hin |].
    intros Hg. apply Hn. apply in_or_app; left. rewrite <- Hg. apply in_map; exact Hin.
  - left. symmetry; exact Heq.
  - right. split; [rewrite Hl; apply in_or_app; right; right; exact Hin |].
    intros Hg. apply Hn. apply in_or_app; right. rewrite <- Hg. apply in_map; exact Hin.
Qed.

(** C5, as amended.  Whatever one request does to a well-formed
    database, an account found in the table afterwards is in one of
    four cases.  It was opened by the request: then its lines serve the
    lines of the request and its total is the float sum, taken from 0 in
    line order, of unit price times quantity over its lines.  Or it was
    pending with a total and the request appended to it: then the new
    lines come after the lines it had, and its total is the total it had
    plus the float sum, taken likewise, over the new lines alone.  Or it
    was pending and the request settled it: then only its state changed.
    Or the account and its lines are as they were.  So the total is the
    sum over the lines when the account is opened, and afterwards the
    result of adding to it, append by append, the sum over the lines of
    that append; a sum that is not a number is stored as [NULL]. *)
Theorem total_de_cuenta_por_lotes (p : Peticion) (t : Tablas)
    (c' : CuentaPendienteDB.t) :
  bien_formada t ->
  let t' := atender p t in
  In c' (cuentas_pendientes t') ->
  cuenta_intacta t t' c' \/
  (exists ahora cuenta,
     p = PCrearCuentaPendiente ahora cuenta /\
     cuenta_abierta t t' (cc_detalles cuenta) c') \/
  (exists req,
     p = PAgregarProductos (CuentaPendienteDB.id c') req /\
     cuenta_extendida t t' (ar_detalles req) c') \/
  (exists ahora,
     p = PPagarCuenta ahora (CuentaPendienteDB.id c') /\
     cuenta_pagada t t' c').
Proof.
  intros Hbf. cbv zeta. intros Hin.
  pose proof Hbf as (Hcod & (Hn & Hv & Hdc) & Halm).
  pose proof (cuentas_intactas p t) as Hfr.
  destruct p as [producto | i producto | i | ahora venta | ahora cuenta | cid req
                 | ahora cid].
  1-4: destruct Hfr as [Hcs Hds]; left; unfold cuenta_intacta, detalles_de_cuenta;
    rewrite Hcs in Hin; rewrite Hds; split; [exact Hin | reflexivity].
  all: clear Hfr; cbn [atender] in Hin |- *.
  - destruct (crear_cuenta_pendiente_lineas ahora cuenta t Hbf)
      as [[e He] | (nuevas & total & ps' & Heq & Hde & Hcid & Htot & _ & Hall)].
    { rewrite He in Hin |- *. left. split; [exact Hin | reflexivity]. }
    cbv zeta in Heq, Hde. rewrite Heq in Hin |- *. cbn [snd] in Hin |- *.
    cbn [cuentas_pendientes] in Hin. apply in_app_or in Hin.
    destruct Hin as [Hin | [<- | []]].
    + left. split; [exact Hin |].
      unfold detalles_de_cuenta. cbn [detalles_cuenta_pendiente].
      rewrite filter_app, (filter_detalles_cuenta_ajenos _ _ _ Hcid), app_nil_r;
        [reflexivity |].
      intros Hid.
      apply (siguiente_id_fresco (map CuentaPendienteDB.id (cuentas_pendientes t))).
      rewrite Hid. apply in_map. exact Hin.
    + right; left. exists ahora, cuenta. split; [reflexivity |].
      unfold cuenta_abierta.
      cbn [CuentaPendienteDB.id CuentaPendienteDB.estado CuentaPendienteDB.total].
      rewrite Hde. split; [apply siguiente_id_fresco |]. split; [reflexivity |].
      split; [apply resolver_lineas_servidas; exact Hall |].
      rewrite Htot. apply suma_lineas_nuevas. reflexivity.
  - destruct (agregar_productos_lineas cid req t Hbf)
      as [[e He] | (cuenta & nuevas & total & ps' & Hc & Hnone & Heq & Hde & Hcid
                    & Htot & _ & Hall)].
    { rewrite He in Hin |- *. left. split; [exact Hin | reflexivity]. }
    cbv zeta in Heq, Hde. rewrite Heq in Hin |- *. cbn [snd] in Hin |- *.
    cbn [cuentas_pendientes] in Hin.
    destruct (cuenta_pendiente_por_id_In _ _ _ Hc) as (Hcin & Hid & Hest & _).
    apply (In_actualizar_primero_clave CuentaPendienteDB.id _ _ _ _ _ Hn Hc) in Hin.
    destruct Hin as [-> | [Hin Hne]].
    + right; right; left. exists req.
      cbn [CuentaPendienteDB.id CuentaPendienteDB.con_total]. rewrite Hid.
      split; [reflexivity |].
      exists cuenta, nuevas.
      cbn [CuentaPendienteDB.id CuentaPendienteDB.con_total]. rewrite Hid.
      split; [exact Hcin |]. split; [exact Hest |]. split; [exact Hnone |].
      split; [| split; [exact Hde | apply resolver_lineas_servidas; exact Hall]].
      rewrite Htot, (suma_lineas_nuevas nuevas _ eq_refl). reflexivity.
    + left. split; [exact Hin |].
      unfold detalles_de_cuenta. cbn [detalles_cuenta_pendiente].
      rewrite filter_app, (filter_detalles_cuenta_ajenos _ _ _ Hcid), app_nil_r;
        [reflexivity |].
      intros Heq'. apply Hne. rewrite Hid. symmetry; exact Heq'.
  - destruct (cuenta_pendiente_por_id cid t) as [cuenta |] eqn:Hc.
    2: { rewrite (pagar_cuenta_sin_cuenta _ _ _ Hc) in Hin |- *.
         left. split; [exact Hin | reflexivity]. }
    rewrite (pagar_cuenta_Retorna ahora cid t cuenta Hcod Hc) in Hin |- *.
    cbv zeta in Hin |- *.
    rewrite (pagar_cuenta_escribible _ _ _ _ _ _ Halm) in Hin |- *.
    cbn [snd] in Hin |- *. cbn [cuentas_pendientes] in Hin.
    destruct (cuenta_pendiente_por_id_In _ _ _ Hc) as (Hcin & Hid & Hest & _).
    apply (In_actualizar_primero_clave CuentaPendienteDB.id _ _ _ _ _ Hn Hc) in Hin.
    destruct Hin as [-> | [Hin Hne]].
    + right; right; right. exists ahora.
      cbn [CuentaPendienteDB.id CuentaPendienteDB.con_estado]. rewrite Hid.
      split; [reflexivity |].
      exists cuenta. cbn [CuentaPendienteDB.id CuentaPendienteDB.con_estado].
      split; [exact Hcin |]. split; [exact Hest |]. split; reflexivity.
    + left. split; [exact Hin | reflexivity].
Qed.

Lemma total_de_cuenta_por_lotes_testigo :
  let p := PAgregarProductos 1 (mkAgregarProductosCuentaRequest [mkDetalleCreate 1 1]) in
  let c' := CuentaPendienteDB.mk 1 "Ana" 7 "pendiente" 40%float in
  let t' := atender p tienda_con_cuenta in
  cuenta_intacta tienda_con_cuenta t' c' \/
  (exists ahora cuenta,
     p = PCrearCuentaPendiente ahora cuenta /\
     cuenta_abierta tienda_con_cuenta t' (cc_detalles cuenta) c') \/
  (exists req,
     p = PAgregarProductos (CuentaPendienteDB.id c') req /\
     cuenta_extendida tienda_con_cuenta t' (ar_detalles req) c') \/
  (exists ahora,
     p = PPagarCuenta ahora (CuentaPendienteDB.id c') /\
     cuenta_pagada tienda_con_cuenta t' c').
Proof.
  apply (total_de_cuenta_por_lotes
           (PAgregarProductos 1 (mkAgregarProductosCuentaRequest [mkDetalleCreate 1 1]))
           tienda_con_cuenta (CuentaPendienteDB.mk 1 "Ana" 7 "pendiente" 40%float)).
  - repeat split; simpl; repeat constructor; simpl; tauto.
  - vm_compute. left. reflexivity.
Defined.

(** C5, as stated, fails: after an account is opened with one unit at
    0.1 and extended with two and three more, its total is 0.1 + 0.5,
    which is 0.6, while the sum over its three lines is
    0.6000000000000001. *)
Lemma total_de_cuenta_difiere_de_la_suma :
  ~ totales_exactos (atender_todas peticiones_decimos base_vacia).
Proof.
  intros H. vm_compute in H. inversion H as [| c cs Hc Hcs]; subst.
  apply (f_equal (fun x => PrimFloat.eqb x 0.6%float)) in Hc.
  vm_compute in Hc. discriminate.
Qed.

(** ** What a served request is answered with *)

Lemma cada_uno_de_map {A B C} (f : B -> Resultado C) (g : A -> B) (xs : list A) :
  cada_uno (fun x => f (g x)) xs = cada_uno f (map g xs).
Proof.
  induction xs as [| x xs IH]; simpl; [reflexivity |].
  destruct (f (g x)); [| reflexivity]. rewrite IH. reflexivity.
Qed.

Lemma detalles_respuesta_venta_nuevos t filas :
  detalles_respuesta_venta t filas
  = cada_uno (a_detalle_nuevo t) (map linea_de_venta filas).
Proof. unfold detalles_respuesta_venta. rewrite <- cada_uno_de_map. reflexivity. Qed.

Lemma detalles_respuesta_cuenta_nuevos t filas :
  detalles_respuesta_cuenta t filas
  = cada_uno (a_detalle_nuevo t) (map linea_de_cuenta filas).
Proof. unfold detalles_respuesta_cuenta. rewrite <- cada_uno_de_map. reflexivity. Qed.

(** The lines built by the loop are all answered, each with the name of
    its product, whatever was taken from the stock in between. *)
Lemma respuesta_de_lineas_servidas t t' pedidos items ds :
  stock_descontado t t' pedidos ->
  Forall2 (fun item n =>
             cabe_en_float (dc_cantidad item) = true /\
             exists p, producto_por_id (dc_producto_id item) t = Some p /\
                       es_None (ProductoDB.precio p) = false /\
                       n = linea_de p item) items ds ->
  exists detalles,
    cada_uno (a_detalle_nuevo t') ds = Retorna detalles /\
    Forall2 (detalle_servido t) items detalles /\
    map subtotal_detalle detalles = map subtotal_nuevo ds.
Proof.
  intros Hst. induction 1 as [| item n items ds Hn Hall (detalles & Hc & Hd & Hs)].
  - exists []. repeat split. constructor.
  - destruct Hn as (_ & p & Hp & Hprecio & ->).
    pose proof (producto_por_id_id _ _ _ Hp) as Hpid.
    simpl. unfold a_detalle_nuevo at 1, a_detalle, linea_de.
    cbn [dn_producto_id dn_cantidad dn_precio_unitario].
    rewrite Hpid, (Hst (dc_producto_id item)), Hp. cbn [option_map].
    rewrite Hprecio, Hc.
    eexists. split; [reflexivity |]. split.
    + constructor; [| exact Hd]. unfold detalle_servido; simpl.
      repeat split; auto. exists p. repeat split; auto.
    + simpl. rewrite Hs. reflexivity.
Qed.

(** The answer for a sale whose lines were just written: it is built,
    unless the total is [NULL]. *)
Lemma respuesta_venta_nueva t t' pedidos items vid ahora total nuevas :
  stock_descontado t t' pedidos ->
  detalles_de_venta vid t' = nuevas ->
  Forall2 (fun item n =>
             cabe_en_float (dc_cantidad item) = true /\
             exists p, producto_por_id (dc_producto_id item) t = Some p /\
                       es_None (ProductoDB.precio p) = false /\
                       n = linea_de p item) items (map linea_de_venta nuevas) ->
  exists detalles,
    respuesta_venta t' (VentaDB.mk vid ahora total)
    = (if es_None total then Lanza ValidationError
       else Retorna (mkVenta vid ahora total detalles)) /\
    Forall2 (detalle_servido t) items detalles /\
    map subtotal_detalle detalles = map subtotal_nuevo (map linea_de_venta nuevas).
Proof.
  intros Hst Hde Hall.
  destruct (respuesta_de_lineas_servidas t t' _ _ _ Hst Hall)
    as (detalles & Hc & Hd & Hs).
  exists detalles. split; [| split; [exact Hd | exact Hs]].
  unfold respuesta_venta. cbn [VentaDB.id]. rewrite Hde.
  rewrite detalles_respuesta_venta_nuevos, Hc. reflexivity.
Qed.

Lemma respuesta_cuenta_nueva t t' pedidos items c nuevas :
  stock_descontado t t' pedidos ->
  detalles_de_cuenta (CuentaPendienteDB.id c) t' = nuevas ->
  Forall2 (fun item n =>
             cabe_en_float (dc_cantidad item) = true /\
             exists p, producto_por_id (dc_producto_id item) t = Some p /\
                       es_None (ProductoDB.precio p) = false /\
                       n = linea_de p item) items (map linea_de_cuenta nuevas) ->
  exists detalles,
    respuesta_cuenta t' c
    = (if es_None (CuentaPendienteDB.total c) then Lanza ValidationError
       else Retorna (mkCuentaPendiente (CuentaPendienteDB.id c)
                       (CuentaPendienteDB.nombre_cliente c)
                       (CuentaPendienteDB.fecha_creacion c)
                       (CuentaPendienteDB.estado c)
                       (CuentaPendienteDB.total c) detalles)) /\
    Forall2 (detalle_servido t) items detalles /\
    map subtotal_detalle detalles = map subtotal_nuevo (map linea_de_cuenta nuevas).
Proof.
  intros Hst Hde Hall.
  destruct (respuesta_de_lineas_servidas t t' _ _ _ Hst Hall)
    as (detalles & Hc & Hd & Hs).
  exists detalles. split; [| split; [exact Hd | exact Hs]].
  unfold respuesta_cuenta. rewrite Hde.
  rewrite detalles_respuesta_cuenta_nuevos, Hc. reflexivity.
Qed.

(** ** A sale is recorded whole or not at all *)

(** On a well-formed database a sale request has one of three outcomes.
    It is refused, and then nothing at all has changed: no decrement of
    an earlier line is left behind.  Or it is answered with a sale, and
    that sale is the new last row of the ledger, with the id and the
    total of the answer.  Or the total of its lines is not a number:
    then the sale is committed all the same, with [NULL] as total and
    the stock taken, and the request fails with [ValidationError] while
    the answer is built. *)
Theorem crear_venta_desenlaces (ahora : Z) (venta : VentaCreate) (t : Tablas) :
  bien_formada t ->
  (exists e, crear_venta ahora venta t = (Lanza e, t)) \/
  (exists v t', crear_venta ahora venta t = (Retorna v, t') /\
                es_None (v_total v) = false /\
                ventas t' = ventas t ++ [VentaDB.mk (v_id v) ahora (v_total v)]) \/
  (exists total t',
     crear_venta ahora venta t = (Lanza ValidationError, t') /\
     es_None total = true /\
     ventas t' = ventas t ++
                 [VentaDB.mk (siguiente_id (map VentaDB.id (ventas t))) ahora total] /\
     stock_descontado t t' (vc_detalles venta)).
Proof.
  intros Hbf.
  destruct (crear_venta_lineas ahora venta t Hbf)
    as [Hno | (nuevas & total & ps' & Heq & Hde & _ & Hst & Hall)];
    [left; exact Hno | right].
  cbv zeta in Heq, Hde, Hst.
  destruct (respuesta_venta_nueva t _ _ _ _ ahora total _ Hst Hde Hall)
    as (detalles & Hr & _ & _).
  rewrite Hr in Heq. destruct (es_None total) eqn:Enone.
  - right. do 2 eexists. split; [exact Heq |]. split; [exact Enone |].
    split; [reflexivity | exact Hst].
  - left. do 2 eexists. split; [exact Heq |]. split; [exact Enone | reflexivity].
Qed.

Lemma crear_venta_desenlaces_testigo :
  let venta := mkVentaCreate [mkDetalleCreate 1 3; mkDetalleCreate 1 3] in
  let t := tienda_leche in
  (exists e, crear_venta 100 venta t = (Lanza e, t)) \/
  (exists v t', crear_venta 100 venta t = (Retorna v, t') /\
                es_None (v_total v) = false /\
                ventas t' = (ventas t ++ [VentaDB.mk (v_id v) 100 (v_total v)])%list) \/
  (exists total t',
     crear_venta 100 venta t = (Lanza ValidationError, t') /\
     es_None total = true /\
     ventas t' = (ventas t ++
                  [VentaDB.mk (siguiente_id (map VentaDB.id (ventas t))) 100 total])%list /\
     stock_descontado t t' (vc_detalles venta)).
Proof.
  apply (crear_venta_desenlaces 100
           (mkVentaCreate [mkDetalleCreate 1 3; mkDetalleCreate 1 3]) tienda_leche).
  repeat split; simpl; repeat constructor; simpl; tauto.
Defined.

(** ** The scenarios of the specification, run on the model *)

Example escenario_venta :
  let t1 := snd (crear_venta 100 (mkVentaCreate [mkDetalleCreate 1 3]) tienda_leche) in
  map ProductoDB.cantidad (productos t1) = [2] /\
  map VentaDB.total (ventas t1) = [30%float] /\
  crear_venta 101 (mkVentaCreate [mkDetalleCreate 1 3]) t1
    = (Lanza (HTTPException 400 "Stock insuficiente para Leche"), t1).
Proof. vm_compute. repeat split. Qed.

Example escenario_cuenta :
  let t1 := snd (crear_cuenta_pendiente 7
                   (mkCuentaPendienteCreate "Ana" [mkDetalleCreate 1 2]) tienda_leche) in
  let t2 := snd (agregar_productos_cuenta_pendiente 1
                   (mkAgregarProductosCuentaRequest [mkDetalleCreate 1 1]) t1) in
  let t3 := snd (pagar_cuenta_pendiente 9 1 t2) in
  map CuentaPendienteDB.total (cuentas_pendientes t1) = [20%float] /\
  map ProductoDB.cantidad (productos t1) = [3] /\
  map CuentaPendienteDB.total (cuentas_pendientes t2) = [30%float] /\
  map ProductoDB.cantidad (productos t2) = [2] /\
  t2 = tienda_con_cuenta /\ t3 = tienda_saldada /\
  fst (listar_cuentas_pendientes t3) = Retorna [].
Proof. vm_compute. repeat split. Qed.

Example escenario_codigo_duplicado :
  crear_producto (mkProductoCreate "Pan" "750" 4%float 8) tienda_leche
  = (Lanza (HTTPException 400 "Código de barras ya registrado"), tienda_leche).
Proof. vm_compute. reflexivity. Qed.

(** A line with a negative quantity passes the stock check and puts
    units back; the line after it is checked against what is then on
    hand. *)
Example cantidad_negativa_repone :
  map ProductoDB.cantidad
    (productos (snd (crear_venta 100
                       (mkVentaCreate [mkDetalleCreate 1 (-10); mkDetalleCreate 1 12])
                       tienda_leche)))
  = [3].
Proof. vm_compute. reflexivity. Qed.

(** Once a product is deleted, settling an account that has a line for
    it commits the settlement and then fails while building the answer. *)
Example pagar_tras_eliminar_producto :
  let t1 := snd (eliminar_producto 1 tienda_con_cuenta) in
  fst (pagar_cuenta_pendiente 9 1 t1) = Lanza AttributeError /\
  map CuentaPendienteDB.estado (cuentas_pendientes (snd (pagar_cuenta_pendiente 9 1 t1)))
    = ["pagada"%string].
Proof. vm_compute. split; reflexivity. Qed.

(** A product priced at infinity and a line for none of it: the total,
    infinity times zero, is not a number.  The sale is committed with
    [NULL] as total, and the answer cannot be built. *)
Example venta_con_total_nulo :
  let t := mkTablas [ProductoDB.mk 1 "Oro" "1" infinity 5] [] [] [] [] in
  crear_venta 100 (mkVentaCreate [mkDetalleCreate 1 0]) t
  = (Lanza ValidationError,
     mkTablas [ProductoDB.mk 1 "Oro" "1" infinity 5] [VentaDB.mk 1 100 nan]
       [DetalleVentaDB.mk 1 1 1 0 infinity] [] []).
Proof. vm_compute. reflexivity. Qed.

(** A quantity that does not fit SQLite's integers cannot be written:
    the commit fails, and [crear_producto] answers as it does for a
    barcode that is taken. *)
Example cantidad_fuera_de_rango :
  crear_producto (mkProductoCreate "Pan" "751" 4%float (2 ^ 63)) tienda_leche
  = (Lanza (HTTPException 400 "Código de barras ya registrado"), tienda_leche).
Proof. vm_compute. reflexivity. Qed.

(** * Further properties of the endpoints *)

(** ** Creating a product *)

Lemma existsb_es_codigo c (ps : list ProductoDB.t) :
  existsb (fun q => String.eqb (ProductoDB.codigo_barras q) c) ps = true <->
  exists q, In q ps /\ ProductoDB.codigo_barras q = c.
Proof.
  rewrite existsb_exists. split; intros (q & Hq & He); exists q; split; auto.
  - apply String.eqb_eq; exact He.
  - apply String.eqb_eq; exact He.
Qed.

(** The check of the unique index says that the column has no duplicate. *)
Lemma codigos_unicos_NoDup ps :
  codigos_unicos ps = true <-> NoDup (map ProductoDB.codigo_barras ps).
Proof.
  induction ps as [| p ps IH]; simpl.
  - split; [constructor | reflexivity].
  - rewrite andb_true_iff, negb_true_iff, IH. split.
    + intros [Hex Hn]. constructor; [| exact Hn].
      intros Hin. apply in_map_iff in Hin. destruct Hin as (q & Hc & Hq).
      assert (Ht : existsb (fun q => String.eqb (ProductoDB.codigo_barras q)
                                       (ProductoDB.codigo_barras p)) ps = true)
        by (apply existsb_es_codigo; exists q; auto).
      congruence.
    + intros Hn. inversion Hn as [| c cs Hnotin Hn']; subst. split; [| exact Hn'].
      destruct (existsb _ ps) eqn:E; [| reflexivity].
      apply existsb_es_codigo in E. destruct E as (q & Hq & Hc).
      exfalso. apply Hnotin. rewrite <- Hc. apply in_map; exact Hq.
Qed.



(** A change of the product table alone can be written when every row
    is on disk as it is or carries a quantity within 64 bits. *)
Lemma escribible_productos t ps :
  (forall x, In x ps -> In x (productos t) \/ en_int64 (ProductoDB.cantidad x) = true) ->
  escribible t (con_productos t ps) = true.
Proof.
  intros H. apply escribible_si; cbn [productos detalles_venta
    detalles_cuenta_pendiente con_productos]; [exact H | |]; intros x Hx; left; exact Hx.
Qed.

Lemma crear_producto_eq producto t :
  crear_producto producto t =
  let t' := con_productos t (productos t ++ [producto_nuevo t producto]) in
  if escribible t t' && codigos_unicos (productos t')
  then (Retorna (producto_nuevo t producto), t')
  else (Lanza (HTTPException 400 "Código de barras ya registrado"), t).
Proof.
  unfold crear_producto, Depends_get_db, crear_producto_cuerpo,
    bind, leer, modificar, try_except, commit, rollback, raise, ret.
  cbn [SessionLocal en_sesion en_disco productos con_productos].
  fold (producto_nuevo t producto).
  destruct (escribible t _); [| reflexivity].
  destruct (codigos_unicos (productos t ++ [producto_nuevo t producto]));
    reflexivity.
Qed.

(** Creating a product under a barcode that some product already carries
    is answered 400 "Código de barras ya registrado", and nothing is
    stored. *)
Theorem crear_producto_codigo_repetido (producto : ProductoCreate) (t : Tablas)
    (q : ProductoDB.t) :
  In q (productos t) ->
  ProductoDB.codigo_barras q = pc_codigo_barras producto ->
  crear_producto producto t
    = (Lanza (HTTPException 400 "Código de barras ya registrado"), t).
Proof.
  intros Hq Hc. rewrite crear_producto_eq. cbv zeta. cbn [productos con_productos].
  destruct (codigos_unicos (productos t ++ [producto_nuevo t producto])) eqn:E;
    [| rewrite andb_false_r; reflexivity].
  exfalso. apply codigos_unicos_NoDup in E. rewrite map_app in E. simpl in E.
  apply NoDup_remove_2 in E. apply E. rewrite app_nil_r, <- Hc.
  apply in_map; exact Hq.
Qed.

Lemma crear_producto_codigo_repetido_testigo :
  crear_producto (mkProductoCreate "Pan" "750" 4%float 8) tienda_leche
    = (Lanza (HTTPException 400 "Código de barras ya registrado"), tienda_leche).
Proof.
  apply (crear_producto_codigo_repetido _ tienda_leche
           (ProductoDB.mk 1 "Leche" "750" 10%float 5)).
  - simpl; auto.
  - reflexivity.
Defined.

Lemma find_es_codigo_unico ps p :
  NoDup (map ProductoDB.codigo_barras ps) ->
  In p ps ->
  find (es_codigo (ProductoDB.codigo_barras p)) ps = Some p.
Proof.
  induction ps as [| x ps IH]; simpl; intros Hn Hin; [contradiction |].
  inversion Hn as [| c cs Hnotin Hn']; subst.
  unfold es_codigo at 1. destruct (String.eqb_spec (ProductoDB.codigo_barras x)
                                     (ProductoDB.codigo_barras p)) as [He | Hne].
  - destruct Hin as [-> | Hin]; [reflexivity |].
    exfalso. apply Hnotin. rewrite He. apply in_map; exact Hin.
  - destruct Hin as [-> | Hin]; [congruence |]. apply IH; assumption.
Qed.

Lemma find_es_codigo_ausente ps c :
  (forall q, In q ps -> ProductoDB.codigo_barras q <> c) ->
  find (es_codigo c) ps = None.
Proof.
  intros H. destruct (find (es_codigo c) ps) as [q |] eqn:E; [| reflexivity].
  apply find_some in E. destruct E as [Hq He]. apply String.eqb_eq in He.
  exfalso. exact (H q Hq He).
Qed.

Lemma buscar_producto_codigo_eq c t :
  buscar_producto_codigo c t =
  match find (es_codigo c) (productos t) with
  | Some p => (Retorna p, t)
  | None => (Lanza (HTTPException 404 "Producto no encontrado"), t)
  end.
Proof.
  unfold buscar_producto_codigo, Depends_get_db, buscar_producto_codigo_cuerpo,
    bind, leer, raise, ret.
  cbn [SessionLocal en_sesion en_disco].
  destruct (find (es_codigo c) (productos t)); reflexivity.
Qed.



(** ** Looking a product up by its barcode *)

(** In a table without duplicate barcodes, the lookup of the barcode of
    any stored product answers with that product; the lookup of a
    barcode no product carries is answered 404 "Producto no encontrado". *)
Theorem buscar_producto_codigo_responde (t : Tablas) :
  codigos_unicos (productos t) = true ->
  (forall p, In p (productos t) ->
             buscar_producto_codigo (ProductoDB.codigo_barras p) t = (Retorna p, t))
  /\
  (forall c, (forall q, In q (productos t) -> ProductoDB.codigo_barras q <> c) ->
             buscar_producto_codigo c t
             = (Lanza (HTTPException 404 "Producto no encontrado"), t)).
Proof.
  intros Hu. apply codigos_unicos_NoDup in Hu. split.
  - intros p Hp. rewrite buscar_producto_codigo_eq, (find_es_codigo_unico _ p Hu Hp).
    reflexivity.
  - intros c Hc. rewrite buscar_producto_codigo_eq, (find_es_codigo_ausente _ c Hc).
    reflexivity.
Qed.

Lemma buscar_producto_codigo_responde_testigo :
  (forall p, In p (productos tienda_leche) ->
             buscar_producto_codigo (ProductoDB.codigo_barras p) tienda_leche
             = (Retorna p, tienda_leche))
  /\
  (forall c, (forall q, In q (productos tienda_leche) ->
                        ProductoDB.codigo_barras q <> c) ->
             buscar_producto_codigo c tienda_leche
             = (Lanza (HTTPException 404 "Producto no encontrado"), tienda_leche)).
Proof.
  apply (buscar_producto_codigo_responde tienda_leche). reflexivity.
Defined.

(** ** Editing and deleting a product *)

Lemma editar_producto_eq i producto t :
  editar_producto i producto t =
  if clave_enlazable i (claves_de_productos t)
  then
    match producto_por_id i t with
    | None => (Lanza (HTTPException 404 "Producto no encontrado"), t)
    | Some p0 =>
        let t' := con_productos t
                    (actualizar_primero (es_producto i)
                       (fun _ => producto_editado (ProductoDB.id p0) producto)
                       (productos t)) in
        if escribible t t' && codigos_unicos (productos t')
        then (Retorna (producto_editado (ProductoDB.id p0) producto), t')
        else (Lanza (HTTPException 400 "Error al actualizar el producto"), t)
    end
  else (Lanza OverflowError, t).
Proof.
  unfold editar_producto, Depends_get_db, editar_producto_cuerpo.
  unfold bind at 1, enlazar at 1. cbn [SessionLocal en_sesion].
  destruct (clave_enlazable i (claves_de_productos t)); [| reflexivity].
  unfold bind at 1, leer at 1. cbn [SessionLocal en_sesion].
  destruct (producto_por_id i t) as [p0 |]; [| reflexivity].
  unfold bind, modificar, try_except, commit, rollback, raise, ret.
  cbn [SessionLocal en_sesion en_disco productos con_productos].
  fold (producto_editado (ProductoDB.id p0) producto).
  destruct (escribible t _); [| reflexivity].
  destruct (codigos_unicos _); reflexivity.
Qed.

Lemma eliminar_producto_eq i t :
  eliminar_producto i t =
  if clave_enlazable i (claves_de_productos t)
  then
    match producto_por_id i t with
    | None => (Lanza (HTTPException 404 "Producto no encontrado"), t)
    | Some _ =>
        let t' := con_productos t (eliminar_primero (es_producto i) (productos t)) in
        if escribible t t'
        then if codigos_unicos (productos t')
             then (Retorna "Producto eliminado"%string, t')
             else (Lanza IntegrityError, t)
        else (Lanza OverflowError, t)
    end
  else (Lanza OverflowError, t).
Proof.
  unfold eliminar_producto, Depends_get_db, eliminar_producto_cuerpo.
  unfold bind at 1, enlazar at 1. cbn [SessionLocal en_sesion].
  destruct (clave_enlazable i (claves_de_productos t)); [| reflexivity].
  unfold bind at 1, leer at 1. cbn [SessionLocal en_sesion].
  destruct (producto_por_id i t) as [p0 |]; [| reflexivity].
  unfold bind, modificar, commit, ret.
  cbn [SessionLocal en_sesion en_disco productos con_productos].
  destruct (escribible t _); [| reflexivity].
  destruct (codigos_unicos _); reflexivity.
Qed.

Lemma producto_por_id_ausente i t :
  ~ In i (map ProductoDB.id (productos t)) -> producto_por_id i t = None.
Proof.
  intros Hout. unfold producto_por_id.
  destruct (find (es_producto i) (productos t)) as [p |] eqn:E; [| reflexivity].
  apply find_some in E. destruct E as [Hin He]. apply Z.eqb_eq in He.
  exfalso. apply Hout. rewrite <- He. apply in_map; exact Hin.
Qed.

(** Editing or deleting under a key no product has changes nothing.
    It is answered 404 "Producto no encontrado" when the key is within
    signed 64 bits; a key outside them cannot be bound to the query,
    which raises [OverflowError]. *)
Theorem producto_inexistente_404 (i : Z) (t : Tablas) :
  ~ In i (map ProductoDB.id (productos t)) ->
  (en_int64 i = true ->
   (forall producto,
      editar_producto i producto t
      = (Lanza (HTTPException 404 "Producto no encontrado"), t))
   /\
   eliminar_producto i t = (Lanza (HTTPException 404 "Producto no encontrado"), t))
  /\
  (en_int64 i = false ->
   (forall producto, editar_producto i producto t = (Lanza OverflowError, t))
   /\
   eliminar_producto i t = (Lanza OverflowError, t)).
Proof.
  intros Hout. pose proof (producto_por_id_ausente i t Hout) as Hn.
  pose proof (clave_enlazable_ausente i (claves_de_productos t) Hout) as Hb.
  split; intros Hr; rewrite Hr in Hb; split.
  - intros producto. rewrite editar_producto_eq, Hb, Hn. reflexivity.
  - rewrite eliminar_producto_eq, Hb, Hn. reflexivity.
  - intros producto. rewrite editar_producto_eq, Hb. reflexivity.
  - rewrite eliminar_producto_eq, Hb. reflexivity.
Qed.

Lemma producto_inexistente_404_testigo :
  (en_int64 7 = true ->
   (forall producto,
      editar_producto 7 producto tienda_leche
      = (Lanza (HTTPException 404 "Producto no encontrado"), tienda_leche))
   /\
   eliminar_producto 7 tienda_leche
   = (Lanza (HTTPException 404 "Producto no encontrado"), tienda_leche))
  /\
  (en_int64 7 = false ->
   (forall producto,
      editar_producto 7 producto tienda_leche = (Lanza OverflowError, tienda_leche))
   /\
   eliminar_producto 7 tienda_leche = (Lanza OverflowError, tienda_leche)).
Proof.
  apply (producto_inexistente_404 7 tienda_leche).
  simpl. intros [H | []]. discriminate.
Defined.

(** A key that no row can have: [DELETE /api/productos/{2**63}]. *)
Example eliminar_producto_fuera_de_rango :
  eliminar_producto (2 ^ 63) tienda_leche = (Lanza OverflowError, tienda_leche).
Proof. vm_compute. reflexivity. Qed.

Lemma find_en_app {A} (f : A -> bool) (l1 l2 : list A) :
  find f (l1 ++ l2) =
  match find f l1 with Some x => Some x | None => find f l2 end.
Proof.
  induction l1 as [| x l1 IH]; simpl; [reflexivity |].
  destruct (f x); [reflexivity | exact IH].
Qed.

Lemma producto_por_id_partes i t p0 :
  producto_por_id i t = Some p0 ->
  exists l1 l2,
    productos t = l1 ++ p0 :: l2 /\
    ProductoDB.id p0 = i /\
    Forall (fun q => ProductoDB.id q <> i) l1 /\
    forall f, actualizar_primero (es_producto i) f (productos t) = l1 ++ f p0 :: l2.
Proof.
  unfold producto_por_id. generalize (productos t). intros ps.
  induction ps as [| x ps IH]; simpl; [discriminate |].
  destruct (es_producto i x) eqn:E.
  - intros H; inversion H; subst. exists [], ps. repeat split.
    + apply Z.eqb_eq; exact E.
    + constructor.
  - intros H. destruct (IH H) as (l1 & l2 & -> & Hid & Hl1 & Hact).
    exists (x :: l1), l2. repeat split; [exact Hid | |].
    + constructor; [| exact Hl1]. intros Hx. unfold es_producto in E.
      rewrite Hx, Z.eqb_refl in E. discriminate.
    + intros f. simpl. rewrite Hact. reflexivity.
Qed.

(** Editing a product so that it would carry the barcode of another
    product is answered 400 "Error al actualizar el producto", and the
    product keeps all its fields. *)
Theorem editar_producto_codigo_ajeno (i : Z) (producto : ProductoCreate) (t : Tablas)
    (q : ProductoDB.t) :
  In i (map ProductoDB.id (productos t)) ->
  In q (productos t) ->
  ProductoDB.id q <> i ->
  ProductoDB.codigo_barras q = pc_codigo_barras producto ->
  editar_producto i producto t
    = (Lanza (HTTPException 400 "Error al actualizar el producto"), t).
Proof.
  intros Hi Hq Hqi Hc. rewrite editar_producto_eq.
  rewrite (clave_enlazable_In i (claves_de_productos t) Hi).
  destruct (producto_por_id i t) as [p0 |] eqn:Ep.
  2: { exfalso. apply in_map_iff in Hi. destruct Hi as (x & Hx & Hin).
       unfold producto_por_id in Ep. pose proof (find_none _ _ Ep x Hin) as Hf.
       unfold es_producto in Hf. rewrite Hx, Z.eqb_refl in Hf. discriminate. }
  cbv zeta. cbn [productos con_productos].
  destruct (producto_por_id_partes i t p0 Ep) as (l1 & l2 & Hps & Hid & _ & Hact).
  rewrite Hact.
  destruct (codigos_unicos (l1 ++ producto_editado (ProductoDB.id p0) producto :: l2))
    eqn:E; [| rewrite andb_false_r; reflexivity].
  exfalso. apply codigos_unicos_NoDup in E. rewrite map_app in E. simpl in E.
  apply NoDup_remove_2 in E. apply E. rewrite <- Hc, <- map_app.
  apply in_map. rewrite Hps in Hq. apply in_app_or in Hq.
  destruct Hq as [Hq | [Hq | Hq]].
  - apply in_or_app; left; exact Hq.
  - subst q. contradiction.
  - apply in_or_app; right; exact Hq.
Qed.

Lemma editar_producto_codigo_ajeno_testigo :
  let t := con_productos tienda_leche
             (productos tienda_leche ++ [ProductoDB.mk 2 "Pan" "751" 4%float 8]) in
  editar_producto 2 (mkProductoCreate "Pan" "750" 4%float 8) t
    = (Lanza (HTTPException 400 "Error al actualizar el producto"), t).
Proof.
  apply (editar_producto_codigo_ajeno 2 (mkProductoCreate "Pan" "750" 4%float 8) _
           (ProductoDB.mk 1 "Leche" "750" 10%float 5)).
  - simpl; auto.
  - simpl; auto.
  - simpl; discriminate.
  - reflexivity.
Defined.



(** [PUT /api/productos/1] with the quantity [2**63]. *)
Example editar_producto_fuera_de_rango :
  editar_producto 1 (mkProductoCreate "Leche" "750" 10%float (2 ^ 63)) tienda_leche
  = (Lanza (HTTPException 400 "Error al actualizar el producto"), tienda_leche).
Proof. vm_compute. reflexivity. Qed.

Lemma eliminar_primero_partes {A} (es : A -> bool) (xs : list A) x :
  find es xs = Some x ->
  exists l1 l2, xs = l1 ++ x :: l2 /\ eliminar_primero es xs = l1 ++ l2.
Proof.
  induction xs as [| y xs IH]; simpl; [discriminate |].
  destruct (es y) eqn:E.
  - intros H; inversion H; subst. exists [], xs. split; reflexivity.
  - intros H. destruct (IH H) as (l1 & l2 & -> & Hel).
    exists (y :: l1), l2. simpl. rewrite Hel. split; reflexivity.
Qed.

(** Deleting an existing product, when keys and barcodes are distinct,
    is answered "Producto eliminado": no product is found under that key
    any more, every other product is as it was, and both ledgers,
    including the lines that name the deleted product, are untouched. *)
Theorem eliminar_producto_borra (i : Z) (t : Tablas) (p0 : ProductoDB.t) :
  codigos_unicos (productos t) = true ->
  claves_de_producto_unicas t ->
  producto_por_id i t = Some p0 ->
  exists t',
    eliminar_producto i t = (Retorna "Producto eliminado"%string, t') /\
    producto_por_id i t' = None /\
    (forall j, j <> i -> producto_por_id j t' = producto_por_id j t) /\
    ventas t' = ventas t /\ detalles_venta t' = detalles_venta t /\
    cuentas_pendientes t' = cuentas_pendientes t /\
    detalles_cuenta_pendiente t' = detalles_cuenta_pendiente t.
Proof.
  intros Hu Hk Ep. rewrite eliminar_producto_eq.
  rewrite (clave_enlazable_In _ _ (producto_por_id_In _ _ _ Ep)), Ep. cbv zeta.
  pose proof (producto_por_id_id _ _ _ Ep) as Hid.
  destruct (eliminar_primero_partes (es_producto i) (productos t) p0 Ep)
    as (l1 & l2 & Hps & Hel).
  rewrite Hel.
  assert (He : escribible t (con_productos t (l1 ++ l2)) = true).
  { apply escribible_productos. intros x Hx. left. rewrite Hps.
    apply in_app_or in Hx. destruct Hx as [Hx | Hx];
      apply in_or_app; [left | right; right]; exact Hx. }
  rewrite He. cbn [productos con_productos].
  assert (Hu' : codigos_unicos (l1 ++ l2) = true).
  { apply codigos_unicos_NoDup. apply codigos_unicos_NoDup in Hu.
    rewrite Hps, map_app in Hu. simpl in Hu. rewrite map_app.
    exact (NoDup_remove_1 _ _ _ Hu). }
  rewrite Hu'. eexists. split; [reflexivity |].
  unfold claves_de_producto_unicas in Hk. rewrite Hps, map_app in Hk. simpl in Hk.
  apply NoDup_remove_2 in Hk. rewrite <- map_app, Hid in Hk.
  split; [| split; [| repeat split]].
  - apply producto_por_id_ausente. cbn [productos con_productos]. exact Hk.
  - intros j Hj. unfold producto_por_id. cbn [productos con_productos].
    rewrite Hps, !find_en_app.
    destruct (find (es_producto j) l1); [reflexivity |]. simpl.
    unfold es_producto at 2. rewrite Hid.
    destruct (i =? j) eqn:E; [| reflexivity].
    apply Z.eqb_eq in E. congruence.
Qed.

Lemma eliminar_producto_borra_testigo :
  exists t',
    eliminar_producto 1 tienda_saldada = (Retorna "Producto eliminado"%string, t') /\
    producto_por_id 1 t' = None /\
    (forall j, j <> 1 -> producto_por_id j t' = producto_por_id j tienda_saldada) /\
    ventas t' = ventas tienda_saldada /\
    detalles_venta t' = detalles_venta tienda_saldada /\
    cuentas_pendientes t' = cuentas_pendientes tienda_saldada /\
    detalles_cuenta_pendiente t' = detalles_cuenta_pendiente tienda_saldada.
Proof.
  apply (eliminar_producto_borra 1 tienda_saldada
           (ProductoDB.mk 1 "Leche" "750" 10%float 2)).
  - reflexivity.
  - unfold claves_de_producto_unicas. simpl. repeat constructor. simpl; tauto.
  - reflexivity.
Defined.

(** ** What every database built by the endpoints satisfies *)

Lemma map_actualizar_primero_si {A B} (g : A -> B) es f (xs : list A) :
  (forall x, es x = true -> g (f x) = g x) ->
  map g (actualizar_primero es f xs) = map g xs.
Proof.
  intros Hf. induction xs as [| x xs IH]; simpl; [reflexivity |].
  destruct (es x) eqn:E; simpl; [rewrite (Hf x E) | rewrite IH]; reflexivity.
Qed.

Lemma claves_asignar_cantidad i c t :
  claves_de_producto_unicas t -> claves_de_producto_unicas (asignar_cantidad i c t).
Proof.
  unfold claves_de_producto_unicas, asignar_cantidad. cbn [productos con_productos].
  rewrite map_actualizar_primero; [auto | reflexivity].
Qed.

Lemma claves_solo_productos t t' :
  productos t' = productos t ->
  claves_de_producto_unicas t -> claves_de_producto_unicas t'.
Proof. unfold claves_de_producto_unicas. intros ->. auto. Qed.

Ltac claves_hoja :=
  first
    [ apply preserva_add_venta; exact claves_solo_productos
    | apply preserva_add_cuenta; exact claves_solo_productos
    | apply preserva_add_detalle_cuenta; exact claves_solo_productos
    | apply (preserva_con_cuentas _ claves_solo_productos)
    | apply preserva_modificar; intros ?; apply claves_asignar_cantidad ].

Lemma claves_atender p t :
  claves_de_producto_unicas t -> claves_de_producto_unicas (atender p t).
Proof.
  intros Hk. destruct p; cbn [atender].
  - rewrite crear_producto_eq. cbv zeta. destruct (_ && _); [| exact Hk].
    unfold claves_de_producto_unicas. cbn [snd productos con_productos].
    rewrite map_app. simpl. eapply NoDup_Add; [apply Add_app |].
    rewrite app_nil_r. split; [exact Hk | apply siguiente_id_fresco].
  - rewrite editar_producto_eq. destruct (clave_enlazable _ _); [| exact Hk].
    destruct (producto_por_id producto_id t) as [p0 |] eqn:Ep; [| exact Hk].
    cbv zeta. destruct (_ && _); [| exact Hk].
    unfold claves_de_producto_unicas. cbn [snd productos con_productos].
    rewrite map_actualizar_primero_si; [exact Hk |].
    intros x Hx. apply Z.eqb_eq in Hx. simpl.
    rewrite (producto_por_id_id _ _ _ Ep), Hx. reflexivity.
  - rewrite eliminar_producto_eq. destruct (clave_enlazable _ _); [| exact Hk].
    destruct (producto_por_id producto_id t) as [p0 |] eqn:Ep; [| exact Hk].
    cbv zeta. destruct (escribible _ _); [| exact Hk].
    destruct (codigos_unicos _); [| exact Hk].
    unfold claves_de_producto_unicas in *. cbn [snd productos con_productos].
    destruct (eliminar_primero_partes _ _ _ Ep) as (l1 & l2 & Hps & ->).
    rewrite Hps, map_app in Hk. simpl in Hk. rewrite map_app.
    exact (NoDup_remove_1 _ _ _ Hk).
  - unfold crear_venta. apply Depends_get_db_preserva; [| exact Hk].
    unfold crear_venta_cuerpo, crear_venta_paso. preserva_estructura claves_hoja.
  - unfold crear_cuenta_pendiente. apply Depends_get_db_preserva; [| exact Hk].
    unfold crear_cuenta_pendiente_cuerpo, crear_cuenta_pendiente_paso.
    preserva_estructura claves_hoja.
  - unfold agregar_productos_cuenta_pendiente.
    apply Depends_get_db_preserva; [| exact Hk].
    unfold agregar_productos_cuenta_pendiente_cuerpo, agregar_productos_paso.
    preserva_estructura claves_hoja.
  - unfold pagar_cuenta_pendiente. apply Depends_get_db_preserva; [| exact Hk].
    unfold pagar_cuenta_pendiente_cuerpo. preserva_estructura claves_hoja.
Qed.

(** Whatever requests are served, starting from the empty database: no
    two products share a key or a barcode, no two accounts share a key,
    and every line of either ledger hangs from a row of that ledger,
    even where a request was refused half way. *)
Theorem base_alcanzada_integra (ps : list Peticion) :
  let t := atender_todas ps base_vacia in
  NoDup (map ProductoDB.id (productos t)) /\
  NoDup (map ProductoDB.codigo_barras (productos t)) /\
  NoDup (map CuentaPendienteDB.id (cuentas_pendientes t)) /\
  Forall (fun d => In (DetalleVentaDB.venta_id d) (map VentaDB.id (ventas t)))
    (detalles_venta t) /\
  Forall (fun d => In (DetalleCuentaPendienteDB.cuenta_id d)
                     (map CuentaPendienteDB.id (cuentas_pendientes t)))
    (detalles_cuenta_pendiente t).
Proof.
  cbv zeta.
  assert (H : bien_formada (atender_todas ps base_vacia) /\
              claves_de_producto_unicas (atender_todas ps base_vacia)).
  { apply (atender_todas_inv
             (fun t => bien_formada t /\ claves_de_producto_unicas t) (fun _ => True)).
    - intros p t _ [Hbf Hk]. split.
      + apply bien_formada_atender; exact Hbf.
      + apply claves_atender; exact Hk.
    - apply Forall_forall. intros; exact Logic.I.
    - split; [exact bien_formada_base_vacia | constructor]. }
  destruct H as [(Hc & (Hn & Hv & Hd) & _) Hk].
  split; [exact Hk |]. split; [apply codigos_unicos_NoDup; exact Hc |].
  split; [exact Hn |]. split; [exact Hv | exact Hd].
Qed.

(** ** Reading sales *)

Lemma obtener_venta_eq i t :
  obtener_venta i t =
  if clave_enlazable i (claves_de_ventas t)
  then match venta_por_id i t with
       | None => (Lanza (HTTPException 404 "Venta no encontrada"), t)
       | Some v => (respuesta_venta t v, t)
       end
  else (Lanza OverflowError, t).
Proof.
  unfold obtener_venta, Depends_get_db, obtener_venta_cuerpo.
  unfold bind at 1, enlazar at 1. cbn [SessionLocal en_sesion].
  destruct (clave_enlazable i (claves_de_ventas t)); [| reflexivity].
  unfold bind at 1, leer at 1. cbn [SessionLocal en_sesion].
  destruct (venta_por_id i t) as [v |]; reflexivity.
Qed.

Lemma find_es_venta_nueva vs v :
  ~ In (VentaDB.id v) (map VentaDB.id vs) ->
  find (es_venta (VentaDB.id v)) (vs ++ [v]) = Some v.
Proof.
  intros Hout. rewrite find_en_app.
  destruct (find (es_venta (VentaDB.id v)) vs) as [x |] eqn:E.
  - apply find_some in E. destruct E as [Hin He]. apply Z.eqb_eq in He.
    exfalso. apply Hout. rewrite <- He. apply in_map; exact Hin.
  - simpl. unfold es_venta. rewrite Z.eqb_refl. reflexivity.
Qed.

(** The sale a sale request is answered with can be read back: asking
    for it by its id on the database the request left answers with the
    same sale, line for line. *)
Theorem obtener_venta_tras_crear_venta (ahora : Z) (venta : VentaCreate)
    (t t' : Tablas) (v : Venta) :
  bien_formada t ->
  crear_venta ahora venta t = (Retorna v, t') ->
  obtener_venta (v_id v) t' = (Retorna v, t').
Proof.
  intros Hbf H.
  destruct (crear_venta_lineas ahora venta t Hbf)
    as [[e He] | (nuevas & total & ps' & Heq & _)];
    [rewrite He in H; discriminate |].
  cbv zeta in Heq. rewrite Heq in H. inversion H as [[Hr Ht]]. clear H.
  destruct (respuesta_venta_Retorna _ _ _ Hr) as (_ & ds & _ & Hv).
  assert (Hid : v_id v = siguiente_id (map VentaDB.id (ventas t)))
    by (rewrite Hv; reflexivity).
  rewrite Hid, obtener_venta_eq.
  pose proof (find_es_venta_nueva (ventas t)
                (VentaDB.mk (siguiente_id (map VentaDB.id (ventas t))) ahora total)
                (siguiente_id_fresco _)) as Hf.
  cbn [VentaDB.id] in Hf.
  rewrite clave_enlazable_In.
  - unfold venta_por_id. cbn [ventas]. rewrite Hf, Hr. reflexivity.
  - unfold claves_de_ventas. cbn [ventas]. rewrite map_app.
    apply in_or_app; right; left; reflexivity.
Qed.

Lemma obtener_venta_tras_crear_venta_testigo :
  obtener_venta 1
    (mkTablas [ProductoDB.mk 1 "Leche" "750" 10%float 2]
       [VentaDB.mk 1 100 30%float] [DetalleVentaDB.mk 1 1 1 3 10%float] [] [])
  = (Retorna (mkVenta 1 100 30%float [mkDetalle 1 3 10%float (Some "Leche"%string)]),
     mkTablas [ProductoDB.mk 1 "Leche" "750" 10%float 2]
       [VentaDB.mk 1 100 30%float] [DetalleVentaDB.mk 1 1 1 3 10%float] [] []).
Proof.
  apply (obtener_venta_tras_crear_venta 100
           (mkVentaCreate [mkDetalleCreate 1 3]) tienda_leche
           (mkTablas [ProductoDB.mk 1 "Leche" "750" 10%float 2]
              [VentaDB.mk 1 100 30%float] [DetalleVentaDB.mk 1 1 1 3 10%float] [] [])
           (mkVenta 1 100 30%float [mkDetalle 1 3 10%float (Some "Leche"%string)])).
  - repeat split; simpl; repeat constructor; simpl; tauto.
  - vm_compute. reflexivity.
Defined.

(** What the building of an answer can fail with. *)
Lemma cada_uno_Lanza_de {A B} (f : A -> Resultado B) (P : Excepcion -> Prop)
    (xs : list A) e :
  (forall y e', In y xs -> f y = Lanza e' -> P e') ->
  cada_uno f xs = Lanza e -> P e.
Proof.
  induction xs as [| y xs IH]; simpl; intros Hf H; [discriminate |].
  destruct (f y) as [b | e'] eqn:Ey.
  - destruct (cada_uno f xs) as [bs | e'']; [discriminate |].
    inversion H; subst. apply IH; [| reflexivity].
    intros z e' Hz. apply Hf. right; exact Hz.
  - inversion H; subst. apply (Hf y); [left; reflexivity | exact Ey].
Qed.

Lemma cada_uno_Lanza_en {A B} (f : A -> Resultado B) (xs : list A) x e0 :
  In x xs -> f x = Lanza e0 -> exists e, cada_uno f xs = Lanza e.
Proof.
  induction xs as [| y xs IH]; simpl; intros Hin Hx; [contradiction |].
  destruct (f y) as [b | e] eqn:Ey; [| exists e; reflexivity].
  destruct Hin as [-> | Hin]; [congruence |].
  destruct (IH Hin Hx) as [e He]. rewrite He. exists e; reflexivity.
Qed.

Lemma a_detalle_Lanza t i c x e :
  a_detalle t i c x = Lanza e ->
  es_fallo_de_respuesta e /\ (es_None x = false -> e = AttributeError).
Proof.
  unfold a_detalle, es_fallo_de_respuesta.
  destruct (producto_por_id i t).
  - destruct (es_None x); [| discriminate].
    intros H; inversion H; subst. split; [right; reflexivity | discriminate].
  - intros H; inversion H; subst. split; [left; reflexivity | reflexivity].
Qed.

Lemma respuesta_venta_Lanza t v e :
  respuesta_venta t v = Lanza e ->
  es_fallo_de_respuesta e /\
  (Forall (fun d => es_None (DetalleVentaDB.precio_unitario d) = false)
     (detalles_de_venta (VentaDB.id v) t) ->
   es_None (VentaDB.total v) = false -> e = AttributeError).
Proof.
  unfold respuesta_venta, detalles_respuesta_venta, a_venta.
  destruct (cada_uno _ _) as [ds | e'] eqn:Ec.
  - destruct (es_None (VentaDB.total v)); [| discriminate].
    intros H; inversion H; subst. split; [right; reflexivity | discriminate].
  - intros H; inversion H; subst. split.
    + apply (cada_uno_Lanza_de _ es_fallo_de_respuesta _ _ (fun y e' _ Hy =>
               proj1 (a_detalle_Lanza _ _ _ _ _ Hy)) Ec).
    + intros Hp _. rewrite Forall_forall in Hp.
      apply (cada_uno_Lanza_de _ (fun e => e = AttributeError) _ _
               (fun y e' Hin Hy => proj2 (a_detalle_Lanza _ _ _ _ _ Hy) (Hp y Hin)) Ec).
Qed.

Lemma respuesta_cuenta_Lanza t c e :
  respuesta_cuenta t c = Lanza e ->
  es_fallo_de_respuesta e /\
  (Forall (fun d => es_None (DetalleCuentaPendienteDB.precio_unitario d) = false)
     (detalles_de_cuenta (CuentaPendienteDB.id c) t) ->
   es_None (CuentaPendienteDB.total c) = false -> e = AttributeError).
Proof.
  unfold respuesta_cuenta, detalles_respuesta_cuenta, a_cuenta_pendiente.
  destruct (cada_uno _ _) as [ds | e'] eqn:Ec.
  - destruct (es_None (CuentaPendienteDB.total c)); [| discriminate].
    intros H; inversion H; subst. split; [right; reflexivity | discriminate].
  - intros H; inversion H; subst. split.
    + apply (cada_uno_Lanza_de _ es_fallo_de_respuesta _ _ (fun y e' _ Hy =>
               proj1 (a_detalle_Lanza _ _ _ _ _ Hy)) Ec).
    + intros Hp _. rewrite Forall_forall in Hp.
      apply (cada_uno_Lanza_de _ (fun e => e = AttributeError) _ _
               (fun y e' Hin Hy => proj2 (a_detalle_Lanza _ _ _ _ _ Hy) (Hp y Hin)) Ec).
Qed.

(** A sale, or an account, with a line whose product is gone has no
    answer. *)
Lemma respuesta_venta_huerfana t v :
  venta_con_linea_huerfana t (VentaDB.id v) ->
  exists e, respuesta_venta t v = Lanza e.
Proof.
  intros (d & Hd & Hp). unfold respuesta_venta, detalles_respuesta_venta.
  destruct (cada_uno_Lanza_en
              (fun d => a_detalle t (DetalleVentaDB.producto_id d)
                          (DetalleVentaDB.cantidad d) (DetalleVentaDB.precio_unitario d))
              _ d AttributeError Hd) as [e He].
  - unfold a_detalle. rewrite Hp. reflexivity.
  - rewrite He. exists e; reflexivity.
Qed.

Lemma respuesta_cuenta_huerfana t c :
  cuenta_con_linea_huerfana t (CuentaPendienteDB.id c) ->
  exists e, respuesta_cuenta t c = Lanza e.
Proof.
  intros (d & Hd & Hp). unfold respuesta_cuenta, detalles_respuesta_cuenta.
  destruct (cada_uno_Lanza_en
              (fun d => a_detalle t (DetalleCuentaPendienteDB.producto_id d)
                          (DetalleCuentaPendienteDB.cantidad d)
                          (DetalleCuentaPendienteDB.precio_unitario d))
              _ d AttributeError Hd) as [e He].
  - unfold a_detalle. rewrite Hp. reflexivity.
  - rewrite He. exists e; reflexivity.
Qed.

(** A loop that builds one answer per row fails as soon as one row has
    no answer, with an exception the rows can fail with. *)
Lemma for_each_respuestas_Lanza {A B} (respuesta : Tablas -> A -> Resultado B)
    (P : Excepcion -> Prop) (xs : list A) x t :
  (forall y e, In y xs -> respuesta t y = Lanza e -> P e) ->
  In x xs ->
  (exists e, respuesta t x = Lanza e) ->
  forall acc s,
    en_sesion s = t ->
    exists e,
      for_each xs acc
        (fun resultado y =>
           r <- (fun s => (respuesta (en_sesion s) y, s)) ;; ret (resultado ++ [r])) s
      = (Lanza e, s) /\ P e.
Proof.
  induction xs as [| y xs IH]; intros Hresp Hin Hx acc s Hs; [contradiction |].
  cbn [for_each]. unfold bind at 1. unfold bind at 1. rewrite Hs.
  destruct (respuesta t y) as [r | e] eqn:Ey.
  - unfold ret at 1. destruct Hin as [-> | Hin];
      [destruct Hx as [e He]; congruence |].
    apply IH; [| exact Hin | exact Hx | exact Hs].
    intros z e Hz. apply Hresp. right; exact Hz.
  - exists e. split; [reflexivity |]. apply (Hresp y); [left; reflexivity | exact Ey].
Qed.

Lemma venta_por_id_presente t v :
  In v (ventas t) ->
  exists v', venta_por_id (VentaDB.id v) t = Some v' /\ VentaDB.id v' = VentaDB.id v.
Proof.
  intros Hv. unfold venta_por_id.
  destruct (find (es_venta (VentaDB.id v)) (ventas t)) as [v' |] eqn:E.
  - exists v'. split; [reflexivity |]. apply find_some in E. destruct E as [_ He].
    apply Z.eqb_eq in He. exact He.
  - pose proof (find_none _ _ E v Hv) as Hf. unfold es_venta in Hf.
    rewrite Z.eqb_refl in Hf. discriminate.
Qed.

Lemma Forall_detalles_de_venta (P : DetalleVentaDB.t -> Prop) vid t :
  Forall P (detalles_venta t) -> Forall P (detalles_de_venta vid t).
Proof.
  intros H. apply Forall_forall. intros d Hd. unfold detalles_de_venta in Hd.
  apply filter_In in Hd. rewrite Forall_forall in H. apply H. apply Hd.
Qed.

(** Once a product named by a line of a sale is gone from the table,
    that sale can no longer be read: asking for it fails while the
    answer is built (a 500, not a 404), and so does the listing of all
    sales; the database is as it was.  The exception is
    [AttributeError], unless a line or a sale met before has no price or
    no total, which pydantic refuses first: asking for a sale whose
    lines all have a price fails with [AttributeError], and so does the
    listing when every line has a price and every sale a total. *)
Theorem venta_ilegible_sin_producto (t : Tablas) (v : VentaDB.t) :
  In v (ventas t) ->
  venta_con_linea_huerfana t (VentaDB.id v) ->
  rechazada (obtener_venta (VentaDB.id v) t) t es_fallo_de_respuesta /\
  rechazada (listar_ventas t) t es_fallo_de_respuesta /\
  (Forall (fun d => es_None (DetalleVentaDB.precio_unitario d) = false)
     (detalles_de_venta (VentaDB.id v) t) ->
   obtener_venta (VentaDB.id v) t = (Lanza AttributeError, t)) /\
  (Forall (fun d => es_None (DetalleVentaDB.precio_unitario d) = false)
     (detalles_venta t) ->
   Forall (fun v' => es_None (VentaDB.total v') = false) (ventas t) ->
   listar_ventas t = (Lanza AttributeError, t)).
Proof.
  intros Hv Hh.
  destruct (venta_por_id_presente t v Hv) as (v' & Hf & Hid).
  assert (Hh' : venta_con_linea_huerfana t (VentaDB.id v')) by (rewrite Hid; exact Hh).
  destruct (respuesta_venta_huerfana t v' Hh') as [e He].
  assert (Hob : obtener_venta (VentaDB.id v) t = (Lanza e, t)).
  { rewrite obtener_venta_eq, clave_enlazable_In, Hf, He; [reflexivity |].
    unfold claves_de_ventas. apply in_map; exact Hv. }
  split; [| split; [| split]].
  - exists e. split; [exact Hob |]. exact (proj1 (respuesta_venta_Lanza _ _ _ He)).
  - unfold listar_ventas, Depends_get_db, listar_ventas_cuerpo.
    unfold bind at 1, leer at 1. cbn [SessionLocal en_sesion].
    destruct (for_each_respuestas_Lanza respuesta_venta es_fallo_de_respuesta
                (ventas t) v t
                (fun y e' _ Hy => proj1 (respuesta_venta_Lanza _ _ _ Hy)) Hv
                (respuesta_venta_huerfana t v Hh) [] (mkSession t t) eq_refl)
      as (e' & Hl & Pe').
    unfold responder_venta, SessionLocal. rewrite Hl.
    exists e'. split; [reflexivity | exact Pe'].
  - intros Hp. rewrite Hob. f_equal. f_equal.
    destruct (respuesta_venta_Lanza _ _ _ He) as [_ Ha].
    rewrite Hid in Ha. unfold respuesta_venta in He.
    destruct (detalles_respuesta_venta t (detalles_de_venta (VentaDB.id v') t))
      as [ds | e''] eqn:Ed.
    + exfalso. destruct Hh' as (d & Hd & Hpd).
      unfold detalles_respuesta_venta in Ed.
      destruct (cada_uno_Lanza_en
                  (fun d => a_detalle t (DetalleVentaDB.producto_id d)
                              (DetalleVentaDB.cantidad d)
                              (DetalleVentaDB.precio_unitario d))
                  _ d AttributeError Hd) as [e0 He0].
      * unfold a_detalle. rewrite Hpd. reflexivity.
      * congruence.
    + inversion He; subst e''. unfold detalles_respuesta_venta in Ed.
      rewrite Forall_forall in Hp. rewrite Hid in Ed.
      apply (cada_uno_Lanza_de _ (fun e => e = AttributeError) _ _
               (fun y e' Hin Hy => proj2 (a_detalle_Lanza _ _ _ _ _ Hy) (Hp y Hin)) Ed).
  - intros Hp Ht.
    unfold listar_ventas, Depends_get_db, listar_ventas_cuerpo.
    unfold bind at 1, leer at 1. cbn [SessionLocal en_sesion].
    destruct (for_each_respuestas_Lanza respuesta_venta (fun e => e = AttributeError)
                (ventas t) v t) with (acc := @nil Venta) (s := mkSession t t)
      as (e' & Hl & ->).
    + intros y e' Hy Hr. rewrite Forall_forall in Ht.
      exact (proj2 (respuesta_venta_Lanza _ _ _ Hr)
               (Forall_detalles_de_venta _ _ _ Hp) (Ht y Hy)).
    + exact Hv.
    + exact (respuesta_venta_huerfana t v Hh).
    + reflexivity.
    + unfold responder_venta, SessionLocal. rewrite Hl. reflexivity.
Qed.

Lemma venta_ilegible_sin_producto_testigo :
  let t := mkTablas [] [VentaDB.mk 1 9 30%float]
             [DetalleVentaDB.mk 1 1 1 2 10%float; DetalleVentaDB.mk 2 1 1 1 10%float]
             [CuentaPendienteDB.mk 1 "Ana" 7 "pagada" 30%float]
             [DetalleCuentaPendienteDB.mk 1 1 1 2 10%float;
              DetalleCuentaPendienteDB.mk 2 1 1 1 10%float] in
  rechazada (obtener_venta 1 t) t es_fallo_de_respuesta /\
  rechazada (listar_ventas t) t es_fallo_de_respuesta /\
  (Forall (fun d => es_None (DetalleVentaDB.precio_unitario d) = false)
     (detalles_de_venta 1 t) ->
   obtener_venta 1 t = (Lanza AttributeError, t)) /\
  (Forall (fun d => es_None (DetalleVentaDB.precio_unitario d) = false)
     (detalles_venta t) ->
   Forall (fun v' => es_None (VentaDB.total v') = false) (ventas t) ->
   listar_ventas t = (Lanza AttributeError, t)).
Proof.
  apply (venta_ilegible_sin_producto _ (VentaDB.mk 1 9 30%float)).
  - simpl; auto.
  - exists (DetalleVentaDB.mk 1 1 1 2 10%float). split; [simpl; auto | reflexivity].
Defined.

(** A line without price comes first: the sale has no answer either,
    but the exception is pydantic's. *)
Example venta_ilegible_por_precio_nulo :
  let t := mkTablas [ProductoDB.mk 1 "Leche" "750" 10%float 2] [VentaDB.mk 1 9 30%float]
             [DetalleVentaDB.mk 1 1 1 2 nan; DetalleVentaDB.mk 2 1 7 1 10%float] [] [] in
  venta_con_linea_huerfana t 1 /\
  obtener_venta 1 t = (Lanza ValidationError, t) /\
  listar_ventas t = (Lanza ValidationError, t).
Proof.
  cbv zeta. split; [| split; vm_compute; reflexivity].
  exists (DetalleVentaDB.mk 2 1 7 1 10%float). split; [simpl; auto | reflexivity].
Qed.

Lemma en_int64_iff n : en_int64 n = true <-> - 2 ^ 63 <= n < 2 ^ 63.
Proof.
  unfold en_int64. rewrite andb_true_iff, Z.leb_le, Z.ltb_lt. reflexivity.
Qed.

(** Asking for a sale under an id that no sale has changes nothing.  It
    is answered 404 "Venta no encontrada" when the id is within signed
    64 bits; an id outside them cannot be bound to the query, which
    raises [OverflowError].  And 404 is answered for no id that some
    sale has. *)
Theorem obtener_venta_404 (i : Z) (t : Tablas) :
  (~ In i (map VentaDB.id (ventas t)) ->
   en_int64 i = true ->
   obtener_venta i t = (Lanza (HTTPException 404 "Venta no encontrada"), t))
  /\
  (~ In i (map VentaDB.id (ventas t)) ->
   en_int64 i = false ->
   obtener_venta i t = (Lanza OverflowError, t))
  /\
  (estado_http (fst (obtener_venta i t)) = 404 ->
   ~ In i (map VentaDB.id (ventas t))).
Proof.
  assert (Hn : ~ In i (map VentaDB.id (ventas t)) -> venta_por_id i t = None).
  { intros Hout. unfold venta_por_id.
    destruct (find (es_venta i) (ventas t)) as [v |] eqn:E; [| reflexivity].
    exfalso. apply find_some in E. destruct E as [Hin He].
    apply Z.eqb_eq in He. apply Hout. rewrite <- He. apply in_map; exact Hin. }
  split; [| split].
  - intros Hout Hr. rewrite obtener_venta_eq.
    rewrite (clave_enlazable_ausente i (claves_de_ventas t) Hout), Hr, (Hn Hout).
    reflexivity.
  - intros Hout Hr. rewrite obtener_venta_eq.
    rewrite (clave_enlazable_ausente i (claves_de_ventas t) Hout), Hr. reflexivity.
  - rewrite obtener_venta_eq.
    destruct (clave_enlazable i (claves_de_ventas t)); [| simpl; discriminate].
    destruct (venta_por_id i t) as [v |] eqn:E.
    + cbn [fst]. destruct (respuesta_venta t v) as [r | e] eqn:Er;
        [simpl; discriminate |].
      destruct (respuesta_venta_Lanza _ _ _ Er) as [[-> | ->] _]; simpl; discriminate.
    + intros _ Hin. apply in_map_iff in Hin. destruct Hin as (v & Hid & Hv).
      unfold venta_por_id in E.
      pose proof (find_none _ _ E v Hv) as Hf. unfold es_venta in Hf.
      rewrite Hid, Z.eqb_refl in Hf. discriminate.
Qed.

Lemma obtener_venta_404_testigo :
  obtener_venta 5 tienda_saldada
  = (Lanza (HTTPException 404 "Venta no encontrada"), tienda_saldada).
Proof.
  apply (proj1 (obtener_venta_404 5 tienda_saldada)).
  - simpl. intros [H | H]; [discriminate | exact H].
  - reflexivity.
Defined.

(** [GET /api/ventas/{2**63}]. *)
Example obtener_venta_fuera_de_rango :
  obtener_venta (2 ^ 63) tienda_saldada = (Lanza OverflowError, tienda_saldada).
Proof. vm_compute. reflexivity. Qed.

(** ** The endpoints that read write nothing *)

(** Whatever they answer, and whether they answer or fail, the five
    [GET] endpoints leave the database exactly as it was. *)
Theorem lecturas_no_modifican (t : Tablas) :
  (forall skip limite, snd (listar_productos skip limite t) = t) /\
  (forall codigo_barras, snd (buscar_producto_codigo codigo_barras t) = t) /\
  snd (listar_ventas t) = t /\
  (forall venta_id, snd (obtener_venta venta_id t) = t) /\
  snd (listar_cuentas_pendientes t) = t.
Proof.
  repeat split; intros;
    unfold listar_productos, buscar_producto_codigo, listar_ventas, obtener_venta,
      listar_cuentas_pendientes;
    (apply (Depends_get_db_preserva (fun t' => t' = t)); [| reflexivity]);
    unfold listar_productos_cuerpo, buscar_producto_codigo_cuerpo,
      listar_ventas_cuerpo, obtener_venta_cuerpo, listar_cuentas_pendientes_cuerpo,
      responder_venta, responder_cuenta;
    preserva_estructura fail.
Qed.

(** ** Listing products page by page *)

Lemma listar_productos_eq skip limite t :
  listar_productos skip limite t
  = if en_int64 skip && en_int64 limite
    then (Retorna (limit limite (offset skip (productos t))), t)
    else (Lanza OverflowError, t).
Proof.
  unfold listar_productos, Depends_get_db, listar_productos_cuerpo.
  destruct (en_int64 skip && en_int64 limite); reflexivity.
Qed.

Lemma firstn_suma {A} (n m : nat) (l : list A) :
  firstn (n + m) l = firstn n l ++ firstn m (skipn n l).
Proof.
  revert l. induction n as [| n IH]; intros l; simpl; [reflexivity |].
  destruct l as [| x l]; simpl.
  - destruct m; reflexivity.
  - rewrite IH. reflexivity.
Qed.

Lemma skipn_suma {A} (n m : nat) (l : list A) :
  skipn (n + m) l = skipn m (skipn n l).
Proof.
  revert l. induction n as [| n IH]; intros l; simpl; [reflexivity |].
  destruct l as [| x l]; simpl; [destruct m; reflexivity | apply IH].
Qed.

(** With an offset and limits that are not negative and, like the
    offset and the limit of the pages put end to end, within signed 64
    bits, a page holds at most [limit] products, taken from the table in
    its order after the first [skip]; the page that starts where a page
    ends continues it, so consecutive pages put end to end are the one
    longer page; and a page from offset 0 that is as long as the table
    is the whole table.  An offset or a limit outside 64 bits cannot be
    bound to the query, which raises [OverflowError]. *)
Theorem listar_productos_paginas (skip n m : Z) (t : Tablas) :
  0 <= skip -> 0 <= n -> 0 <= m ->
  skip + n < 2 ^ 63 -> n + m < 2 ^ 63 ->
  (exists p1 p2,
     listar_productos skip n t = (Retorna p1, t) /\
     listar_productos (skip + n) m t = (Retorna p2, t) /\
     listar_productos skip (n + m) t = (Retorna (p1 ++ p2)%list, t) /\
     Z.of_nat (List.length p1) <= n /\
     (exists antes despues, productos t = (antes ++ p1 ++ despues)%list /\
                            Z.of_nat (List.length antes) <= skip) /\
     (skip = 0 -> Z.of_nat (List.length (productos t)) <= n -> p1 = productos t))
  /\
  (forall s l, en_int64 s && en_int64 l = false ->
               listar_productos s l t = (Lanza OverflowError, t)).
Proof.
  intros Hs Hn Hm Hsn Hnm. split.
  2: { intros s l H. rewrite listar_productos_eq, H. reflexivity. }
  assert (R : forall x, 0 <= x < 2 ^ 63 -> en_int64 x = true).
  { intros x Hx. apply en_int64_iff. lia. }
  rewrite !listar_productos_eq.
  rewrite (R skip), (R n), (R (skip + n)), (R m), (R (n + m)) by lia.
  cbn [andb]. unfold limit, offset.
  assert (En : (n <? 0) = false) by (apply Z.ltb_ge; lia).
  assert (Em : (m <? 0) = false) by (apply Z.ltb_ge; lia).
  assert (Enm : (n + m <? 0) = false) by (apply Z.ltb_ge; lia).
  rewrite En, Em, Enm.
  rewrite (Z2Nat.inj_add skip n Hs Hn), (Z2Nat.inj_add n m Hn Hm).
  do 2 eexists. split; [reflexivity |]. split; [reflexivity |].
  split; [| split; [| split]].
  - rewrite firstn_suma, skipn_suma. reflexivity.
  - pose proof (firstn_le_length (Z.to_nat n) (skipn (Z.to_nat skip) (productos t))).
    lia.
  - exists (firstn (Z.to_nat skip) (productos t)),
      (skipn (Z.to_nat n) (skipn (Z.to_nat skip) (productos t))).
    split.
    + rewrite (firstn_skipn (Z.to_nat n)), (firstn_skipn (Z.to_nat skip)). reflexivity.
    + pose proof (firstn_le_length (Z.to_nat skip) (productos t)). lia.
  - intros -> Hlen. simpl. apply firstn_all2. lia.
Qed.

Lemma listar_productos_paginas_testigo :
  (exists p1 p2,
     listar_productos 0 1 tienda_leche = (Retorna p1, tienda_leche) /\
     listar_productos (0 + 1) 100 tienda_leche = (Retorna p2, tienda_leche) /\
     listar_productos 0 (1 + 100) tienda_leche = (Retorna (p1 ++ p2)%list, tienda_leche) /\
     Z.of_nat (List.length p1) <= 1 /\
     (exists antes despues, productos tienda_leche = (antes ++ p1 ++ despues)%list /\
                            Z.of_nat (List.length antes) <= 0) /\
     (0 = 0 -> Z.of_nat (List.length (productos tienda_leche)) <= 1 ->
      p1 = productos tienda_leche))
  /\
  (forall s l, en_int64 s && en_int64 l = false ->
               listar_productos s l tienda_leche = (Lanza OverflowError, tienda_leche)).
Proof.
  apply (listar_productos_paginas 0 1 100 tienda_leche); lia.
Defined.

(** ** What a sale and an account opening are answered with *)

(** A sale request that is answered is answered with a sale under a new
    id, dated [ahora], with one line per line of the request, in order,
    each with the price and the name of its product, and with the float
    sum of the lines' quantity times price as total; and each product is
    left with what it had less all the request asked of it. *)
Theorem crear_venta_respuesta (ahora : Z) (venta : VentaCreate) (t t' : Tablas)
    (v : Venta) :
  bien_formada t ->
  crear_venta ahora venta t = (Retorna v, t') ->
  v_fecha v = ahora /\
  ~ In (v_id v) (map VentaDB.id (ventas t)) /\
  Forall2 (detalle_servido t) (vc_detalles venta) (v_detalles v) /\
  v_total v = sumar 0%float (map subtotal_detalle (v_detalles v)) /\
  stock_descontado t t' (vc_detalles venta).
Proof.
  intros Hbf H.
  destruct (crear_venta_lineas ahora venta t Hbf)
    as [[e He] | (nuevas & total & ps' & Heq & Hde & Htot & Hst & Hall)];
    [rewrite He in H; discriminate |].
  cbv zeta in Heq, Hde, Hst.
  destruct (respuesta_venta_nueva t _ _ _ _ ahora total _ Hst Hde Hall)
    as (detalles & Hr & Hd & Hs).
  rewrite Heq, Hr in H. destruct (es_None total); [discriminate |].
  inversion H; subst v t'; clear H.
  cbn [v_fecha v_id v_detalles v_total].
  split; [reflexivity |]. split; [apply siguiente_id_fresco |].
  split; [exact Hd |]. split; [rewrite Hs; exact Htot | exact Hst].
Qed.

Lemma crear_venta_respuesta_testigo :
  let venta := mkVentaCreate [mkDetalleCreate 1 3] in
  let v := mkVenta 1 100 30%float [mkDetalle 1 3 10%float (Some "Leche"%string)] in
  let t' := mkTablas [ProductoDB.mk 1 "Leche" "750" 10%float 2]
              [VentaDB.mk 1 100 30%float] [DetalleVentaDB.mk 1 1 1 3 10%float] [] [] in
  v_fecha v = 100 /\
  ~ In (v_id v) (map VentaDB.id (ventas tienda_leche)) /\
  Forall2 (detalle_servido tienda_leche) (vc_detalles venta) (v_detalles v) /\
  v_total v = sumar 0%float (map subtotal_detalle (v_detalles v)) /\
  stock_descontado tienda_leche t' (vc_detalles venta).
Proof.
  apply (crear_venta_respuesta 100 (mkVentaCreate [mkDetalleCreate 1 3]) tienda_leche
           (mkTablas [ProductoDB.mk 1 "Leche" "750" 10%float 2]
              [VentaDB.mk 1 100 30%float] [DetalleVentaDB.mk 1 1 1 3 10%float] [] [])
           (mkVenta 1 100 30%float [mkDetalle 1 3 10%float (Some "Leche"%string)])).
  - repeat split; simpl; repeat constructor; simpl; tauto.
  - vm_compute. reflexivity.
Defined.

(** Opening an account has one of three outcomes.  The request is
    refused and the database is as it was.  Or it is answered with an
    account under a new id, pending, in the client's name and dated
    [ahora], with one line per line of the request, in order, each with
    the price and the name of its product, and the float sum of the lines
    as total; the account is added at the end of its table and each
    product is left with what it had less all the request asked of it.
    Or the total of its lines is not a number: then the account is
    committed all the same, with [NULL] as total and the stock taken,
    and the request fails with [ValidationError] while the answer is
    built. *)
Theorem crear_cuenta_pendiente_desenlaces (ahora : Z) (cuenta : CuentaPendienteCreate)
    (t : Tablas) :
  bien_formada t ->
  (exists e, crear_cuenta_pendiente ahora cuenta t = (Lanza e, t)) \/
  (exists r t',
     crear_cuenta_pendiente ahora cuenta t = (Retorna r, t') /\
     c_nombre_cliente r = cc_nombre_cliente cuenta /\
     c_fecha_creacion r = ahora /\
     c_estado r = "pendiente"%string /\
     ~ In (c_id r) (map CuentaPendienteDB.id (cuentas_pendientes t)) /\
     Forall2 (detalle_servido t) (cc_detalles cuenta) (c_detalles r) /\
     es_None (c_total r) = false /\
     c_total r = sumar 0%float (map subtotal_detalle (c_detalles r)) /\
     cuentas_pendientes t' =
       (cuentas_pendientes t ++
        [CuentaPendienteDB.mk (c_id r) (c_nombre_cliente r) ahora "pendiente" (c_total r)])%list /\
     stock_descontado t t' (cc_detalles cuenta)) \/
  (exists total t',
     crear_cuenta_pendiente ahora cuenta t = (Lanza ValidationError, t') /\
     es_None total = true /\
     cuentas_pendientes t' =
       (cuentas_pendientes t ++
        [CuentaPendienteDB.mk
           (siguiente_id (map CuentaPendienteDB.id (cuentas_pendientes t)))
           (cc_nombre_cliente cuenta) ahora "pendiente" total])%list /\
     stock_descontado t t' (cc_detalles cuenta)).
Proof.
  intros Hbf.
  destruct (crear_cuenta_pendiente_lineas ahora cuenta t Hbf)
    as [Hno | (nuevas & total & ps' & Heq & Hde & _ & Htot & Hst & Hall)];
    [left; exact Hno | right].
  cbv zeta in Heq, Hde, Hst.
  match type of Heq with
  | _ = (respuesta_cuenta ?a ?b, _) =>
      destruct (respuesta_cuenta_nueva t a _ _ b nuevas Hst Hde Hall)
        as (detalles & Hr & Hd & Hs)
  end.
  rewrite Hr in Heq. cbn [CuentaPendienteDB.total] in Heq.
  destruct (es_None total) eqn:Enone.
  - right. do 2 eexists. split; [exact Heq |]. split; [exact Enone |].
    split; [reflexivity | exact Hst].
  - left. do 2 eexists. split; [exact Heq |].
    cbn [c_nombre_cliente c_fecha_creacion c_estado c_id c_detalles
      c_total CuentaPendienteDB.id CuentaPendienteDB.nombre_cliente
      CuentaPendienteDB.fecha_creacion CuentaPendienteDB.estado CuentaPendienteDB.total].
    repeat (split; [reflexivity |]).
    split; [apply siguiente_id_fresco |]. split; [exact Hd |].
    split; [exact Enone |].
    split; [rewrite Hs; exact Htot |]. split; [reflexivity | exact Hst].
Qed.

Lemma crear_cuenta_pendiente_desenlaces_testigo :
  let cuenta := mkCuentaPendienteCreate "Ana" [mkDetalleCreate 1 3] in
  let t := tienda_leche in
  (exists e, crear_cuenta_pendiente 7 cuenta t = (Lanza e, t)) \/
  (exists r t',
     crear_cuenta_pendiente 7 cuenta t = (Retorna r, t') /\
     c_nombre_cliente r = cc_nombre_cliente cuenta /\
     c_fecha_creacion r = 7 /\
     c_estado r = "pendiente"%string /\
     ~ In (c_id r) (map CuentaPendienteDB.id (cuentas_pendientes t)) /\
     Forall2 (detalle_servido t) (cc_detalles cuenta) (c_detalles r) /\
     es_None (c_total r) = false /\
     c_total r = sumar 0%float (map subtotal_detalle (c_detalles r)) /\
     cuentas_pendientes t' =
       (cuentas_pendientes t ++
        [CuentaPendienteDB.mk (c_id r) (c_nombre_cliente r) 7 "pendiente" (c_total r)])%list /\
     stock_descontado t t' (cc_detalles cuenta)) \/
  (exists total t',
     crear_cuenta_pendiente 7 cuenta t = (Lanza ValidationError, t') /\
     es_None total = true /\
     cuentas_pendientes t' =
       (cuentas_pendientes t ++
        [CuentaPendienteDB.mk
           (siguiente_id (map CuentaPendienteDB.id (cuentas_pendientes t)))
           (cc_nombre_cliente cuenta) 7 "pendiente" total])%list /\
     stock_descontado t t' (cc_detalles cuenta)).
Proof.
  apply (crear_cuenta_pendiente_desenlaces 7
           (mkCuentaPendienteCreate "Ana" [mkDetalleCreate 1 3]) tienda_leche).
  repeat split; simpl; repeat constructor; simpl; tauto.
Defined.

(** The same product priced at infinity, on an account. *)
Example cuenta_con_total_nulo :
  let t := mkTablas [ProductoDB.mk 1 "Oro" "1" infinity 5] [] [] [] [] in
  crear_cuenta_pendiente 7 (mkCuentaPendienteCreate "Ana" [mkDetalleCreate 1 0]) t
  = (Lanza ValidationError,
     mkTablas [ProductoDB.mk 1 "Oro" "1" infinity 5] [] []
       [CuentaPendienteDB.mk 1 "Ana" 7 "pendiente" nan]
       [DetalleCuentaPendienteDB.mk 1 1 1 0 infinity]).
Proof. vm_compute. reflexivity. Qed.

(** ** Accounts with a line whose product is gone *)

Lemma In_cuentas_activas t c :
  In c (cuentas_pendientes t) ->
  CuentaPendienteDB.estado c = "pendiente"%string ->
  In c (cuentas_activas t).
Proof.
  intros Hin He. unfold cuentas_activas. apply filter_In. split; [exact Hin |].
  rewrite He. reflexivity.
Qed.

(** Once a product named by a line of a pending account is gone from
    the table, the list of pending accounts can no longer be read: it
    fails while the answer is built (a 500) for every client, and the
    database is as it was.  Settling that account fails likewise, but
    only after the commit: the sale is in the ledger, with the account's
    total, the account is no longer pending, and the products are
    untouched.  The exception is [AttributeError], unless a line or an
    account met before has no price or no total, which pydantic refuses
    first: when every account line has a price and every account a
    total, both fail with [AttributeError]. *)
Theorem cuenta_ilegible_sin_producto (ahora : Z) (t : Tablas) (c : CuentaPendienteDB.t) :
  bien_formada t ->
  In c (cuentas_pendientes t) ->
  CuentaPendienteDB.estado c = "pendiente"%string ->
  cuenta_con_linea_huerfana t (CuentaPendienteDB.id c) ->
  rechazada (listar_cuentas_pendientes t) t es_fallo_de_respuesta /\
  (exists e t',
     pagar_cuenta_pendiente ahora (CuentaPendienteDB.id c) t = (Lanza e, t') /\
     es_fallo_de_respuesta e /\
     ventas t' =
       (ventas t ++ [VentaDB.mk (siguiente_id (map VentaDB.id (ventas t))) ahora
                       (CuentaPendienteDB.total c)])%list /\
     cuenta_pendiente_por_id (CuentaPendienteDB.id c) t' = None /\
     productos t' = productos t) /\
  (Forall (fun d => es_None (DetalleCuentaPendienteDB.precio_unitario d) = false)
     (detalles_cuenta_pendiente t) ->
   Forall (fun c' => es_None (CuentaPendienteDB.total c') = false)
     (cuentas_pendientes t) ->
   listar_cuentas_pendientes t = (Lanza AttributeError, t) /\
   fst (pagar_cuenta_pendiente ahora (CuentaPendienteDB.id c) t) = Lanza AttributeError).
Proof.
  intros (Hcod & (Hn & _ & _) & Halm) Hin He Hh.
  pose proof (cuenta_pendiente_por_id_pendiente t c Hn Hin He) as Hc.
  pose proof (pagar_cuenta_Retorna ahora _ t c Hcod Hc) as Hpag.
  cbv zeta in Hpag. rewrite (pagar_cuenta_escribible _ _ _ _ _ _ Halm) in Hpag.
  match type of Hpag with
  | _ = (respuesta_cuenta ?a ?b, _) => set (t' := a) in *; set (c' := b) in *
  end.
  assert (Hh' : cuenta_con_linea_huerfana t' (CuentaPendienteDB.id c')).
  { destruct Hh as (d & Hd & Hp). exists d. split; [exact Hd | exact Hp]. }
  destruct (respuesta_cuenta_huerfana t' c' Hh') as [e Hr].
  rewrite Hr in Hpag.
  split; [| split].
  - unfold listar_cuentas_pendientes, Depends_get_db, listar_cuentas_pendientes_cuerpo.
    unfold bind at 1, leer at 1. cbn [SessionLocal en_sesion].
    destruct (for_each_respuestas_Lanza respuesta_cuenta es_fallo_de_respuesta
                (cuentas_activas t) c t
                (fun y e' _ Hy => proj1 (respuesta_cuenta_Lanza _ _ _ Hy))
                (In_cuentas_activas t c Hin He)
                (respuesta_cuenta_huerfana t c Hh) [] (mkSession t t) eq_refl)
      as (e' & Hl & Pe').
    unfold responder_cuenta, SessionLocal. rewrite Hl.
    exists e'. split; [reflexivity | exact Pe'].
  - exists e, t'. split; [exact Hpag |].
    split; [exact (proj1 (respuesta_cuenta_Lanza _ _ _ Hr)) |].
    split; [reflexivity |]. split; [| reflexivity].
    unfold cuenta_pendiente_por_id in Hc.
    destruct (actualizar_primero_partes _
                (fun c0 => CuentaPendienteDB.con_estado c0 "pagada") _ _ Hc)
      as (l1 & l2 & Hl & Hact).
    assert (Hids : map CuentaPendienteDB.id (cuentas_pendientes t')
                   = map CuentaPendienteDB.id (cuentas_pendientes t)).
    { cbn [t' cuentas_pendientes]. rewrite Hact, Hl, !map_app. reflexivity. }
    change (CuentaPendienteDB.id c) with (CuentaPendienteDB.id c').
    apply cuenta_pendiente_por_id_saldada.
    + rewrite Hids. exact Hn.
    + cbn [t' cuentas_pendientes]. rewrite Hact. apply in_or_app. right. left. reflexivity.
    + simpl. discriminate.
  - intros Hp Ht. split.
    + unfold listar_cuentas_pendientes, Depends_get_db, listar_cuentas_pendientes_cuerpo.
      unfold bind at 1, leer at 1. cbn [SessionLocal en_sesion].
      destruct (for_each_respuestas_Lanza respuesta_cuenta (fun e => e = AttributeError)
                  (cuentas_activas t) c t)
        with (acc := @nil CuentaPendiente) (s := mkSession t t)
        as (e' & Hl & ->).
      * intros y e' Hy Hry. rewrite Forall_forall in Ht.
        unfold cuentas_activas in Hy. apply filter_In in Hy.
        exact (proj2 (respuesta_cuenta_Lanza _ _ _ Hry)
                 (Forall_detalles_de_cuenta _ _ _ Hp) (Ht y (proj1 Hy))).
      * exact (In_cuentas_activas t c Hin He).
      * exact (respuesta_cuenta_huerfana t c Hh).
      * reflexivity.
      * unfold responder_cuenta, SessionLocal. rewrite Hl. reflexivity.
    + rewrite Hpag. cbn [fst]. f_equal.
      apply (proj2 (respuesta_cuenta_Lanza _ _ _ Hr)).
      * apply (Forall_detalles_de_cuenta _ _ t'). exact Hp.
      * rewrite Forall_forall in Ht. exact (Ht c Hin).
Qed.

Lemma cuenta_ilegible_sin_producto_testigo :
  let t := mkTablas [] [] []
             [CuentaPendienteDB.mk 1 "Ana" 7 "pendiente" 30%float]
             [DetalleCuentaPendienteDB.mk 1 1 1 2 10%float;
              DetalleCuentaPendienteDB.mk 2 1 1 1 10%float] in
  rechazada (listar_cuentas_pendientes t) t es_fallo_de_respuesta /\
  (exists e t',
     pagar_cuenta_pendiente 9 1 t = (Lanza e, t') /\
     es_fallo_de_respuesta e /\
     ventas t' = [VentaDB.mk 1 9 30%float] /\
     cuenta_pendiente_por_id 1 t' = None /\
     productos t' = []) /\
  (Forall (fun d => es_None (DetalleCuentaPendienteDB.precio_unitario d) = false)
     (detalles_cuenta_pendiente t) ->
   Forall (fun c' => es_None (CuentaPendienteDB.total c') = false)
     (cuentas_pendientes t) ->
   listar_cuentas_pendientes t = (Lanza AttributeError, t) /\
   fst (pagar_cuenta_pendiente 9 1 t) = Lanza AttributeError).
Proof.
  apply (cuenta_ilegible_sin_producto 9
           (mkTablas [] [] []
              [CuentaPendienteDB.mk 1 "Ana" 7 "pendiente" 30%float]
              [DetalleCuentaPendienteDB.mk 1 1 1 2 10%float;
               DetalleCuentaPendienteDB.mk 2 1 1 1 10%float])
           (CuentaPendienteDB.mk 1 "Ana" 7 "pendiente" 30%float)).
  - repeat split; simpl; repeat constructor; simpl; tauto.
  - simpl; auto.
  - reflexivity.
  - exists (DetalleCuentaPendienteDB.mk 1 1 1 2 10%float).
    split; [simpl; auto | reflexivity].
Defined.

(** ** What adding to an account is answered with *)

Lemma cada_uno_app {A B} (f : A -> Resultado B) (xs ys : list A) r :
  cada_uno f (xs ++ ys) = Retorna r ->
  exists a b, r = (a ++ b)%list /\ cada_uno f xs = Retorna a /\ cada_uno f ys = Retorna b.
Proof.
  revert r. induction xs as [| x xs IH]; intros r; simpl.
  - intros H. exists [], r. repeat split. exact H.
  - destruct (f x) as [y | e]; [| discriminate].
    destruct (cada_uno f (xs ++ ys)) as [r' | e] eqn:E; [| discriminate].
    intros H; inversion H; subst r.
    destruct (IH r' eq_refl) as (a & b & -> & -> & Hb).
    exists (y :: a), b. repeat split. exact Hb.
Qed.

Lemma cada_uno_length {A B} (f : A -> Resultado B) (xs : list A) r :
  cada_uno f xs = Retorna r -> List.length r = List.length xs.
Proof.
  revert r. induction xs as [| x xs IH]; intros r; simpl.
  - intros H; inversion H; reflexivity.
  - destruct (f x) as [y | e]; [| discriminate].
    destruct (cada_uno f xs) as [r' | e]; [| discriminate].
    intros H; inversion H; subst r. simpl. rewrite (IH r' eq_refl). reflexivity.
Qed.

(** A request to add to an account that is answered names an account
    that was pending; the answer carries the lines the account had
    followed by one line per line of the request, in order, each with the
    price and the name of its product; the total is the account's total
    plus the float sum of the new lines alone; and each product is left
    with what it had less all the request asked of it. *)
Theorem agregar_productos_respuesta (cuenta_id : Z) (req : AgregarProductosCuentaRequest)
    (t t' : Tablas) (r : CuentaPendiente) :
  bien_formada t ->
  agregar_productos_cuenta_pendiente cuenta_id req t = (Retorna r, t') ->
  exists cuenta viejas nuevas,
    cuenta_pendiente_por_id cuenta_id t = Some cuenta /\
    c_id r = cuenta_id /\
    c_estado r = "pendiente"%string /\
    c_detalles r = (viejas ++ nuevas)%list /\
    List.length viejas = List.length (detalles_de_cuenta cuenta_id t) /\
    Forall2 (detalle_servido t) (ar_detalles req) nuevas /\
    c_total r = (CuentaPendienteDB.total cuenta
                 + sumar 0%float (map subtotal_detalle nuevas))%float /\
    stock_descontado t t' (ar_detalles req).
Proof.
  intros Hbf H.
  destruct (agregar_productos_lineas cuenta_id req t Hbf)
    as [[e He] | (cuenta & filas & total & ps' & Hc & _ & Heq & Hde & _ & Htot
                  & Hst & Hall)];
    [rewrite He in H; discriminate |].
  cbv zeta in Heq, Hde, Hst. rewrite Heq in H. clear Heq.
  destruct (cuenta_pendiente_por_id_In _ _ _ Hc) as (_ & Hid & Hest & _).
  match type of H with
  | (respuesta_cuenta ?a ?b, _) = _ => set (tf := a) in *; set (c' := b) in *
  end.
  inversion H as [[Hr Ht]]. subst t'. clear H.
  destruct (respuesta_cuenta_Retorna _ _ _ Hr) as (_ & ds & Hds & ->).
  assert (Hidc : CuentaPendienteDB.id c' = cuenta_id) by exact Hid.
  rewrite Hidc, Hde, detalles_respuesta_cuenta_nuevos, map_app in Hds.
  destruct (cada_uno_app _ _ _ _ Hds) as (viejas & ns & -> & Hviejas & Hns).
  destruct (respuesta_de_lineas_servidas t tf _ _ _ Hst Hall) as (ns' & Hc2 & Hd & Hs).
  rewrite Hc2 in Hns. inversion Hns; subst ns'; clear Hns.
  exists cuenta, viejas, ns.
  cbn [c' c_id c_estado c_detalles c_total CuentaPendienteDB.id
    CuentaPendienteDB.estado CuentaPendienteDB.total CuentaPendienteDB.con_total].
  split; [exact Hc |]. split; [exact Hid |]. split; [exact Hest |].
  split; [reflexivity |]. split.
  { rewrite (cada_uno_length _ _ _ Hviejas), length_map. reflexivity. }
  split; [exact Hd |]. split; [| exact Hst].
  rewrite Hs, <- Htot. reflexivity.
Qed.

Lemma agregar_productos_respuesta_testigo :
  let req := mkAgregarProductosCuentaRequest [mkDetalleCreate 1 2] in
  let t' := mkTablas
              [ProductoDB.mk 1 "Leche" "750" 10%float 0]
              [] []
              [CuentaPendienteDB.mk 1 "Ana" 7 "pendiente" 50%float]
              [DetalleCuentaPendienteDB.mk 1 1 1 2 10%float;
               DetalleCuentaPendienteDB.mk 2 1 1 1 10%float;
               DetalleCuentaPendienteDB.mk 3 1 1 2 10%float] in
  let r := mkCuentaPendiente 1 "Ana" 7 "pendiente" 50%float
             [mkDetalle 1 2 10%float (Some "Leche"%string);
              mkDetalle 1 1 10%float (Some "Leche"%string);
              mkDetalle 1 2 10%float (Some "Leche"%string)] in
  exists cuenta viejas nuevas,
    cuenta_pendiente_por_id 1 tienda_con_cuenta = Some cuenta /\
    c_id r = 1 /\
    c_estado r = "pendiente"%string /\
    c_detalles r = (viejas ++ nuevas)%list /\
    List.length viejas = List.length (detalles_de_cuenta 1 tienda_con_cuenta) /\
    Forall2 (detalle_servido tienda_con_cuenta) (ar_detalles req) nuevas /\
    c_total r = (CuentaPendienteDB.total cuenta
                 + sumar 0%float (map subtotal_detalle nuevas))%float /\
    stock_descontado tienda_con_cuenta t' (ar_detalles req).
Proof.
  apply (agregar_productos_respuesta 1
           (mkAgregarProductosCuentaRequest [mkDetalleCreate 1 2]) tienda_con_cuenta).
  - repeat split; simpl; repeat constructor; simpl; tauto.
  - vm_compute. reflexivity.
Defined.

(** ** The ledgers only grow *)

Lemma libros_extendidos_refl t : libros_extendidos t t.
Proof. exists [], [], [], []. rewrite !app_nil_r. repeat split. Qed.

Lemma libros_extendidos_trans t1 t2 t3 :
  libros_extendidos t1 t2 -> libros_extendidos t2 t3 -> libros_extendidos t1 t3.
Proof.
  intros (vs & dvs & dcs & cs & Hv & Hdv & Hdc & Hc)
         (vs' & dvs' & dcs' & cs' & Hv' & Hdv' & Hdc' & Hc').
  exists (vs ++ vs')%list, (dvs ++ dvs')%list, (dcs ++ dcs')%list, (cs ++ cs')%list.
  rewrite Hv', Hdv', Hdc', Hc', Hv, Hdv, Hdc, Hc, !app_assoc. repeat split.
Qed.

Lemma libros_modificar t0 f :
  (forall t, libros_extendidos t (f t)) ->
  preserva (en_ambas (libros_extendidos t0)) (modificar f).
Proof.
  intros Hf. apply preserva_modificar. intros t Ht.
  exact (libros_extendidos_trans _ _ _ Ht (Hf t)).
Qed.

Lemma libros_solo_productos t ps : libros_extendidos t (con_productos t ps).
Proof. exists [], [], [], []. simpl. rewrite !app_nil_r. repeat split. Qed.

Lemma libros_con_cuentas t es f :
  (forall c, CuentaPendienteDB.id (f c) = CuentaPendienteDB.id c) ->
  libros_extendidos t (con_cuentas t (actualizar_primero es f (cuentas_pendientes t))).
Proof.
  intros Hf. exists [], [], [], []. simpl.
  rewrite (map_actualizar_primero _ _ _ _ Hf), !app_nil_r. repeat split.
Qed.

Lemma libros_add_detalle_cuenta t0 cid n :
  preserva (en_ambas (libros_extendidos t0)) (add_detalle_cuenta cid n).
Proof.
  apply libros_modificar. intros t.
  destruct (insertar_detalles_cuenta_filas cid [n] (detalles_cuenta_pendiente t))
    as (nuevas & Hins & _).
  exists [], [], nuevas, []. cbn [ventas detalles_venta detalles_cuenta_pendiente
    cuentas_pendientes]. rewrite Hins, !app_nil_r. repeat split.
Qed.

Lemma libros_add_venta t0 ahora total ds :
  preserva (en_ambas (libros_extendidos t0)) (add_venta ahora total ds).
Proof.
  intros s r s' [Hd Hs] H. inversion H; subst. split; [exact Hd |].
  cbn [en_sesion]. eapply libros_extendidos_trans; [exact Hs |].
  destruct (insertar_detalles_venta_filas
              (siguiente_id (map VentaDB.id (ventas (en_sesion s)))) ds
              (detalles_venta (en_sesion s))) as (nuevas & Hins & _).
  eexists _, nuevas, [], [].
  cbn [ventas detalles_venta detalles_cuenta_pendiente cuentas_pendientes VentaDB.id].
  split; [reflexivity |]. rewrite Hins, !app_nil_r. repeat split.
Qed.

Lemma libros_add_cuenta t0 ahora nombre total ds :
  preserva (en_ambas (libros_extendidos t0)) (add_cuenta ahora nombre total ds).
Proof.
  intros s r s' [Hd Hs] H. inversion H; subst. split; [exact Hd |].
  cbn [en_sesion]. eapply libros_extendidos_trans; [exact Hs |].
  destruct (insertar_detalles_cuenta_filas
              (siguiente_id (map CuentaPendienteDB.id (cuentas_pendientes (en_sesion s))))
              ds (detalles_cuenta_pendiente (en_sesion s))) as (nuevas & Hins & _).
  exists [], [], nuevas,
    [siguiente_id (map CuentaPendienteDB.id (cuentas_pendientes (en_sesion s)))].
  cbn [ventas detalles_venta detalles_cuenta_pendiente cuentas_pendientes
    CuentaPendienteDB.id].
  rewrite Hins, map_app, !app_nil_r. repeat split.
Qed.

Ltac libros_hoja :=
  first
    [ apply libros_add_venta
    | apply libros_add_cuenta
    | apply libros_add_detalle_cuenta
    | apply libros_modificar; intros ?;
      first [ apply libros_solo_productos
            | apply libros_con_cuentas; intros ?; reflexivity ] ].

Lemma libros_atender p t : libros_extendidos t (atender p t).
Proof.
  destruct p; cbn [atender];
    unfold crear_producto, editar_producto, eliminar_producto, crear_venta,
      crear_cuenta_pendiente, agregar_productos_cuenta_pendiente, pagar_cuenta_pendiente;
    (apply (Depends_get_db_preserva (libros_extendidos t));
     [| apply libros_extendidos_refl]);
    unfold crear_producto_cuerpo, editar_producto_cuerpo, eliminar_producto_cuerpo,
      crear_venta_cuerpo, crear_venta_paso, crear_cuenta_pendiente_cuerpo,
      crear_cuenta_pendiente_paso, agregar_productos_cuenta_pendiente_cuerpo,
      agregar_productos_paso, pagar_cuenta_pendiente_cuerpo, asignar_cantidad;
    preserva_estructura libros_hoja.
Qed.

(** Whatever requests are served, in whatever order, and whatever they
    are answered: the sale ledger, the sale lines and the account lines
    afterwards are those before with rows added at the end, and the
    accounts keep their ids and their order, new accounts coming at the
    end.  No request deletes or rewrites a sale or a line. *)
Theorem libros_solo_crecen (ps : list Peticion) (t : Tablas) :
  libros_extendidos t (atender_todas ps t).
Proof.
  revert t. induction ps as [| p ps IH]; intros t; simpl.
  - apply libros_extendidos_refl.
  - exact (libros_extendidos_trans _ _ _ (libros_atender p t) (IH _)).
Qed.

(** ** An account that is settled stays as it is *)

Lemma In_actualizar_primero_otro {A} (es : A -> bool) f (xs : list A) x c :
  find es xs = Some x -> In c xs -> c <> x -> In c (actualizar_primero es f xs).
Proof.
  intros Hf Hin Hne.
  destruct (actualizar_primero_partes es f xs x Hf) as (l1 & l2 & Hl & ->).
  rewrite Hl in Hin. apply in_app_or in Hin. apply in_or_app.
  destruct Hin as [Hin | [Heq | Hin]]; [left; exact Hin | | right; right; exact Hin].
  exfalso. apply Hne. symmetry. exact Heq.
Qed.

Lemma cuenta_saldada_no_es_la_pendiente t i c cuenta :
  NoDup (map CuentaPendienteDB.id (cuentas_pendientes t)) ->
  In c (cuentas_pendientes t) ->
  CuentaPendienteDB.estado c <> "pendiente"%string ->
  cuenta_pendiente_por_id i t = Some cuenta ->
  c <> cuenta /\ CuentaPendienteDB.id cuenta <> CuentaPendienteDB.id c.
Proof.
  intros Hn Hin He Hc. unfold cuenta_pendiente_por_id in Hc.
  apply find_some in Hc. destruct Hc as [Hin' Hes].
  apply es_cuenta_pendiente_true in Hes. destruct Hes as [_ Hest].
  assert (Hne : c <> cuenta) by (intros ->; contradiction).
  split; [exact Hne |]. intros Hid. apply Hne.
  exact (In_misma_clave _ _ _ _ Hn Hin Hin' (eq_sym Hid)).
Qed.

Lemma cuenta_saldada_atender p t c :
  bien_formada t ->
  In c (cuentas_pendientes t) ->
  CuentaPendienteDB.estado c <> "pendiente"%string ->
  In c (cuentas_pendientes (atender p t)) /\
  detalles_de_cuenta (CuentaPendienteDB.id c) (atender p t)
  = detalles_de_cuenta (CuentaPendienteDB.id c) t.
Proof.
  intros Hbf Hin He.
  pose proof Hbf as (Hcod & (Hn & _ & _) & Halm).
  pose proof (cuentas_intactas p t) as Hfr.
  destruct p as [producto | i producto | i | ahora venta | ahora cuenta | cid req
                 | ahora cid].
  1-4: destruct Hfr as [Hcs Hds]; unfold detalles_de_cuenta; rewrite Hcs, Hds;
    split; [exact Hin | reflexivity].
  all: clear Hfr; cbn [atender].
  - destruct (crear_cuenta_pendiente_lineas ahora cuenta t Hbf)
      as [[e Hno] | (nuevas & total & ps' & Heq & _ & Hcid & _)].
    { rewrite Hno. split; [exact Hin | reflexivity]. }
    cbv zeta in Heq, Hcid. rewrite Heq. cbn [snd]. unfold detalles_de_cuenta.
    cbn [cuentas_pendientes detalles_cuenta_pendiente].
    split; [apply in_or_app; left; exact Hin |].
    rewrite filter_app, (filter_detalles_cuenta_ajenos _ _ _ Hcid), app_nil_r;
      [reflexivity |].
    intros Hid.
    apply (siguiente_id_fresco (map CuentaPendienteDB.id (cuentas_pendientes t))).
    rewrite Hid. apply in_map. exact Hin.
  - destruct (agregar_productos_lineas cid req t Hbf)
      as [[e Hno] | (cuenta & nuevas & total & ps' & Hc & _ & Heq & _ & Hcid & _)].
    { rewrite Hno. split; [exact Hin | reflexivity]. }
    cbv zeta in Heq. rewrite Heq. cbn [snd]. unfold detalles_de_cuenta.
    cbn [cuentas_pendientes detalles_cuenta_pendiente].
    destruct (cuenta_saldada_no_es_la_pendiente t cid c cuenta Hn Hin He Hc)
      as [Hne Hidne].
    destruct (cuenta_pendiente_por_id_In _ _ _ Hc) as (_ & Hid & _ & _).
    split; [exact (In_actualizar_primero_otro _ _ _ _ _ Hc Hin Hne) |].
    rewrite filter_app, (filter_detalles_cuenta_ajenos _ _ _ Hcid), app_nil_r;
      [reflexivity |].
    rewrite <- Hid. exact Hidne.
  - destruct (cuenta_pendiente_por_id cid t) as [cuenta |] eqn:Hc.
    2: { rewrite (pagar_cuenta_sin_cuenta _ _ _ Hc).
         split; [exact Hin | reflexivity]. }
    rewrite (pagar_cuenta_Retorna ahora cid t cuenta Hcod Hc).
    cbv zeta. rewrite (pagar_cuenta_escribible _ _ _ _ _ _ Halm).
    cbn [snd]. unfold detalles_de_cuenta.
    cbn [cuentas_pendientes detalles_cuenta_pendiente].
    destruct (cuenta_saldada_no_es_la_pendiente t cid c cuenta Hn Hin He Hc)
      as [Hne _].
    split; [exact (In_actualizar_primero_otro _ _ _ _ _ Hc Hin Hne) | reflexivity].
Qed.

(** An account that is no longer pending is never changed again:
    whatever requests are served afterwards, its row (state, total,
    client, date) is still in the table as it was, and its lines are the
    same lines. *)
Theorem cuenta_saldada_inmutable (ps : list Peticion) (t : Tablas)
    (c : CuentaPendienteDB.t) :
  bien_formada t ->
  In c (cuentas_pendientes t) ->
  CuentaPendienteDB.estado c <> "pendiente"%string ->
  In c (cuentas_pendientes (atender_todas ps t)) /\
  detalles_de_cuenta (CuentaPendienteDB.id c) (atender_todas ps t)
  = detalles_de_cuenta (CuentaPendienteDB.id c) t.
Proof.
  revert t. induction ps as [| p ps IH]; intros t Hbf Hin He; simpl.
  - split; [exact Hin | reflexivity].
  - destruct (cuenta_saldada_atender p t c Hbf Hin He) as [Hin' Hds].
    destruct (IH _ (bien_formada_atender p t Hbf) Hin' He) as [Hin'' Hds'].
    split; [exact Hin'' |]. rewrite Hds'. exact Hds.
Qed.

Lemma cuenta_saldada_inmutable_testigo :
  let ps := [PPagarCuenta 10 1;
             PAgregarProductos 1 (mkAgregarProductosCuentaRequest [mkDetalleCreate 1 1]);
             PCrearCuentaPendiente 11 (mkCuentaPendienteCreate "Ana" [mkDetalleCreate 1 1])] in
  let c := CuentaPendienteDB.mk 1 "Ana" 7 "pagada" 30%float in
  In c (cuentas_pendientes (atender_todas ps tienda_saldada)) /\
  detalles_de_cuenta (CuentaPendienteDB.id c) (atender_todas ps tienda_saldada)
  = detalles_de_cuenta (CuentaPendienteDB.id c) tienda_saldada.
Proof.
  apply (cuenta_saldada_inmutable
           [PPagarCuenta 10 1;
            PAgregarProductos 1 (mkAgregarProductosCuentaRequest [mkDetalleCreate 1 1]);
            PCrearCuentaPendiente 11 (mkCuentaPendienteCreate "Ana" [mkDetalleCreate 1 1])]
           tienda_saldada (CuentaPendienteDB.mk 1 "Ana" 7 "pagada" 30%float)).
  - repeat split; simpl; repeat constructor; simpl; tauto.
  - simpl; auto.
  - simpl. discriminate.
Defined.
